(** * Temporal classification and analytics core of the task manager

    A shallow embedding of the date utilities of the front end
    ([frontend/src/utils/dateUtils.ts]), of the reports route of the back
    end ([getDateRange], [calculateStreak] and the [GET /api/reports]
    handler) and of the routine validators (the two [validateForm]
    functions and the express-validator chains of
    [backend/src/routes/routines.js]), with the properties the
    specification states about them; and, beyond those, of
    [getTaskStatusText], of the scheduled tasks page ([getStatusCounts],
    [applyFilters]), of what the two forms submit, and of the
    [GET /api/reports/trends] handler. *)

From Stdlib Require Import ZArith List Bool Lia QArith Qround Permutation Sorted.
From Stdlib Require Import Ascii.
From stdpp Require Import gmap strings list sorting.

Local Open Scope Z_scope.

(** ** ECMAScript time values

    A JavaScript [Date] holds a time value: milliseconds since
    1970-01-01T00:00:00Z, here an integer ([None] stands for [NaN], an
    invalid date, wherever a time value may be missing). *)

Module Cal.

Definition msPerDay : Z := 86400000.

(** [Day(t)] and [TimeWithinDay(t)] of ECMA-262 (floor division). *)
Definition Day (t : Z) : Z := t / msPerDay.
Definition TimeWithinDay (t : Z) : Z := t mod msPerDay.

Definition isLeap (y : Z) : bool :=
  (y mod 4 =? 0) && (negb (y mod 100 =? 0) || (y mod 400 =? 0)).

Definition daysInMonth (y m : Z) : Z :=
  if m =? 2 then (if isLeap y then 29 else 28)
  else if (m =? 4) || (m =? 6) || (m =? 9) || (m =? 11) then 30
  else 31.

(** A calendar date: proleptic Gregorian year, month 1..12, day of month. *)
Record civil : Set := Civil { year : Z; month : Z; day : Z }.

Definition valid (c : civil) : Prop :=
  1 <= month c <= 12 /\ 1 <= day c <= daysInMonth (year c) (month c).

Definition validb (c : civil) : bool :=
  (1 <=? month c) && (month c <=? 12) && (1 <=? day c)
  && (day c <=? daysInMonth (year c) (month c)).

(** Days from 1 March of year 0 to 1 March of year [y]. *)
Definition yearDays (y : Z) : Z := 365 * y + y / 4 - y / 100 + y / 400.

(** Day number (days since 1970-01-01) of a calendar date; years are
    counted from March so that the leap day is the last day of the year. *)
Definition days_from_civil (c : civil) : Z :=
  let y := if month c <=? 2 then year c - 1 else year c in
  let mp := if month c <=? 2 then month c + 9 else month c - 3 in
  yearDays y + (153 * mp + 2) / 5 + day c - 1 - 719468.

(** The calendar date of a day number. *)
Definition civil_from_days (n : Z) : civil :=
  let z := n + 719468 in
  let era := z / 146097 in
  let doe := z mod 146097 in
  let yoe := (doe - doe / 1460 + doe / 36524 - doe / 146096) / 365 in
  let doy := doe - (365 * yoe + yoe / 4 - yoe / 100) in
  let mp := (5 * doy + 2) / 153 in
  let d := doy - (153 * mp + 2) / 5 + 1 in
  let m := if mp <? 10 then mp + 3 else mp - 9 in
  Civil (yoe + era * 400 + (if m <=? 2 then 1 else 0)) m d.

(** [MakeDay(year, month, date)] of ECMA-262: [month] is 0-based and may
    lie outside 0..11, [date] may lie outside the month; both carry over. *)
Definition MakeDay (y mo dt : Z) : Z :=
  days_from_civil (Civil (y + mo / 12) (mo mod 12 + 1) 1) + dt - 1.

Definition MakeDate (dayn time : Z) : Z := dayn * msPerDay + time.

Definition YearFromTime (t : Z) : Z := year (civil_from_days (Day t)).
(** 0-based, as [getMonth]. *)
Definition MonthFromTime (t : Z) : Z := month (civil_from_days (Day t)) - 1.
Definition DateFromTime (t : Z) : Z := day (civil_from_days (Day t)).
(** 0 is Sunday; 1970-01-01 was a Thursday. *)
Definition WeekDay (t : Z) : Z := (Day t + 4) mod 7.

(** Lexicographic order on year, month, day. *)
Definition civil_compare (a b : civil) : comparison :=
  match year a ?= year b with
  | Eq => match month a ?= month b with
          | Eq => day a ?= day b
          | c => c
          end
  | c => c
  end.

(** Day number of 1 January of year [y]. *)
Definition jan1 (y : Z) : Z := yearDays (y - 1) + 306 - 719468.

(** Day of the year, from 0. *)
Definition dayInYear (c : civil) : Z := days_from_civil c - jan1 (year c).

(** Days of the year before month [m]. *)
Definition monthStart (y m : Z) : Z :=
  (if m <=? 2 then 0 else (if isLeap y then 1 else 0))
  + nth (Z.to_nat (m - 1)) [0; 31; 59; 90; 120; 151; 181; 212; 243; 273; 304; 334] 0.

(** Length of the month before the month of [c]. *)
Definition prevMonthLength (c : civil) : Z :=
  if month c =? 1 then daysInMonth (year c - 1) 12
  else daysInMonth (year c) (month c - 1).

(** Bounded search, for facts about one 400-year cycle. *)
Fixpoint all_from (n : nat) (z0 : Z) (p : Z -> bool) : bool :=
  match n with
  | O => true
  | S k => p z0 && all_from k (z0 + 1) p
  end.

(** What [civil_from_days] computes from the day of the era [doe]. *)
Definition cycle_ok (doe : Z) : bool :=
  let yoe := (doe - doe / 1460 + doe / 36524 - doe / 146096) / 365 in
  let doy := doe - (365 * yoe + yoe / 4 - yoe / 100) in
  let mp := (5 * doy + 2) / 153 in
  let d := doy - (153 * mp + 2) / 5 + 1 in
  let m := if mp <? 10 then mp + 3 else mp - 9 in
  (0 <=? yoe) && (yoe <? 400) && (0 <=? mp) && (mp <? 12)
  && validb (Civil (yoe + (if m <=? 2 then 1 else 0)) m d).

End Cal.

Module Js.
Import Cal.

(** The character of a decimal digit 0..9. *)
Definition digitChar (d : Z) : ascii := Ascii.ascii_of_N (Z.to_N (48 + d)).

Definition digitVal (c : ascii) : option Z :=
  let n := Z.of_N (Ascii.N_of_ascii c) in
  if (48 <=? n) && (n <=? 57) then Some (n - 48) else None.

(** Decimal rendering on a fixed number of digits, zero padded. *)
Fixpoint padDigits (w : nat) (n : Z) (k : string) : string :=
  match w with
  | O => k
  | S w' => padDigits w' (n / 10) (String (digitChar (n mod 10)) k)
  end.

Definition pad (w : nat) (n : Z) : string := padDigits w n "".

(** [YYYY-MM-DD]; years outside 0..9999 take the expanded form of
    ECMA-262, a sign and six digits. *)
Definition isoYear (y : Z) : string :=
  if (0 <=? y) && (y <=? 9999) then pad 4 y
  else (if y <? 0 then "-" else "+") +:+ pad 6 (Z.abs y).

Definition isoDate (c : civil) : string :=
  isoYear (year c) +:+ "-" +:+ pad 2 (month c) +:+ "-" +:+ pad 2 (day c).

(** [Date.prototype.toISOString]. *)
Definition toISOString (t : Z) : string :=
  let ms := TimeWithinDay t in
  isoDate (civil_from_days (Day t)) +:+ "T" +:+ pad 2 (ms / 3600000) +:+ ":"
  +:+ pad 2 (ms / 60000 mod 60) +:+ ":" +:+ pad 2 (ms / 1000 mod 60) +:+ "."
  +:+ pad 3 (ms mod 1000) +:+ "Z".

(** [s.split(sep)[0]]: the part of [s] before the first [sep]. *)
Fixpoint split_head (sep : ascii) (s : string) : string :=
  match s with
  | EmptyString => EmptyString
  | String c r => if Ascii.eqb c sep then EmptyString else String c (split_head sep r)
  end.

(** Reading a run of decimal digits. *)
Fixpoint digitsVal (acc : Z) (s : string) : option Z :=
  match s with
  | EmptyString => Some acc
  | String c r => match digitVal c with
                  | Some d => digitsVal (10 * acc + d) r
                  | None => None
                  end
  end.

Definition field (s : string) (from len : nat) : option Z :=
  digitsVal 0 (String.substring from len s).

Definition charAt (s : string) (i : nat) (c : ascii) : bool :=
  match String.get i s with Some c' => Ascii.eqb c' c | None => false end.

(** The two halves of [YYYY-MM-DDTHH:mm:ss.sssZ]. *)
Definition parseDatePart (s : string) : option Z :=
  y ← field s 0 4; m ← field s 5 2; d ← field s 8 2;
  if charAt s 4 "-" && charAt s 7 "-" && validb (Civil y m d)
  then Some (days_from_civil (Civil y m d)) else None.

Definition parseTimePart (s : string) : option Z :=
  h ← field s 11 2; mi ← field s 14 2; sec ← field s 17 2; ms ← field s 20 3;
  if charAt s 10 "T" && charAt s 13 ":" && charAt s 16 ":" && charAt s 19 "."
     && charAt s 23 "Z" && (h <=? 23) && (mi <=? 59) && (sec <=? 59)
  then Some (h * 3600000 + mi * 60000 + sec * 1000 + ms) else None.

(** Local time is a fixed offset [tza] (in ms) from UTC: daylight saving
    changes are outside the model. *)
Definition LocalTime (tza t : Z) : Z := t + tza.
Definition UTC (tza t : Z) : Z := t - tza.

Definition dayNames : list string := ["Sun"; "Mon"; "Tue"; "Wed"; "Thu"; "Fri"; "Sat"].
Definition monthNames : list string :=
  ["Jan"; "Feb"; "Mar"; "Apr"; "May"; "Jun"; "Jul"; "Aug"; "Sep"; "Oct"; "Nov"; "Dec"].

(** The year of [toDateString]: at least four digits, a minus sign for
    negative years. *)
Fixpoint countDigits (fuel : nat) (n : Z) : nat :=
  match fuel with
  | O => 1%nat
  | S f => if n <? 10 then 1%nat else S (countDigits f (n / 10))
  end.
Definition numDigits (n : Z) : nat :=
  Nat.max 4 (countDigits (Z.to_nat (Z.log2 n)) n).
Definition dateStringYear (y : Z) : string :=
  (if y <? 0 then "-" else "") +:+ pad (numDigits (Z.abs y)) (Z.abs y).

(** The date string of a day number, as [Thu Jan 01 1970]; day 0 was a
    Thursday. *)
Definition dayString (n : Z) : string :=
  let c := civil_from_days n in
  nth (Z.to_nat ((n + 4) mod 7)) dayNames "" +:+ " "
  +:+ nth (Z.to_nat (month c - 1)) monthNames "" +:+ " "
  +:+ pad 2 (day c) +:+ " " +:+ dateStringYear (year c).

(** [Date.prototype.toDateString]: the date string of the local day. *)
Definition toDateString (tza t : Z) : string := dayString (Day (LocalTime tza t)).

(** [getDate], [getMonth], [setDate], [setMonth] and [setHours], all in
    local time. *)
Definition getDate (tza t : Z) : Z := DateFromTime (LocalTime tza t).
Definition getMonth (tza t : Z) : Z := MonthFromTime (LocalTime tza t).

Definition setDate (tza t dt : Z) : Z :=
  let lt := LocalTime tza t in
  UTC tza (MakeDate (MakeDay (YearFromTime lt) (MonthFromTime lt) dt) (TimeWithinDay lt)).

Definition setMonth (tza t mo : Z) : Z :=
  let lt := LocalTime tza t in
  UTC tza (MakeDate (MakeDay (YearFromTime lt) mo (DateFromTime lt)) (TimeWithinDay lt)).

Definition setHours (tza t h mi sec ms : Z) : Z :=
  let lt := LocalTime tza t in
  UTC tza (MakeDate (Day lt) (h * 3600000 + mi * 60000 + sec * 1000 + ms)).

Fixpoint index_of (x : string) (l : list string) (i : Z) : option Z :=
  match l with
  | [] => None
  | y :: r => if String.eqb x y then Some i else index_of x r (i + 1)
  end.

(** The date-time format of ECMA-262, in UTC. *)
Definition parseISO (s : string) : option Z :=
  match String.length s with
  | 10%nat => dn ← parseDatePart s; Some (MakeDate dn 0)
  | 24%nat => dn ← parseDatePart s; tm ← parseTimePart s; Some (MakeDate dn tm)
  | _ => None
  end.

(** The format of [toDateString], read as local midnight; the name of
    the week day is not looked at. *)
Definition parseDateString (tza : Z) (s : string) : option Z :=
  match String.length s with
  | 15%nat =>
      m ← index_of (String.substring 4 3 s) monthNames 1;
      d ← field s 8 2; y ← field s 11 4;
      if charAt s 3 " " && charAt s 7 " " && charAt s 10 " " && validb (Civil y m d)
      then Some (UTC tza (MakeDate (days_from_civil (Civil y m d)) 0)) else None
  | _ => None
  end.

(** [Date.parse], and with it [new Date(string).getTime()]: the ISO
    format, then the format of [toDateString]; [None] is [NaN].  What
    engines make of other strings is implementation-defined; here they
    are invalid dates. *)
Definition Date_parse (tza : Z) (s : string) : option Z :=
  match parseISO s with
  | Some t => Some t
  | None => parseDateString tza s
  end.

(** [Math.ceil (a / b)] for integers [a] and [b > 0]. *)
Definition ceil_div (a b : Z) : Z := - ((- a) / b).

(** *** Arrays *)

(** A stable sort by insertion; [lt x y] says that [x] goes before [y]. *)
Fixpoint insert_by {A} (lt : A -> A -> bool) (x : A) (l : list A) : list A :=
  match l with
  | [] => [x]
  | y :: r => if lt x y then x :: y :: r else y :: insert_by lt x r
  end.

Definition sort_by {A} (lt : A -> A -> bool) (l : list A) : list A :=
  fold_left (fun acc x => insert_by lt x acc) l [].

(** [arr.sort()] on strings: by UTF-16 code units. *)
Definition sort_strings : list string -> list string := sort_by String.ltb.

(** [arr.indexOf(x)], [None] for -1. *)
Fixpoint indexOf (x : string) (arr : list string) : option nat :=
  match arr with
  | [] => None
  | y :: r => if String.eqb x y then Some O else S <$> indexOf x r
  end.

(** [arr.filter((x, index, arr) => f x index)]. *)
Fixpoint filter_index {A} (f : A -> nat -> bool) (i : nat) (l : list A) : list A :=
  match l with
  | [] => []
  | x :: r => if f x i then x :: filter_index f (S i) r else filter_index f (S i) r
  end.

Definition includes (arr : list string) (x : string) : bool := bool_decide (x ∈ arr).

End Js.


Module DateUtils.
Import Cal Js.

Inductive TaskStatus : Set := Overdue | DueToday | DueSoon | Future | Completed.

(** [getTaskStatus]; [now] is the reading of the clock that [new Date()]
    takes, [tza] the offset of the local zone. *)
Definition getTaskStatus (tza now : Z) (dueDate : string) (completed : bool) : TaskStatus :=
  if completed then Completed else
  let today := split_head "T" (toISOString now) in
  let due := split_head "T" dueDate in
  if String.ltb due today then Overdue else
  if String.eqb due today then DueToday else
  let todayDate := Date_parse tza (today +:+ "T00:00:00.000Z") in
  let dueDate_ := Date_parse tza (due +:+ "T00:00:00.000Z") in
  let diffTime := (d ← dueDate_; t ← todayDate; Some (d - t)) in
  let diffDays := (dt ← diffTime; Some (ceil_div dt (1000 * 60 * 60 * 24))) in
  match diffDays with
  | Some n => if n <=? 3 then DueSoon else Future
  | None => Future
  end.

(** The classifier as the specification words it, over the difference in
    whole days between the due date and today. *)
Definition spec_classify (completed : bool) (diffDays : Z) : TaskStatus :=
  if completed then Completed
  else if diffDays <? 0 then Overdue
  else if diffDays =? 0 then DueToday
  else if diffDays <=? 3 then DueSoon
  else Future.

(** *** [sortTasksByDueDate]

    Arrays are objects of the heap, held by reference: the heap maps a
    reference to the elements of the array.  The elements are the task
    objects, of which the function reads [completed] and [dueDate]. *)

Record TaskObj : Set := {
  t_completed : bool;
  t_dueDate : option string     (* [None] is [undefined] *)
}.

Abbreviation Heap := (gmap nat (list TaskObj)).

(** Heap computations; [None] is an access to a reference that holds no
    array. *)
Definition M (A : Type) : Type := Heap -> option (A * Heap).

Definition ret {A} (x : A) : M A := fun h => Some (x, h).
Definition bind {A B} (m : M A) (k : A -> M B) : M B :=
  fun h => match m h with Some (x, h') => k x h' | None => None end.

Definition readArray (a : nat) : M (list TaskObj) :=
  fun h => match h !! a with Some l => Some (l, h) | None => None end.

(** [[...l]]: a new array, at a reference not in use. *)
Definition newArray (l : list TaskObj) : M nat :=
  fun h => let a := fresh (dom h) in Some (a, <[a := l]> h).

(** [arr.sort(cmp)]: sorts the array in place and returns it.  A
    comparator result of [NaN] counts as 0; the sort is stable. *)
Definition sortArray (cmp : TaskObj -> TaskObj -> option Z) (a : nat) : M nat :=
  fun h =>
    match h !! a with
    | Some l =>
        Some (a, <[a := sort_by (fun x y => match cmp x y with
                                            | Some v => v <? 0
                                            | None => false
                                            end) l]> h)
    | None => None
    end.

(** [new Date(dueDate).getTime()]. *)
Definition getTime (tza : Z) (dueDate : option string) : option Z :=
  match dueDate with Some s => Date_parse tza s | None => None end.

(** The comparator of [sortTasksByDueDate]. *)
Definition compareTasks (tza : Z) (ascending : bool) (a b : TaskObj) : option Z :=
  if t_completed a && negb (t_completed b) then Some 1
  else if negb (t_completed a) && t_completed b then Some (-1)
  else
    dateA ← getTime tza (t_dueDate a);
    dateB ← getTime tza (t_dueDate b);
    Some (if ascending then dateA - dateB else dateB - dateA).

Definition sortTasksByDueDate (tza : Z) (tasks : nat) (ascending : bool) : M nat :=
  bind (readArray tasks) (fun l =>
  bind (newArray l) (fun copy =>
  sortArray (compareTasks tza ascending) copy)).

End DateUtils.

(** ** The reports route: [getDateRange], [calculateStreak] and the
    [GET /api/reports] handler *)

Module Reports.
Import Cal Js.

Inductive Priority : Set := LOW | MEDIUM | HIGH | URGENT.

#[global] Instance Priority_eq_dec : EqDecision Priority.
Proof. solve_decision. Defined.

(** What the handler finds in [task.dueDate].  The handler treats the
    value as an ISO string ([task.dueDate.split('T')]), while the tasks
    route stores [new Date(dueDate)], which the ORM hands back as a
    [Date] object: both kinds of value are provided for.  A [Date]
    object has no [split] method. *)
Inductive DueValue : Set :=
  | DueString (s : string)
  | DueObject (t : Z).

Record Task : Set := {
  userId : string;
  completed : bool;
  priority : Priority;
  categoryId : option string;
  dueDate : option DueValue;       (* [None] is [null] *)
  createdAt : Z;
  updatedAt : Z
}.

Record Category : Set := { cat_id : string; cat_name : string; cat_color : string }.

Record Routine : Set := { r_userId : string; r_isActive : bool; r_createdAt : Z }.

Record Database : Set := {
  db_tasks : list Task;
  db_categories : list Category;
  db_routines : list Routine
}.

(** *** [getDateRange] *)

(** [new Date('2000-01-01')], the start of the period [all]. *)
Definition allStart (tza : Z) : Z := default 0 (Date_parse tza "2000-01-01").

(** The clock is read once, as [now]: the handler is taken to run within
    one millisecond. *)
Definition getDateRange (tza now : Z) (period : string) : Z * Z :=
  let startDate := now in
  let startDate :=
    if String.eqb period "today" then setHours tza startDate 0 0 0 0
    else if String.eqb period "week" then setDate tza startDate (getDate tza now - 7)
    else if String.eqb period "month" then setMonth tza startDate (getMonth tza now - 1)
    else allStart tza in
  (startDate, now).

(** *** [calculateStreak] *)

(** The [while] loop.  It is run on fuel; [None] means that the fuel did
    not suffice. *)
Fixpoint streak_loop (fuel : nat) (tza : Z) (completionDates : list string)
    (currentDate streak : Z) : option Z :=
  match fuel with
  | O => None
  | S fuel' =>
      if includes completionDates (toDateString tza currentDate)
      then streak_loop fuel' tza completionDates
             (setDate tza currentDate (getDate tza currentDate - 1)) (streak + 1)
      else Some streak
  end.

Definition completionDatesOf (tza : Z) (tasks : list Task) : list string :=
  let dates := sort_strings
    (map (fun task => toDateString tza (updatedAt task))
         (List.filter completed tasks)) in
  filter_index (fun date index => bool_decide (indexOf date dates = Some index)) 0 dates.

Definition calculateStreak (tza now : Z) (tasks : list Task) : option Z :=
  if bool_decide (length tasks = 0%nat) then Some 0 else
  let completionDates := completionDatesOf tza tasks in
  if bool_decide (length completionDates = 0%nat) then Some 0 else
  let today := toDateString tza now in
  let yesterday := toDateString tza (now - 86400000) in
  if negb (includes completionDates today) && negb (includes completionDates yesterday)
  then Some 0 else
  let checkDate := if includes completionDates today then today else yesterday in
  match Date_parse tza checkDate with
  | None => Some 0   (* an invalid date prints as [Invalid Date]: no iteration *)
  | Some currentDate =>
      streak_loop (S (length completionDates)) tza completionDates currentDate 0
  end.


(** *** The streak, as the specification words it *)

(** The local calendar day of a time value, as a day number. *)
Definition localDay (tza t : Z) : Z := Day (LocalTime tza t).

(** A productive day: some completed task has its completion signal
    ([updatedAt]) on that day. *)
Definition productiveDay (tza : Z) (tasks : list Task) (d : Z) : Prop :=
  exists task, task ∈ tasks /\ completed task = true /\ localDay tza (updatedAt task) = d.

(** [n] is the length of the maximal run of consecutive days of [S]
    ending at [c]. *)
Definition is_run (S : Z -> Prop) (c n : Z) : Prop :=
  0 <= n /\ (forall i, 0 <= i < n -> S (c - i)) /\ ~ S (c - n).

(** The completion signals fall in years of four digits. *)
Definition datesInRange (tza : Z) (tasks : list Task) : Prop :=
  forall task, task ∈ tasks -> completed task = true ->
    0 <= YearFromTime (LocalTime tza (updatedAt task)) <= 9999.

(** *** The [GET /api/reports] handler *)

Record Request : Set := {
  req_user : string;                 (* [req.user.id] *)
  req_period : option string;        (* [req.query.period] *)
  req_categoryId : option string     (* [req.query.categoryId] *)
}.

Record Overview : Set := {
  totalTasks : Z;
  completedTasks : Z;
  pendingTasks : Z;
  completionRate : Q;
  overdueTasks : Z;
  productiveDays : Z;
  currentStreak : Z;
  totalRoutines : Z;
  activeRoutines : Z
}.

Record PriorityDistribution : Set :=
  { n_URGENT : Z; n_HIGH : Z; n_MEDIUM : Z; n_LOW : Z }.

Record CategoryStat : Set := { c_total : Z; c_completed : Z; c_color : string }.

Record SummaryBlock : Set := { s_total : Z; s_completed : Z; s_completionRate : Q }.

Record Summary : Set :=
  { sum_today : SummaryBlock; sum_week : SummaryBlock; sum_month : SummaryBlock }.

Record Report : Set := {
  overview : Overview;
  priorityDistribution : PriorityDistribution;
  categoryDistribution : list (string * CategoryStat);
  topCategories : list (string * CategoryStat);
  summary : Summary;
  period : string;
  dateRange : string * string
}.

(** [arr.length] and [arr.filter(p).length] as numbers. *)
Definition count {A} (p : A -> bool) (l : list A) : Z :=
  Z.of_nat (length (List.filter p l)).
Definition len {A} (l : list A) : Z := Z.of_nat (length l).

(** [total > 0 ? (completed / total * 100) : 0].  Numbers are exact
    rationals here, not IEEE doubles. *)
Definition rate (completed total : Z) : Q :=
  if total >? 0 then (inject_Z completed / inject_Z total * 100)%Q else 0%Q.

(** [Math.round(x * 100) / 100]. *)
Definition round2 (x : Q) : Q := (inject_Z (Qfloor (x * 100 + (1 # 2))) / 100)%Q.

(** The [where] clause of the first query. *)
Definition baseFilter (req : Request) (startDate endDate : Z) (t : Task) : bool :=
  String.eqb (userId t) (req_user req)
  && (startDate <=? createdAt t) && (createdAt t <=? endDate)
  && match req_categoryId req with
     | Some c =>
         if negb (String.eqb c "") && negb (String.eqb c "all")
         then bool_decide (categoryId t = Some c) else true
     | None => true
     end.

(** [obj[key] = v] on an object whose keys are listed in the order of
    their creation (keys that are array indices, which JavaScript lists
    first, are not told apart). *)
Fixpoint obj_set {V} (key : string) (v : V) (o : list (string * V)) : list (string * V) :=
  match o with
  | [] => [(key, v)]
  | (k, w) :: r => if String.eqb k key then (k, v) :: r else (k, w) :: obj_set key v r
  end.

(** The callback of the overdue filter; [None] is the [TypeError] of
    calling [split] on a value that has none. *)
Definition isOverdue (todayString : string) (task : Task) : option bool :=
  if completed task then Some false else
  match dueDate task with
  | None => Some false
  | Some (DueString s) =>
      if String.eqb s "" then Some false
      else Some (String.ltb (split_head "T" s) todayString)
  | Some (DueObject _) => None
  end.

Definition summaryBlock (l : list Task) : SummaryBlock :=
  {| s_total := len l;
     s_completed := count completed l;
     s_completionRate := rate (count completed l) (len l) |}.

(** The four queries of the handler.  Rows that compare equal under
    [orderBy] keep the order of the table. *)
Definition queryTasks (db : Database) (req : Request) (startDate endDate : Z) : list Task :=
  sort_by (fun a b => createdAt b <? createdAt a)
    (List.filter (baseFilter req startDate endDate) (db_tasks db)).

Definition queryCategories (db : Database) : list Category :=
  sort_by (fun a b => String.ltb (cat_name a) (cat_name b)) (db_categories db).

Definition queryRoutines (db : Database) (req : Request) (startDate endDate : Z) : list Routine :=
  List.filter (fun r => String.eqb (r_userId r) (req_user req)
                        && (startDate <=? r_createdAt r) && (r_createdAt r <=? endDate))
    (db_routines db).

Definition queryAllUserTasks (db : Database) (req : Request) : list Task :=
  sort_by (fun a b => updatedAt b <? updatedAt a)
    (List.filter (fun t => String.eqb (userId t) (req_user req)) (db_tasks db)).

(** The handler; [None] is an exception handed to [next(error)], in which
    case no report is sent. *)
Definition getReports (tza now : Z) (db : Database) (req : Request) : option Report :=
  let period := default "all" (req_period req) in
  let '(startDate, endDate) := getDateRange tza now period in
  let tasks := queryTasks db req startDate endDate in
  let categories := queryCategories db in
  let routines := queryRoutines db req startDate endDate in
  let allUserTasks := queryAllUserTasks db req in
  (* basic metrics *)
  let totalTasks := len tasks in
  let completedTasks := count completed tasks in
  let pendingTasks := totalTasks - completedTasks in
  let completionRate := rate completedTasks totalTasks in
  let priorityDistribution :=
    {| n_URGENT := count (fun t => bool_decide (priority t = URGENT)) tasks;
       n_HIGH := count (fun t => bool_decide (priority t = HIGH)) tasks;
       n_MEDIUM := count (fun t => bool_decide (priority t = MEDIUM)) tasks;
       n_LOW := count (fun t => bool_decide (priority t = LOW)) tasks |} in
  let categoryDistribution :=
    fold_left (fun dist category =>
      let categoryTasks :=
        List.filter (fun task => bool_decide (categoryId task = Some (cat_id category))) tasks in
      if len categoryTasks >? 0
      then obj_set (cat_name category)
             {| c_total := len categoryTasks;
                c_completed := count completed categoryTasks;
                c_color := cat_color category |} dist
      else dist) categories [] in
  (* overdue tasks *)
  let todayString := split_head "T" (toISOString now) in
  flags ← mapM (isOverdue todayString) tasks;
  let overdueTasks := count id flags in
  (* productive days *)
  let productiveDays :=
    Z.of_nat (size (list_to_set
      (map (fun task => toDateString tza (updatedAt task))
           (List.filter completed tasks)) : gset string)) in
  currentStreak ← calculateStreak tza now allUserTasks;
  (* time-based summary *)
  let today := toDateString tza now in
  let thisWeek := now - 7 * 24 * 60 * 60 * 1000 in
  let thisMonth := now - 30 * 24 * 60 * 60 * 1000 in
  let todayTasks :=
    List.filter (fun task => String.eqb (toDateString tza (createdAt task)) today) tasks in
  let weekTasks := List.filter (fun task => thisWeek <=? createdAt task) tasks in
  let monthTasks := List.filter (fun task => thisMonth <=? createdAt task) tasks in
  let summary :=
    {| sum_today := summaryBlock todayTasks;
       sum_week := summaryBlock weekTasks;
       sum_month := summaryBlock monthTasks |} in
  let topCategories :=
    take 5 (sort_by (fun a b => c_total (snd b) <? c_total (snd a)) categoryDistribution) in
  Some {| overview :=
            {| totalTasks := totalTasks;
               completedTasks := completedTasks;
               pendingTasks := pendingTasks;
               completionRate := round2 completionRate;
               overdueTasks := overdueTasks;
               productiveDays := productiveDays;
               currentStreak := currentStreak;
               totalRoutines := len routines;
               activeRoutines := count r_isActive routines |};
          priorityDistribution := priorityDistribution;
          categoryDistribution := categoryDistribution;
          topCategories := topCategories;
          summary := summary;
          period := period;
          dateRange := (toISOString startDate, toISOString endDate) |}.

(** *** The report, as the specification words it *)

(** The tasks of the requested window: the rows of the first query. *)
Definition selectedTasks (tza now : Z) (db : Database) (req : Request) : list Task :=
  let range := getDateRange tza now (default "all" (req_period req)) in
  queryTasks db req (fst range) (snd range).

(** A task that is not completed and whose due date (date part) is
    strictly before today. *)
Definition overdueBy (todayString : string) (task : Task) : bool :=
  negb (completed task) &&
  match dueDate task with
  | Some (DueString s) => negb (String.eqb s "") && String.ltb (split_head "T" s) todayString
  | _ => false
  end.

(** The three sub-windows over a list of tasks. *)
Definition createdToday (tza now : Z) (task : Task) : bool :=
  String.eqb (toDateString tza (createdAt task)) (toDateString tza now).
Definition createdSince (since : Z) (task : Task) : bool := since <=? createdAt task.

Definition summaryOf (tza now : Z) (tasks : list Task) : Summary :=
  {| sum_today := summaryBlock (List.filter (createdToday tza now) tasks);
     sum_week := summaryBlock (List.filter (createdSince (now - 7 * 24 * 60 * 60 * 1000)) tasks);
     sum_month := summaryBlock (List.filter (createdSince (now - 30 * 24 * 60 * 60 * 1000)) tasks) |}.

(** The counts of a summary block are consistent. *)
Definition block_ok (b : SummaryBlock) : Prop :=
  0 <= s_completed b <= s_total b /\
  (0 <= s_completionRate b <= 100)%Q /\
  (s_total b = 0 -> s_completionRate b = 0%Q).

End Reports.

(** ** Routine schedules: the two forms and the routes *)

Module Routines.
Import Cal Js.

Inductive RecurrenceType : Set := DAILY | WEEKLY | MONTHLY | CUSTOM.

#[global] Instance RecurrenceType_eq_dec : EqDecision RecurrenceType.
Proof. solve_decision. Defined.

(** [s.trim()], over the ASCII white space. *)
Definition isSpace (c : ascii) : bool :=
  let n := Ascii.N_of_ascii c in
  ((9 <=? n) && (n <=? 13) || (n =? 32))%N.

Fixpoint trimStart (s : string) : string :=
  match s with
  | String c r => if isSpace c then trimStart r else s
  | EmptyString => EmptyString
  end.

Fixpoint trimEnd (s : string) : string :=
  match s with
  | String c r =>
      match trimEnd r with
      | EmptyString => if isSpace c then EmptyString else String c EmptyString
      | r' => String c r'
      end
  | EmptyString => EmptyString
  end.

Definition trim (s : string) : string := trimEnd (trimStart s).

Definition isEmpty (s : string) : bool := String.eqb s "".

(** *** [RoutineForm]: [validateForm] *)

Module RoutineForm.

Record FormData : Set := {
  title : string;
  description : string;
  categoryId : string;
  recurrenceType : RecurrenceType;
  interval : Z;
  daysOfWeek : list string;
  dayOfMonth : Z;
  time : string;
  startDate : string;
  endDate : string;
  isActive : bool
}.

Record FormErrors : Set := {
  e_title : option string;
  e_daysOfWeek : option string;
  e_dayOfMonth : option string;
  e_interval : option string
}.

(** The errors that [validateForm] hands to [setErrors]. *)
Definition newErrors (formData : FormData) : FormErrors :=
  {| e_title :=
       if isEmpty (trim (title formData)) then Some "Title is required" else None;
     e_daysOfWeek :=
       if bool_decide (recurrenceType formData = WEEKLY)
          && bool_decide (length (daysOfWeek formData) = 0%nat)
       then Some "Select at least one day for weekly routine" else None;
     e_dayOfMonth :=
       if bool_decide (recurrenceType formData = MONTHLY)
          && ((dayOfMonth formData <? 1) || (31 <? dayOfMonth formData))
       then Some "Day of month must be between 1 and 31" else None;
     e_interval :=
       if bool_decide (recurrenceType formData = CUSTOM) && (interval formData <? 1)
       then Some "Interval must be at least 1" else None |}.

(** [Object.keys(newErrors).length === 0]. *)
Definition noErrors (e : FormErrors) : bool :=
  bool_decide (e_title e = None) && bool_decide (e_daysOfWeek e = None)
  && bool_decide (e_dayOfMonth e = None) && bool_decide (e_interval e = None).

Definition validateForm (formData : FormData) : bool := noErrors (newErrors formData).

(** [{ ...formData, time: t }]. *)
Definition setTime (t : string) (fd : FormData) : FormData :=
  {| title := title fd; description := description fd; categoryId := categoryId fd;
     recurrenceType := recurrenceType fd; interval := interval fd;
     daysOfWeek := daysOfWeek fd; dayOfMonth := dayOfMonth fd; time := t;
     startDate := startDate fd; endDate := endDate fd; isActive := isActive fd |}.

End RoutineForm.

(** *** [AddTask]: [validateForm] *)

Module AddTask.

Inductive TaskType : Set := routine | scheduled.

#[global] Instance TaskType_eq_dec : EqDecision TaskType.
Proof. solve_decision. Defined.

Record FormData : Set := {
  title : string;
  description : string;
  categoryId : string;
  taskType : TaskType;
  dueDate : string;
  dueTime : string;
  startDate : string;
  recurrenceType : RecurrenceType;
  interval : Z;
  daysOfWeek : list string;
  dayOfMonth : Z;
  time : string;
  routineStartDate : string;
  endDate : string
}.

Record FormErrors : Set := {
  e_title : option string;
  e_categoryId : option string;
  e_dueDate : option string;
  e_daysOfWeek : option string;
  e_dayOfMonth : option string;
  e_interval : option string
}.

Definition newErrors (formData : FormData) : FormErrors :=
  let isRoutine := bool_decide (taskType formData = routine) in
  {| e_title :=
       if isEmpty (trim (title formData)) then Some "Task title is required" else None;
     e_categoryId :=
       if isEmpty (categoryId formData) then Some "Please select a category" else None;
     e_dueDate :=
       if bool_decide (taskType formData = scheduled) && isEmpty (dueDate formData)
       then Some "Due date is required for scheduled tasks" else None;
     e_daysOfWeek :=
       if isRoutine && bool_decide (recurrenceType formData = WEEKLY)
          && bool_decide (length (daysOfWeek formData) = 0%nat)
       then Some "Please select at least one day for weekly routines" else None;
     e_dayOfMonth :=
       if isRoutine && bool_decide (recurrenceType formData = MONTHLY)
          && ((dayOfMonth formData <? 1) || (31 <? dayOfMonth formData))
       then Some "Day of month must be between 1 and 31" else None;
     e_interval :=
       if isRoutine && bool_decide (recurrenceType formData = CUSTOM)
          && (interval formData <? 1)
       then Some "Interval must be at least 1 day" else None |}.

Definition noErrors (e : FormErrors) : bool :=
  bool_decide (e_title e = None) && bool_decide (e_categoryId e = None)
  && bool_decide (e_dueDate e = None) && bool_decide (e_daysOfWeek e = None)
  && bool_decide (e_dayOfMonth e = None) && bool_decide (e_interval e = None).

Definition validateForm (formData : FormData) : bool := noErrors (newErrors formData).

(** [{ ...formData, time: t }]. *)
Definition setTime (t : string) (fd : FormData) : FormData :=
  {| title := title fd; description := description fd; categoryId := categoryId fd;
     taskType := taskType fd; dueDate := dueDate fd; dueTime := dueTime fd;
     startDate := startDate fd; recurrenceType := recurrenceType fd;
     interval := interval fd; daysOfWeek := daysOfWeek fd; dayOfMonth := dayOfMonth fd;
     time := t; routineStartDate := routineStartDate fd; endDate := endDate fd |}.

End AddTask.

End Routines.

(** *** The routines route: request validation *)

Module RoutinesRoute.
Import Cal Js Routines.

Local Set Warnings "-register-all".

(** A value of the JSON body; [JUndefined] is a missing field. *)
Inductive Json : Set :=
  | JUndefined
  | JNull
  | JBool (b : bool)
  | JNum (n : Z)
  | JStr (s : string)
  | JArr (l : list Json)
  | JObj.

(** Decimal numeral of an integer. *)
Definition decimal (n : Z) : string :=
  (if n <? 0 then "-" else "")
  +:+ pad (countDigits (Z.to_nat (Z.log2 (Z.abs n))) (Z.abs n)) (Z.abs n).

Fixpoint join (sep : string) (l : list string) : string :=
  match l with
  | [] => ""
  | [x] => x
  | x :: r => x +:+ sep +:+ join sep r
  end.

(** The string that express-validator hands to a validator. *)
Fixpoint toString (v : Json) : string :=
  match v with
  | JUndefined | JNull => ""
  | JBool true => "true"
  | JBool false => "false"
  | JNum n => decimal n
  | JStr s => s
  | JArr l => join "," (map toString l)
  | JObj => "[object Object]"
  end.

(** A standard validator runs on the string of the value, or on the
    string of each element when the value is an array. *)
Definition standard (p : string -> bool) (v : Json) : bool :=
  match v with
  | JArr l => forallb (fun e => p (toString e)) l
  | _ => p (toString v)
  end.

(** The integer that a string denotes under validator.js [isInt]: an
    optional sign, then [0] or digits that do not start with 0. *)
Definition intOfString (s : string) : option Z :=
  let '(sign, body) :=
    match s with
    | String "-" r => (-1, r)
    | String "+" r => (1, r)
    | _ => (1, s)
    end in
  match body with
  | EmptyString => None
  | String "0" (String _ _) => None
  | _ => n ← digitsVal 0 body; Some (sign * n)
  end.

Definition isInt (min : Z) (max : option Z) (s : string) : bool :=
  match intOfString s with
  | Some n => (min <=? n) && match max with Some m => n <=? m | None => true end
  | None => false
  end.

Definition isIn (options : list string) (s : string) : bool := bool_decide (s ∈ options).

Definition isArray (v : Json) : bool := match v with JArr _ => true | _ => false end.

(** [.optional()]: the checks of the chain are skipped for a missing field. *)
Definition optional (check : Json -> bool) (v : Json) : bool :=
  match v with JUndefined => true | _ => check v end.

Record Schedule : Set := {
  recurrenceType : Json;
  interval : Json;
  daysOfWeek : Json;
  dayOfMonth : Json;
  time : Json
}.

Record Body : Set := {
  title : Json;
  priority : Json;
  schedule : option Schedule;     (* [None]: no [schedule] object *)
  categoryId : Json
}.

(** [body('schedule.f')]. *)
Definition scheduleField (f : Schedule -> Json) (b : Body) : Json :=
  match schedule b with Some s => f s | None => JUndefined end.

(** [title.trim()], the sanitizer of the chain. *)
Definition trimmed (v : Json) : Json :=
  match v with
  | JArr l => JArr (map (fun e => JStr (trim (toString e))) l)
  | _ => JStr (trim (toString v))
  end.

Definition priorities : list string := ["LOW"; "MEDIUM"; "HIGH"; "URGENT"].
Definition recurrenceTypes : list string := ["DAILY"; "WEEKLY"; "MONTHLY"; "CUSTOM"].

(** The chains of [router.post('/')], in order, each with its message;
    [true] means that the check passes. *)
Definition postChecks (b : Body) : list (bool * string) :=
  [ (standard (fun s => negb (isEmpty s)) (trimmed (title b)), "Title is required");
    (standard (isIn priorities) (priority b), "Invalid priority");
    (standard (isIn recurrenceTypes) (scheduleField recurrenceType b), "Invalid recurrence type");
    (optional (standard (isInt 1 None)) (scheduleField interval b), "Interval must be at least 1");
    (optional isArray (scheduleField daysOfWeek b), "Days of week must be an array");
    (optional (standard (isInt 1 (Some 31))) (scheduleField dayOfMonth b),
       "Day of month must be between 1 and 31") ].

(** The chains of [router.put('/:id')]: every field is optional. *)
Definition putChecks (b : Body) : list (bool * string) :=
  [ (optional (fun v => standard (fun s => negb (isEmpty s)) (trimmed v)) (title b),
       "Title cannot be empty");
    (optional (standard (isIn priorities)) (priority b), "Invalid priority");
    (optional (standard (isIn recurrenceTypes)) (scheduleField recurrenceType b),
       "Invalid recurrence type");
    (optional (standard (isInt 1 None)) (scheduleField interval b), "Interval must be at least 1");
    (optional isArray (scheduleField daysOfWeek b), "Days of week must be an array");
    (optional (standard (isInt 1 (Some 31))) (scheduleField dayOfMonth b),
       "Day of month must be between 1 and 31") ].

(** [errors.array()[0].msg]: the message of the first failing check,
    [None] when [errors.isEmpty()]. *)
Definition firstError (checks : list (bool * string)) : option string :=
  snd <$> head (List.filter (fun c => negb (fst c)) checks).

Definition validatePost (b : Body) : option string := firstError (postChecks b).
Definition validatePut (b : Body) : option string := firstError (putChecks b).

(** Truthiness of a JSON value. *)
Definition truthy (v : Json) : bool :=
  match v with
  | JUndefined | JNull | JBool false | JNum 0 | JStr EmptyString => false
  | _ => true
  end.

(** The [time] column written by [router.post('/')] once validation has
    passed: [...(schedule.time && { time: schedule.time })]. *)
Definition postedTime (b : Body) : option Json :=
  match validatePost b with
  | Some _ => None
  | None => let t := scheduleField time b in if truthy t then Some t else None
  end.

(** The body with the [time] of its schedule replaced. *)
Definition withTime (t : Json) (b : Body) : Body :=
  {| title := title b; priority := priority b;
     schedule :=
       match schedule b with
       | Some s => Some {| recurrenceType := recurrenceType s; interval := interval s;
                           daysOfWeek := daysOfWeek s; dayOfMonth := dayOfMonth s;
                           time := t |}
       | None => None
       end;
     categoryId := categoryId b |}.

(** A 24-hour [HH:MM] string, which is what the specification asks of
    [time]. *)
Definition spec_isHHMM (s : string) : bool :=
  match String.length s with
  | 5%nat =>
      match field s 0 2, field s 3 2 with
      | Some h, Some m => charAt s 2 ":" && (h <=? 23) && (m <=? 59)
      | _, _ => false
      end
  | _ => false
  end.

End RoutinesRoute.

(** ** Sample data *)

Module Examples.
Import Cal Js Reports.

(** 2024-03-09T16:00:00Z. *)
Definition noon : Z := 1710000000000.

Definition task (done : bool) (created updated : Z) : Task :=
  {| userId := "u1"; completed := done; priority := MEDIUM; categoryId := None;
     dueDate := None; createdAt := created; updatedAt := updated |}.

(** Five tasks of one user: completed ones last touched today, yesterday
    and on the two days before; one pending, created today. *)
Definition history : list Task :=
  [ task true (noon - 100 * msPerDay) (noon - 1000);
    task true (noon - 3 * msPerDay) (noon - msPerDay);
    task false (noon - 5000) (noon - 5000);
    task true (noon - 5 * msPerDay) (noon - 3 * msPerDay);
    task true (noon - 5 * msPerDay) (noon - 2 * msPerDay - 5) ].

Definition db : Database :=
  {| db_tasks := history; db_categories := []; db_routines := [] |}.

Definition request (p : option string) : Request :=
  {| req_user := "u1"; req_period := p; req_categoryId := None |}.

(** 2024-03-31T12:00:00Z. *)
Definition endOfMarch : Z := 1711886400000.

End Examples.

Module UiExamples.
Import DateUtils.

(** Three tasks as the task list shows them. *)
Definition uiTasks : list TaskObj :=
  [ {| t_completed := true; t_dueDate := Some "2024-03-01T00:00:00.000Z" |};
    {| t_completed := false; t_dueDate := Some "2024-03-12T00:00:00.000Z" |};
    {| t_completed := false; t_dueDate := Some "2024-03-10T00:00:00.000Z" |} ].

End UiExamples.

Module RoutineExamples.
Import Routines RoutinesRoute.

(** A weekly routine with no day selected, as the form holds it and as
    the request body carries it. *)
Definition weeklyForm : RoutineForm.FormData :=
  {| RoutineForm.title := "Gym"; RoutineForm.description := "";
     RoutineForm.categoryId := ""; RoutineForm.recurrenceType := WEEKLY;
     RoutineForm.interval := 1; RoutineForm.daysOfWeek := [];
     RoutineForm.dayOfMonth := 1; RoutineForm.time := "";
     RoutineForm.startDate := ""; RoutineForm.endDate := "";
     RoutineForm.isActive := true |}.

Definition body (s : Schedule) : Body :=
  {| title := JStr "Gym"; priority := JStr "MEDIUM"; schedule := Some s;
     categoryId := JUndefined |}.

Definition scheduleOf (type : string) : Schedule :=
  {| recurrenceType := JStr type; interval := JUndefined; daysOfWeek := JUndefined;
     dayOfMonth := JUndefined; time := JUndefined |}.

Definition weeklyNoDays : Schedule :=
  {| recurrenceType := JStr "WEEKLY"; interval := JUndefined; daysOfWeek := JArr [];
     dayOfMonth := JUndefined; time := JUndefined |}.

Definition monthly32 : Schedule :=
  {| recurrenceType := JStr "MONTHLY"; interval := JUndefined; daysOfWeek := JUndefined;
     dayOfMonth := JNum 32; time := JUndefined |}.

Definition custom0 : Schedule :=
  {| recurrenceType := JStr "CUSTOM"; interval := JNum 0; daysOfWeek := JUndefined;
     dayOfMonth := JUndefined; time := JUndefined |}.

Definition dailyAt (t : string) : Schedule :=
  {| recurrenceType := JStr "DAILY"; interval := JUndefined; daysOfWeek := JUndefined;
     dayOfMonth := JUndefined; time := JStr t |}.

End RoutineExamples.

(** ** More of the date utilities, and the page that uses them *)

Module StatusText.
Import Cal Js DateUtils.

#[global] Instance TaskStatus_eq_dec : EqDecision TaskStatus.
Proof. solve_decision. Defined.

(** A number in a template literal; [None] is [NaN]. *)
Definition numberToString (n : option Z) : string :=
  match n with Some z => RoutinesRoute.decimal z | None => "NaN" end.

(** [n > 1 ? 's' : ''] on a number that may be [NaN]. *)
Definition pluralS (n : option Z) : string :=
  match n with Some z => if z >? 1 then "s" else "" | None => "" end.

Definition ceilDays (diffTime : option Z) : option Z :=
  dt ← diffTime; Some (ceil_div dt (1000 * 60 * 60 * 24)).

(** [getTaskStatusText]. *)
Definition getTaskStatusText (tza now : Z) (dueDate : string) (completed : bool) : string :=
  if completed then "Completed" else
  let today := split_head "T" (toISOString now) in
  let due := split_head "T" dueDate in
  let todayDate := Date_parse tza (today +:+ "T00:00:00.000Z") in
  let dueDate_ := Date_parse tza (due +:+ "T00:00:00.000Z") in
  if String.ltb due today then
    let diffTime := (t ← todayDate; d ← dueDate_; Some (t - d)) in
    let overdueDays := ceilDays diffTime in
    "Overdue by " +:+ numberToString overdueDays +:+ " day" +:+ pluralS overdueDays
  else if String.eqb due today then "Due today" else
  let diffTime := (d ← dueDate_; t ← todayDate; Some (d - t)) in
  let diffDays := ceilDays diffTime in
  match diffDays with
  | Some n =>
      if n =? 1 then "Due tomorrow"
      else if n <=? 7 then "Due in " +:+ numberToString (Some n) +:+ " days"
      else if n <=? 30 then
        "Due in " +:+ numberToString (Some (ceil_div n 7)) +:+ " week"
        +:+ pluralS (Some (ceil_div n 7))
      else
        "Due in " +:+ numberToString (Some (ceil_div n 30)) +:+ " month"
        +:+ pluralS (Some (ceil_div n 30))
  | None => "Due in NaN month"
  end.

(** The text as the specification words it, over the difference in
    whole days between the due date and today. *)
Definition spec_statusText (completed : bool) (diffDays : Z) : string :=
  if completed then "Completed"
  else if diffDays <? 0 then
    "Overdue by " +:+ RoutinesRoute.decimal (- diffDays)
    +:+ (if - diffDays =? 1 then " day" else " days")
  else if diffDays =? 0 then "Due today"
  else if diffDays =? 1 then "Due tomorrow"
  else if diffDays <=? 7 then "Due in " +:+ RoutinesRoute.decimal diffDays +:+ " days"
  else if diffDays <=? 30 then
    "Due in " +:+ RoutinesRoute.decimal (ceil_div diffDays 7) +:+ " weeks"
  else "Due in " +:+ RoutinesRoute.decimal (ceil_div diffDays 30) +:+ " months".

(** *** The scheduled tasks page: [getStatusCounts] *)

(** A scheduled task, with the fields that the page reads. *)
Record ScheduledTask : Set := {
  st_title : string;
  st_description : option string;
  st_categoryId : option string;
  st_priority : string;
  st_dueDate : string;
  st_createdAt : string;
  st_completed : bool
}.

Record StatusCounts : Set :=
  { n_all : Z; n_pending : Z; n_overdue : Z; n_completed : Z }.

(** One round of the [forEach]. *)
Definition countTask (tza now : Z) (counts : StatusCounts) (task : ScheduledTask)
    : StatusCounts :=
  if st_completed task
  then {| n_all := n_all counts; n_pending := n_pending counts;
          n_overdue := n_overdue counts; n_completed := n_completed counts + 1 |}
  else
    let status := getTaskStatus tza now (st_dueDate task) (st_completed task) in
    {| n_all := n_all counts; n_pending := n_pending counts + 1;
       n_overdue := if bool_decide (status = Overdue)
                    then n_overdue counts + 1 else n_overdue counts;
       n_completed := n_completed counts |}.

Definition getStatusCounts (tza now : Z) (tasks : list ScheduledTask) : StatusCounts :=
  fold_left (countTask tza now) tasks
    {| n_all := Z.of_nat (length tasks); n_pending := 0; n_overdue := 0; n_completed := 0 |}.

(** A pending task that [getTaskStatus] calls overdue. *)
Definition isOverdueTask (tza now : Z) (task : ScheduledTask) : bool :=
  negb (st_completed task)
  && bool_decide (getTaskStatus tza now (st_dueDate task) false = Overdue).

End StatusText.

(** *** The scheduled tasks page: [applyFilters] *)

Module ScheduledPage.
Import Cal Js DateUtils StatusText.

(** The strings of the [TaskStatus] type. *)
Definition statusName (s : TaskStatus) : string :=
  match s with
  | Overdue => "overdue"
  | DueToday => "due-today"
  | DueSoon => "due-soon"
  | Future => "future"
  | Completed => "completed"
  end.

Inductive SortBy : Set := ByDueDate | ByPriority | ByCreatedAt.

Record FilterState : Set := {
  search : string;
  categoryId : string;
  priority : string;
  status : string;
  sortBy : SortBy;
  ascending : bool                 (* [sortOrder === 'asc'] *)
}.

(** A string in a condition: the empty string is false. *)
Definition nonEmpty (s : string) : bool := negb (String.eqb s "").

(** [toLowerCase], on strings of ASCII characters. *)
Definition lowerChar (c : ascii) : ascii :=
  let n := Ascii.N_of_ascii c in
  if ((65 <=? n) && (n <=? 90))%N then Ascii.ascii_of_N (n + 32) else c.

Fixpoint toLowerCase (s : string) : string :=
  match s with
  | EmptyString => EmptyString
  | String c r => String (lowerChar c) (toLowerCase r)
  end.

(** [s.includes(needle)]. *)
Fixpoint stringIncludes (needle s : string) : bool :=
  String.prefix needle s
  || match s with
     | EmptyString => false
     | String _ r => stringIncludes needle r
     end.

Definition matchesSearch (filters : FilterState) (task : ScheduledTask) : bool :=
  let searchLower := toLowerCase (search filters) in
  stringIncludes searchLower (toLowerCase (st_title task))
  || match st_description task with
     | Some d => nonEmpty d && stringIncludes searchLower (toLowerCase d)
     | None => false
     end.

Definition matchesCategory (filters : FilterState) (task : ScheduledTask) : bool :=
  bool_decide (st_categoryId task = Some (categoryId filters)).

Definition matchesPriority (filters : FilterState) (task : ScheduledTask) : bool :=
  String.eqb (st_priority task) (priority filters).

Definition matchesStatus (tza now : Z) (filters : FilterState) (task : ScheduledTask) : bool :=
  String.eqb (statusName (getTaskStatus tza now (st_dueDate task) (st_completed task)))
             (status filters).

(** [priorityOrder[p]]; [None] is [undefined]. *)
Definition priorityOrder (p : string) : option Z :=
  if String.eqb p "URGENT" then Some 4
  else if String.eqb p "HIGH" then Some 3
  else if String.eqb p "MEDIUM" then Some 2
  else if String.eqb p "LOW" then Some 1
  else None.

(** [aValue] and [bValue] of the second [sort]: the rank of the priority
    or the time of creation; [None] is [NaN]. *)
Definition sortValue (tza : Z) (filters : FilterState) (task : ScheduledTask) : option Z :=
  match sortBy filters with
  | ByPriority => priorityOrder (st_priority task)
  | _ => Date_parse tza (st_createdAt task)
  end.

(** The comparator of the second [sort]. *)
Definition compareBy (tza : Z) (filters : FilterState) (a b : ScheduledTask) : option Z :=
  aValue ← sortValue tza filters a; bValue ← sortValue tza filters b;
  Some (if ascending filters then aValue - bValue else bValue - aValue).

(** What [sortTasksByDueDate] reads of a task. *)
Definition taskObj (task : ScheduledTask) : TaskObj :=
  {| t_completed := st_completed task; t_dueDate := Some (st_dueDate task) |}.

Definition negative (v : option Z) : bool :=
  match v with Some z => z <? 0 | None => false end.

(** [applyFilters]: the value it hands to [setFilteredTasks]. *)
Definition applyFilters (tza now : Z) (filters : FilterState) (tasks : list ScheduledTask)
    : list ScheduledTask :=
  let filtered := tasks in
  let filtered :=
    if nonEmpty (search filters) then List.filter (matchesSearch filters) filtered
    else filtered in
  let filtered :=
    if nonEmpty (categoryId filters) then List.filter (matchesCategory filters) filtered
    else filtered in
  let filtered :=
    if nonEmpty (priority filters) then List.filter (matchesPriority filters) filtered
    else filtered in
  let filtered :=
    if nonEmpty (status filters) then List.filter (matchesStatus tza now filters) filtered
    else filtered in
  match sortBy filters with
  | ByDueDate =>
      sort_by (fun a b => negative (compareTasks tza (ascending filters) (taskObj a) (taskObj b)))
        filtered
  | _ => sort_by (fun a b => negative (compareBy tza filters a b)) filtered
  end.

(** A task passes every filter that is set. *)
Definition passes (tza now : Z) (filters : FilterState) (task : ScheduledTask) : bool :=
  implb (nonEmpty (search filters)) (matchesSearch filters task)
  && implb (nonEmpty (categoryId filters)) (matchesCategory filters task)
  && implb (nonEmpty (priority filters)) (matchesPriority filters task)
  && implb (nonEmpty (status filters)) (matchesStatus tza now filters task).

(** The filters with nothing set but the status. *)
Definition statusOnly (s : string) (by_ : SortBy) (asc : bool) : FilterState :=
  {| search := ""; categoryId := ""; priority := ""; status := s;
     sortBy := by_; ascending := asc |}.

End ScheduledPage.

Module PageExamples.
Import StatusText ScheduledPage.

Definition scheduled (title prio due : string) (done : bool) : ScheduledTask :=
  {| st_title := title; st_description := None; st_categoryId := None;
     st_priority := prio; st_dueDate := due;
     st_createdAt := "2024-03-01T08:00:00.000Z"; st_completed := done |}.

(** At [Examples.noon], 2024-03-09: one task overdue, one due soon, one
    completed. *)
Definition pageTasks : list ScheduledTask :=
  [ scheduled "Tax return" "HIGH" "2024-03-05" false;
    scheduled "Dentist" "LOW" "2024-03-11" false;
    scheduled "Renew passport" "URGENT" "2024-03-02" true ].

End PageExamples.

(** ** The order that [sortTasksByDueDate] produces *)

Module SortOrder.
Import Cal Js DateUtils.

(** Every due date parses, so that the comparator never yields [NaN]. *)
Definition datesParse (tza : Z) (l : list TaskObj) : Prop :=
  Forall (fun t => is_Some (getTime tza (t_dueDate t))) l.

(** [a] may stand before [b]: a completed task stands before completed
    tasks only, and within the completed and within the pending tasks
    the due dates go up, or down when [ascending] is false. *)
Definition comesBefore (tza : Z) (ascending : bool) (a b : TaskObj) : Prop :=
  (t_completed a = true -> t_completed b = true) /\
  (t_completed a = t_completed b ->
   forall ta tb, getTime tza (t_dueDate a) = Some ta -> getTime tza (t_dueDate b) = Some tb ->
                 if ascending then ta <= tb else tb <= ta).

End SortOrder.

(** ** The distributions of a report: auxiliary notions *)

Module ReportsSpec.
Import Cal Js Reports.

(** What one entry of the category distribution says: it stands for a
    category that has selected tasks, counts them, and counts the
    completed ones among them. *)
Definition entry_ok (db : Database) (tasks : list Task) (e : string * CategoryStat) : Prop :=
  1 <= c_total (snd e) /\ 0 <= c_completed (snd e) <= c_total (snd e) /\
  c_total (snd e) <= len tasks /\
  exists category, category ∈ db_categories db /\ cat_name category = fst e /\
    c_color (snd e) = cat_color category /\
    c_total (snd e)
      = count (fun task => bool_decide (categoryId task = Some (cat_id category))) tasks.

End ReportsSpec.

Module MoreExamples.
Import Cal Js Reports Examples.

(** A pending task whose due date came back from the store as a [Date]. *)
Definition datedTask : Task :=
  {| userId := "u1"; completed := false; priority := LOW; categoryId := None;
     dueDate := Some (DueObject noon); createdAt := noon; updatedAt := noon |}.

Definition dbDated : Database :=
  {| db_tasks := [datedTask]; db_categories := []; db_routines := [] |}.

Definition inCategory (c : string) (done : bool) (p : Priority) : Task :=
  {| userId := "u1"; completed := done; priority := p; categoryId := Some c;
     dueDate := Some (DueString "2024-03-01T00:00:00.000Z");
     createdAt := noon - 1000; updatedAt := noon - 500 |}.

Definition category (id name : string) : Category :=
  {| cat_id := id; cat_name := name; cat_color := "#3B82F6" |}.

(** Six categories with tasks, and one without. *)
Definition dbCategories : Database :=
  {| db_tasks :=
       [ inCategory "c1" true HIGH; inCategory "c1" false LOW; inCategory "c1" false LOW;
         inCategory "c2" true URGENT; inCategory "c3" false MEDIUM;
         inCategory "c3" true MEDIUM; inCategory "c4" false LOW;
         inCategory "c5" true HIGH; inCategory "c6" false URGENT ];
     db_categories :=
       [ category "c1" "Work"; category "c2" "Home"; category "c3" "Health";
         category "c4" "Study"; category "c5" "Money"; category "c6" "Travel";
         category "c7" "Empty" ];
     db_routines := [] |}.

End MoreExamples.

(** ** What the forms send: [handleSubmit] and the day toggles *)

Module Submit.
Import Routines RoutinesRoute.

Definition priorityName (p : Reports.Priority) : string :=
  match p with
  | Reports.LOW => "LOW" | Reports.MEDIUM => "MEDIUM"
  | Reports.HIGH => "HIGH" | Reports.URGENT => "URGENT"
  end.

Definition typeName (t : RecurrenceType) : string :=
  match t with
  | DAILY => "DAILY" | WEEKLY => "WEEKLY" | MONTHLY => "MONTHLY" | CUSTOM => "CUSTOM"
  end.

(** [s || undefined]. *)
Definition orUndefined (s : string) : Json :=
  if isEmpty s then JUndefined else JStr s.

(** The [schedule] object that both forms build. *)
Definition scheduleOfForm (type : RecurrenceType) (interval dayOfMonth : Z)
    (daysOfWeek : list string) (time : string) : Schedule :=
  {| recurrenceType := JStr (typeName type);
     interval := if bool_decide (type = CUSTOM) then JNum interval else JUndefined;
     daysOfWeek := if bool_decide (type = WEEKLY) then JArr (map JStr daysOfWeek)
                   else JUndefined;
     dayOfMonth := if bool_decide (type = MONTHLY) then JNum dayOfMonth else JUndefined;
     time := orUndefined time |}.

(** [handleSubmit] of [RoutineForm]: the body of the request to the
    routines route, [None] when [validateForm] fails and nothing is
    sent.  [priority] is [formData.priority], which [validateForm] does
    not read. *)
Definition routineFormRequest (priority : Reports.Priority) (fd : RoutineForm.FormData)
    : option Body :=
  if RoutineForm.validateForm fd then
    Some {| title := JStr (trim (RoutineForm.title fd));
            priority := JStr (priorityName priority);
            schedule := Some (scheduleOfForm (RoutineForm.recurrenceType fd)
                                (RoutineForm.interval fd) (RoutineForm.dayOfMonth fd)
                                (RoutineForm.daysOfWeek fd) (RoutineForm.time fd));
            categoryId := orUndefined (RoutineForm.categoryId fd) |}
  else None.

(** [handleSubmit] of [AddTask] for a routine; a scheduled task goes to
    another route, and no request reaches the routines route. *)
Definition addTaskRequest (priority : Reports.Priority) (fd : AddTask.FormData)
    : option Body :=
  if AddTask.validateForm fd && bool_decide (AddTask.taskType fd = AddTask.routine) then
    Some {| title := JStr (trim (AddTask.title fd));
            priority := JStr (priorityName priority);
            schedule := Some (scheduleOfForm (AddTask.recurrenceType fd)
                                (AddTask.interval fd) (AddTask.dayOfMonth fd)
                                (AddTask.daysOfWeek fd) (AddTask.time fd));
            categoryId := orUndefined (AddTask.categoryId fd) |}
  else None.

(** [handleDayOfWeekToggle] of [RoutineForm]. *)
Definition handleDayOfWeekToggle (day : string) (daysOfWeek : list string) : list string :=
  if bool_decide (day ∈ daysOfWeek)
  then List.filter (fun d => negb (String.eqb d day)) daysOfWeek
  else daysOfWeek ++ [day].

(** [handleDayOfWeekChange] of [AddTask]. *)
Definition handleDayOfWeekChange (day : string) (checked : bool) (daysOfWeek : list string)
    : list string :=
  if checked then daysOfWeek ++ [day]
  else List.filter (fun d => negb (String.eqb d day)) daysOfWeek.

End Submit.

(** ** The trends of the reports route *)

Module Trends.
Import Cal Js Reports.

Definition hexDigitVal (c : ascii) : option Z :=
  let n := Z.of_N (Ascii.N_of_ascii c) in
  if (48 <=? n) && (n <=? 57) then Some (n - 48)
  else if (65 <=? n) && (n <=? 70) then Some (n - 55)
  else if (97 <=? n) && (n <=? 102) then Some (n - 87)
  else None.

(** The longest prefix of digits, read in the given radix; [None] when
    the string does not start with a digit. *)
Fixpoint readDigits (digit : ascii -> option Z) (radix : Z) (acc : option Z) (s : string)
    : option Z :=
  match s with
  | EmptyString => acc
  | String c r =>
      match digit c with
      | Some d => readDigits digit radix (Some (radix * default 0 acc + d)) r
      | None => acc
      end
  end.

(** [parseInt(s)]: white space, a sign, [0x] for radix 16, then digits
    as far as they go; [None] is [NaN]. *)
Definition parseInt (s : string) : option Z :=
  let '(sign, body) :=
    match Routines.trimStart s with
    | String "-" r => (-1, r)
    | String "+" r => (1, r)
    | t => (1, t)
    end in
  let magnitude :=
    match body with
    | String "0" (String "x" r) | String "0" (String "X" r) => readDigits hexDigitVal 16 None r
    | _ => readDigits digitVal 10 None body
    end in
  n ← magnitude; Some (sign * n).

(** The largest time value of a [Date], 100 000 000 days from the epoch. *)
Definition maxTime : Z := 8640000000000000.

Record TrendsRequest : Set := {
  tr_user : string;
  tr_period : option string        (* [req.query.period] *)
}.

Record DailyEntry : Set := {
  date : string;
  tasksCreated : Z;
  tasksCompleted : Z;
  productivity : Z
}.

(** The [where] clause of the query. *)
Definition trendsFilter (req : TrendsRequest) (startDate endDate : Z) (t : Task) : bool :=
  String.eqb (userId t) (tr_user req)
  && ((startDate <=? createdAt t) && (createdAt t <=? endDate)
      || (startDate <=? updatedAt t) && (updatedAt t <=? endDate) && completed t).

(** The entry of the day of [currentDate]. *)
Definition dailyEntry (tza : Z) (tasks : list Task) (currentDate : Z) : DailyEntry :=
  let dateStr := toDateString tza currentDate in
  let tasksCreated :=
    count (fun task => String.eqb (toDateString tza (createdAt task)) dateStr) tasks in
  let tasksCompleted :=
    count (fun task => completed task
                       && String.eqb (toDateString tza (updatedAt task)) dateStr) tasks in
  {| date := split_head "T" (toISOString currentDate);
     tasksCreated := tasksCreated;
     tasksCompleted := tasksCompleted;
     productivity := if tasksCompleted >? 0 then 1 else 0 |}.

(** The [while] loop, on fuel; [None] means that the fuel did not
    suffice. *)
Fixpoint trendsLoop (fuel : nat) (tza : Z) (tasks : list Task) (endDate currentDate : Z)
    (dailyData : list DailyEntry) : option (list DailyEntry) :=
  match fuel with
  | O => None
  | S fuel' =>
      if currentDate <=? endDate
      then trendsLoop fuel' tza tasks endDate
             (setDate tza currentDate (getDate tza currentDate + 1))
             (dailyData ++ [dailyEntry tza tasks currentDate])
      else Some dailyData
  end.

(** The handler of [GET /api/reports/trends].  It reads the clock
    twice: [now] is the value of [endDate], [now'] that of the
    [new Date()] that becomes [startDate].  A period that is no number
    makes the start an invalid date, which the query refuses: that, like
    running out of fuel, is [None]. *)
Definition getTrends (fuel : nat) (tza now now' : Z) (db : Database) (req : TrendsRequest)
    : option (list DailyEntry) :=
  let period := default "30" (tr_period req) in
  days ← parseInt period;
  let endDate := now in
  let startDate := setDate tza now' (getDate tza endDate - days) in
  let tasks := List.filter (trendsFilter req startDate endDate) (db_tasks db) in
  trendsLoop fuel tza tasks endDate startDate [].

(** What may follow a numeral without being read as part of it. *)
Definition stopsNumeral (n : Z) (s : string) : Prop :=
  match s with
  | EmptyString => True
  | String c _ => digitVal c = None /\ (n = 0 -> c <> "x"%char /\ c <> "X"%char)
  end.

End Trends.

(** * Properties *)

Module CalFacts.
Import Cal.

Lemma all_from_spec (n : nat) (p : Z -> bool) :
  forall z0, all_from n z0 p = true ->
  forall z, z0 <= z < z0 + Z.of_nat n -> p z = true.
Proof.
  induction n as [|k IH]; intros z0 H z Hz; [lia|].
  simpl in H. apply andb_prop in H as [Hk Hr].
  destruct (Z.eq_dec z z0) as [->|Hne]; [exact Hk|].
  apply (IH (z0 + 1)); [exact Hr|lia].
Qed.

Lemma cycle_ok_all : all_from (Z.to_nat 146097) 0 cycle_ok = true.
Proof. vm_cast_no_check (eq_refl true). Qed.


Lemma yearDays_shift y k : yearDays (y + k * 400) = yearDays y + k * 146097.
Proof.
  unfold yearDays.
  replace (y + k * 400) with (y + (k * 100) * 4) at 2 by lia.
  replace (y + k * 400) with (y + (k * 4) * 100) at 2 by lia.
  rewrite !Z.div_add by lia. lia.
Qed.

Lemma isLeap_shift y k : isLeap (y + k * 400) = isLeap y.
Proof.
  unfold isLeap.
  replace ((y + k * 400) mod 4) with (y mod 4).
  2:{ replace (y + k * 400) with (y + (k * 100) * 4) by lia. now rewrite Z.mod_add by lia. }
  replace ((y + k * 400) mod 100) with (y mod 100).
  2:{ replace (y + k * 400) with (y + (k * 4) * 100) by lia. now rewrite Z.mod_add by lia. }
  now rewrite Z.mod_add by lia.
Qed.

Lemma cycle_ok_at doe : 0 <= doe < 146097 -> cycle_ok doe = true.
Proof.
  intros H. apply (all_from_spec _ _ 0 cycle_ok_all).
  rewrite Z2Nat.id; lia.
Qed.

Lemma validb_valid c : validb c = true <-> valid c.
Proof.
  unfold validb, valid. rewrite !andb_true_iff, !Z.leb_le. tauto.
Qed.

Lemma daysInMonth_shift y k m : daysInMonth (y + k * 400) m = daysInMonth y m.
Proof. unfold daysInMonth. now rewrite isLeap_shift. Qed.

Lemma civil_from_days_valid n : valid (civil_from_days n).
Proof.
  unfold civil_from_days.
  set (z := n + 719468). set (era := z / 146097). set (doe := z mod 146097).
  assert (Hdoe : 0 <= doe < 146097) by (apply Z.mod_pos_bound; lia).
  pose proof (cycle_ok_at doe Hdoe) as Hc. unfold cycle_ok in Hc.
  set (yoe := (doe - doe / 1460 + doe / 36524 - doe / 146096) / 365) in *.
  set (doy := doe - (365 * yoe + yoe / 4 - yoe / 100)) in *.
  set (mp := (5 * doy + 2) / 153) in *.
  set (d := doy - (153 * mp + 2) / 5 + 1) in *.
  set (m := if mp <? 10 then mp + 3 else mp - 9) in *.
  rewrite !andb_true_iff in Hc. destruct Hc as [_ Hv].
  apply validb_valid in Hv. unfold valid in *. simpl in *.
  replace (yoe + era * 400 + (if m <=? 2 then 1 else 0))
    with (yoe + (if m <=? 2 then 1 else 0) + era * 400) by lia.
  now rewrite daysInMonth_shift.
Qed.

Lemma days_from_civil_from_days n : days_from_civil (civil_from_days n) = n.
Proof.
  unfold civil_from_days.
  set (z := n + 719468). set (era := z / 146097). set (doe := z mod 146097).
  assert (Hdoe : 0 <= doe < 146097) by (apply Z.mod_pos_bound; lia).
  assert (Hz : z = 146097 * era + doe) by (apply Z.div_mod; lia).
  pose proof (cycle_ok_at doe Hdoe) as Hc. unfold cycle_ok in Hc.
  set (yoe := (doe - doe / 1460 + doe / 36524 - doe / 146096) / 365) in *.
  set (doy := doe - (365 * yoe + yoe / 4 - yoe / 100)) in *.
  set (mp := (5 * doy + 2) / 153) in *.
  set (d := doy - (153 * mp + 2) / 5 + 1) in *.
  set (m := if mp <? 10 then mp + 3 else mp - 9) in *.
  rewrite !andb_true_iff in Hc. destruct Hc as [[[[Hy0 Hy1] Hm0] Hm1] _].
  apply Z.leb_le in Hy0, Hm0. apply Z.ltb_lt in Hy1, Hm1.
  unfold days_from_civil. simpl.
  assert (Hyr : (if m <=? 2 then yoe + era * 400 + (if m <=? 2 then 1 else 0) - 1
                 else yoe + era * 400 + (if m <=? 2 then 1 else 0)) = yoe + era * 400)
    by (destruct (m <=? 2); lia).
  assert (Hmp : (if m <=? 2 then m + 9 else m - 3) = mp).
  { subst m. destruct (mp <? 10) eqn:E.
    - apply Z.ltb_lt in E. destruct (mp + 3 <=? 2) eqn:E2; [apply Z.leb_le in E2|]; lia.
    - apply Z.ltb_ge in E. destruct (mp - 9 <=? 2) eqn:E2; [|apply Z.leb_gt in E2]; lia. }
  rewrite Hyr, Hmp, yearDays_shift. unfold yearDays.
  rewrite (Z.div_small yoe 400) by lia.
  subst d doy. lia.
Qed.

Lemma yearDays_succ y :
  yearDays y = yearDays (y - 1) + 365 + (if isLeap y then 1 else 0).
Proof.
  unfold yearDays, isLeap.
  destruct (y mod 4 =? 0) eqn:E4; destruct (y mod 100 =? 0) eqn:E100;
    destruct (y mod 400 =? 0) eqn:E400; simpl;
    rewrite ?Z.eqb_eq, ?Z.eqb_neq in *;
    Z.div_mod_to_equations; lia.
Qed.

Lemma yearDays_mono y1 y2 : y1 <= y2 -> yearDays y1 <= yearDays y2.
Proof.
  intros H. unfold yearDays.
  rewrite <- !(Z.div_div _ 4 25) by lia.
  assert (H4 : y1 / 4 <= y2 / 4) by (apply Z.div_le_mono; lia).
  assert (H100 : y1 / 100 <= y2 / 100) by (apply Z.div_le_mono; lia).
  assert (H400 : y1 / 400 <= y2 / 400) by (apply Z.div_le_mono; lia).
  assert (Hq : forall a b, a <= b -> a - a / 25 <= b - b / 25).
  { intros a b Hab. Z.div_mod_to_equations. lia. }
  specialize (Hq _ _ H4). lia.
Qed.

Lemma jan1_mono y1 y2 : y1 <= y2 -> jan1 y1 <= jan1 y2.
Proof. intros H. unfold jan1. pose proof (yearDays_mono (y1 - 1) (y2 - 1)). lia. Qed.

Lemma jan1_succ y : jan1 (y + 1) = jan1 y + 365 + (if isLeap y then 1 else 0).
Proof. unfold jan1. replace (y + 1 - 1) with y by lia. rewrite (yearDays_succ y). lia. Qed.

Ltac month_cases m H :=
  assert (m = 1 \/ m = 2 \/ m = 3 \/ m = 4 \/ m = 5 \/ m = 6 \/ m = 7 \/ m = 8
          \/ m = 9 \/ m = 10 \/ m = 11 \/ m = 12) as H by lia;
  repeat (destruct H as [H|H]).

Lemma dayInYear_eq y m d :
  1 <= m <= 12 -> dayInYear (Civil y m d) = monthStart y m + d - 1.
Proof.
  intros Hm. unfold dayInYear, days_from_civil, jan1, monthStart. simpl.
  pose proof (yearDays_succ y) as Hs.
  month_cases m H; subst m; simpl; Z.div_mod_to_equations; lia.
Qed.

Lemma monthStart_next y m :
  1 <= m <= 11 -> monthStart y (m + 1) = monthStart y m + daysInMonth y m.
Proof.
  intros Hm. unfold monthStart, daysInMonth.
  assert (m = 1 \/ m = 2 \/ m = 3 \/ m = 4 \/ m = 5 \/ m = 6 \/ m = 7 \/ m = 8
          \/ m = 9 \/ m = 10 \/ m = 11) as H by lia.
  repeat (destruct H as [H|H]); subst m; simpl; destruct (isLeap y); reflexivity.
Qed.

Lemma monthStart_lt y m1 m2 :
  1 <= m1 -> m1 < m2 -> m2 <= 12 ->
  monthStart y m1 + daysInMonth y m1 <= monthStart y m2.
Proof.
  intros H1 H12 H2.
  assert (Hk : exists k, m2 = m1 + 1 + Z.of_nat k) by (exists (Z.to_nat (m2 - m1 - 1)); lia).
  destruct Hk as [k ->]. clear H12.
  induction k as [|k IH].
  - rewrite Z.add_0_r, monthStart_next; lia.
  - rewrite Nat2Z.inj_succ.
    replace (m1 + 1 + Z.succ (Z.of_nat k)) with (m1 + 1 + Z.of_nat k + 1) by lia.
    rewrite monthStart_next by lia.
    assert (0 < daysInMonth y (m1 + 1 + Z.of_nat k)).
    { unfold daysInMonth. repeat match goal with |- context [if ?b then _ else _] => destruct b end; lia. }
    specialize (IH ltac:(lia)). lia.
Qed.

Lemma dayInYear_bounds c :
  valid c -> 0 <= dayInYear c < 365 + (if isLeap (year c) then 1 else 0).
Proof.
  destruct c as [y m d]. unfold valid; simpl. intros [Hm Hd].
  rewrite dayInYear_eq by lia.
  unfold monthStart, daysInMonth in *.
  month_cases m H; subst m; simpl in *; destruct (isLeap y); lia.
Qed.

Lemma days_from_civil_lt a b :
  valid a -> valid b -> civil_compare a b = Lt -> days_from_civil a < days_from_civil b.
Proof.
  intros Ha Hb Hc.
  pose proof (dayInYear_bounds a Ha) as Ba. pose proof (dayInYear_bounds b Hb) as Bb.
  unfold civil_compare in Hc.
  destruct a as [y m d], b as [y' m' d'].
  destruct Ha as [Hm Hd], Hb as [Hm' Hd']. cbn [year month day] in *.
  destruct (Z.compare_spec y y') as [Hy|Hy|Hy]; try discriminate.
  - subst y'.
    rewrite dayInYear_eq in Ba, Bb by assumption.
    pose proof (dayInYear_eq y m d Hm) as E1. pose proof (dayInYear_eq y m' d' Hm') as E2.
    unfold dayInYear in E1, E2. cbn [year] in E1, E2.
    destruct (Z.compare_spec m m') as [Hmm|Hmm|Hmm]; try discriminate.
    + subst m'. rewrite Z.compare_lt_iff in Hc. lia.
    + pose proof (monthStart_lt y m m' ltac:(lia) Hmm ltac:(lia)). lia.
  - unfold dayInYear in Ba, Bb. cbn [year] in Ba, Bb.
    pose proof (jan1_succ y) as Hs.
    pose proof (jan1_mono (y + 1) y' ltac:(lia)). lia.
Qed.

Lemma civil_compare_antisym a b : civil_compare b a = CompOpp (civil_compare a b).
Proof.
  unfold civil_compare.
  rewrite (Z.compare_antisym (year a)), (Z.compare_antisym (month a)), (Z.compare_antisym (day a)).
  destruct (year a ?= year b), (month a ?= month b), (day a ?= day b); reflexivity.
Qed.

Lemma civil_compare_eq a b : civil_compare a b = Eq -> a = b.
Proof.
  destruct a as [y m d], b as [y' m' d']. unfold civil_compare. simpl.
  destruct (Z.compare_spec y y'); try discriminate.
  destruct (Z.compare_spec m m'); try discriminate.
  intros Hd%Z.compare_eq. congruence.
Qed.

Lemma days_from_civil_compare a b :
  valid a -> valid b ->
  (days_from_civil a ?= days_from_civil b) = civil_compare a b.
Proof.
  intros Ha Hb. destruct (civil_compare a b) eqn:E.
  - apply civil_compare_eq in E. subst b. apply Z.compare_refl.
  - apply Z.compare_lt_iff. now apply days_from_civil_lt.
  - apply Z.compare_gt_iff. apply days_from_civil_lt; auto.
    rewrite civil_compare_antisym, E. reflexivity.
Qed.

Lemma civil_from_days_from_civil c : valid c -> civil_from_days (days_from_civil c) = c.
Proof.
  intros Hc. apply civil_compare_eq.
  rewrite <- days_from_civil_compare by (auto using civil_from_days_valid).
  rewrite days_from_civil_from_days. apply Z.compare_refl.
Qed.

End CalFacts.

Module JsFacts.
Import Cal CalFacts Js.

Lemma digit_cases d : 0 <= d <= 9 ->
  d = 0 \/ d = 1 \/ d = 2 \/ d = 3 \/ d = 4 \/ d = 5 \/ d = 6 \/ d = 7 \/ d = 8 \/ d = 9.
Proof. lia. Qed.

Ltac each_digit d H :=
  let C := fresh in
  pose proof (digit_cases d H) as C;
  repeat (destruct C as [C|C]); subst d.

Lemma digitVal_digitChar d : 0 <= d <= 9 -> digitVal (digitChar d) = Some d.
Proof. intros H. each_digit d H; reflexivity. Qed.

Lemma digitChar_not_T d : 0 <= d <= 9 -> Ascii.eqb (digitChar d) "T" = false.
Proof. intros H. each_digit d H; reflexivity. Qed.

Lemma digitChar_compare p q :
  0 <= p <= 9 -> 0 <= q <= 9 -> Ascii.compare (digitChar p) (digitChar q) = (p ?= q).
Proof.
  intros Hp Hq. unfold Ascii.compare, digitChar.
  rewrite !Ascii.N_ascii_embedding by lia.
  rewrite (Z2N.inj_compare (48 + p) (48 + q)) by lia. apply Z.add_compare_mono_l.
Qed.

Lemma pad2_eq n : pad 2 n = String (digitChar (n / 10 mod 10)) (String (digitChar (n mod 10)) "").
Proof. reflexivity. Qed.

Lemma pad4_eq n :
  pad 4 n = String (digitChar (n / 10 / 10 / 10 mod 10)) (String (digitChar (n / 10 / 10 mod 10))
            (String (digitChar (n / 10 mod 10)) (String (digitChar (n mod 10)) ""))).
Proof. reflexivity. Qed.

Lemma mod10 n : 0 <= n mod 10 <= 9.
Proof. pose proof (Z.mod_pos_bound n 10). lia. Qed.

Lemma isoDate_eq c :
  0 <= year c <= 9999 ->
  isoDate c =
  String (digitChar (year c / 10 / 10 / 10 mod 10)) (String (digitChar (year c / 10 / 10 mod 10))
  (String (digitChar (year c / 10 mod 10)) (String (digitChar (year c mod 10))
  (String "-" (String (digitChar (month c / 10 mod 10)) (String (digitChar (month c mod 10))
  (String "-" (String (digitChar (day c / 10 mod 10)) (String (digitChar (day c mod 10)) ""))))))))).
Proof.
  intros Hy. unfold isoDate, isoYear.
  replace ((0 <=? year c) && (year c <=? 9999)) with true
    by (symmetry; apply andb_true_iff; split; apply Z.leb_le; lia).
  reflexivity.
Qed.

Lemma append_String a s r : String a s +:+ r = String a (s +:+ r).
Proof. reflexivity. Qed.

Lemma append_Empty r : "" +:+ r = r.
Proof. reflexivity. Qed.

Lemma split_head_isoDate c rest :
  0 <= year c <= 9999 ->
  rest = "" \/ (exists r, rest = String "T" r) ->
  split_head "T" (isoDate c +:+ rest) = isoDate c.
Proof.
  intros Hy Hr. rewrite isoDate_eq by assumption.
  rewrite !append_String, append_Empty. cbn [split_head].
  rewrite !digitChar_not_T by apply mod10.
  change (Ascii.eqb "-" "T") with false. cbv iota.
  destruct Hr as [->|[r ->]]; reflexivity.
Qed.

Lemma split_head_toISOString t :
  0 <= YearFromTime t <= 9999 ->
  split_head "T" (toISOString t) = isoDate (civil_from_days (Day t)).
Proof.
  intros Hy. unfold toISOString. apply split_head_isoDate; [exact Hy|].
  right. eexists. reflexivity.
Qed.

Lemma compare_app a : forall b r r',
  String.length a = String.length b ->
  String.compare (a +:+ r) (b +:+ r') =
  match String.compare a b with Eq => String.compare r r' | o => o end.
Proof.
  induction a as [|x a IH]; intros [|y b] r r' Hl; try discriminate; [reflexivity|].
  rewrite !append_String. cbn [String.compare].
  destruct (Ascii.compare x y); auto.
Qed.

Lemma compare_lex n n' :
  (n ?= n') = match n / 10 ?= n' / 10 with Eq => n mod 10 ?= n' mod 10 | o => o end.
Proof.
  destruct (Z.compare_spec (n / 10) (n' / 10)) as [H|H|H].
  - destruct (Z.compare_spec (n mod 10) (n' mod 10)) as [H'|H'|H'];
      [apply Z.compare_eq_iff|apply Z.compare_lt_iff|apply Z.compare_gt_iff];
      Z.div_mod_to_equations; lia.
  - apply Z.compare_lt_iff. Z.div_mod_to_equations; lia.
  - apply Z.compare_gt_iff. Z.div_mod_to_equations; lia.
Qed.

Lemma padDigits_compare w : forall n n' k k',
  0 <= n < 10 ^ Z.of_nat w -> 0 <= n' < 10 ^ Z.of_nat w ->
  String.compare (padDigits w n k) (padDigits w n' k') =
  match n ?= n' with Eq => String.compare k k' | o => o end.
Proof.
  induction w as [|w IH]; intros n n' k k' Hn Hn'.
  - change (10 ^ Z.of_nat 0) with 1 in *.
    assert (n = 0) by lia. assert (n' = 0) by lia. subst. reflexivity.
  - rewrite Nat2Z.inj_succ, Z.pow_succ_r in Hn, Hn' by lia.
    cbn [padDigits]. rewrite IH by (Z.div_mod_to_equations; lia).
    cbn [String.compare]. rewrite digitChar_compare by apply mod10.
    rewrite (compare_lex n n').
    destruct (n / 10 ?= n' / 10); auto.
Qed.

Lemma pad_compare w n n' :
  0 <= n < 10 ^ Z.of_nat w -> 0 <= n' < 10 ^ Z.of_nat w ->
  String.compare (pad w n) (pad w n') = (n ?= n').
Proof.
  intros Hn Hn'. unfold pad. rewrite padDigits_compare by assumption.
  destruct (n ?= n'); reflexivity.
Qed.

Lemma padDigits_length w : forall n k,
  String.length (padDigits w n k) = (w + String.length k)%nat.
Proof.
  induction w as [|w IH]; intros n k; [reflexivity|].
  cbn [padDigits]. rewrite IH. cbn [String.length]. lia.
Qed.

Lemma pad_length w n : String.length (pad w n) = w.
Proof. unfold pad. rewrite padDigits_length. cbn. lia. Qed.

(** The ISO rendering orders dates as the calendar does. *)
Lemma isoDate_compare a b :
  0 <= year a <= 9999 -> 0 <= year b <= 9999 ->
  0 <= month a <= 99 -> 0 <= month b <= 99 ->
  0 <= day a <= 99 -> 0 <= day b <= 99 ->
  String.compare (isoDate a) (isoDate b) = civil_compare a b.
Proof.
  intros Hya Hyb Hma Hmb Hda Hdb. unfold isoDate, isoYear, civil_compare.
  replace ((0 <=? year a) && (year a <=? 9999)) with true
    by (symmetry; apply andb_true_iff; split; apply Z.leb_le; lia).
  replace ((0 <=? year b) && (year b <=? 9999)) with true
    by (symmetry; apply andb_true_iff; split; apply Z.leb_le; lia).
  rewrite compare_app by (now rewrite !pad_length).
  rewrite pad_compare by (change (10 ^ Z.of_nat 4) with 10000; lia).
  destruct (year a ?= year b); try reflexivity.
  rewrite !append_String, !append_Empty. cbn [String.compare].
  change (Ascii.compare "-" "-") with Eq. cbv iota.
  rewrite compare_app by (now rewrite !pad_length).
  rewrite pad_compare by (change (10 ^ Z.of_nat 2) with 100; lia).
  destruct (month a ?= month b); try reflexivity.
  cbn [String.compare].
  change (Ascii.compare "-" "-") with Eq. cbv iota.
  apply pad_compare; change (10 ^ Z.of_nat 2) with 100; lia.
Qed.
Lemma field_digits2 a b : 0 <= a <= 9 -> 0 <= b <= 9 ->
  digitsVal 0 (String (digitChar a) (String (digitChar b) "")) = Some (10 * a + b).
Proof.
  intros Ha Hb. cbn [digitsVal]. rewrite !digitVal_digitChar by assumption.
  cbn [digitsVal]. f_equal; lia.
Qed.

Lemma field_digits4 a b c d : 0 <= a <= 9 -> 0 <= b <= 9 -> 0 <= c <= 9 -> 0 <= d <= 9 ->
  digitsVal 0 (String (digitChar a) (String (digitChar b) (String (digitChar c) (String (digitChar d) ""))))
  = Some (1000 * a + 100 * b + 10 * c + d).
Proof.
  intros Ha Hb Hc Hd. cbn [digitsVal]. rewrite !digitVal_digitChar by assumption.
  cbn [digitsVal]. f_equal; lia.
Qed.

Lemma substring_0_0 s : String.substring 0 0 s = "".
Proof. destruct s; reflexivity. Qed.

Lemma digits4_value n : 0 <= n <= 9999 ->
  1000 * (n / 10 / 10 / 10 mod 10) + 100 * (n / 10 / 10 mod 10) + 10 * (n / 10 mod 10) + n mod 10 = n.
Proof. intros H. Z.div_mod_to_equations. lia. Qed.

Lemma digits2_value n : 0 <= n <= 99 -> 10 * (n / 10 mod 10) + n mod 10 = n.
Proof. intros H. Z.div_mod_to_equations. lia. Qed.

Lemma valid_month_day c : valid c -> 1 <= month c <= 12 /\ 1 <= day c <= 31.
Proof.
  unfold valid, daysInMonth. intros [Hm Hd]. split; [exact Hm|].
  repeat match goal with H : context [if ?b then _ else _] |- _ => destruct b end; lia.
Qed.

Lemma parseDatePart_isoDate c rest :
  valid c -> 0 <= year c <= 9999 ->
  parseDatePart (isoDate c +:+ rest) = Some (days_from_civil c).
Proof.
  intros Hv Hy. pose proof (valid_month_day c Hv) as [Hm Hd].
  rewrite isoDate_eq by assumption.
  rewrite !append_String, append_Empty.
  unfold parseDatePart, field, charAt.
  cbn [String.substring String.get]. rewrite substring_0_0.
  rewrite field_digits4, !field_digits2 by apply mod10.
  cbn [mbind option_bind].
  rewrite digits4_value, !digits2_value by lia.
  change (Ascii.eqb "-" "-") with true. cbn [andb].
  destruct c as [y m d]. cbn [year month day] in *.
  apply validb_valid in Hv. rewrite Hv. reflexivity.
Qed.

Lemma isoDate_length c : 0 <= year c <= 9999 -> String.length (isoDate c) = 10%nat.
Proof. intros Hy. rewrite isoDate_eq by assumption. reflexivity. Qed.

Lemma Date_parse_midnight tza c :
  valid c -> 0 <= year c <= 9999 ->
  Date_parse tza (isoDate c +:+ "T00:00:00.000Z") = Some (days_from_civil c * msPerDay).
Proof.
  intros Hv Hy. unfold Date_parse, parseISO.
  replace (String.length (isoDate c +:+ "T00:00:00.000Z")) with 24%nat
    by (rewrite isoDate_eq by assumption; reflexivity).
  rewrite parseDatePart_isoDate by assumption. cbn [mbind option_bind].
  replace (parseTimePart (isoDate c +:+ "T00:00:00.000Z")) with (Some 0)
    by (rewrite isoDate_eq by assumption; reflexivity).
  cbn [mbind option_bind]. unfold MakeDate. f_equal; lia.
Qed.

Lemma ceil_div_mul n : ceil_div (n * msPerDay) (1000 * 60 * 60 * 24) = n.
Proof.
  unfold ceil_div, msPerDay. change (1000 * 60 * 60 * 24) with 86400000.
  rewrite <- Z.mul_opp_l, Z.div_mul by lia. lia.
Qed.

Lemma string_compare_refl s : String.compare s s = Eq.
Proof.
  induction s as [|a s IH]; [reflexivity|].
  cbn [String.compare]. unfold Ascii.compare. now rewrite N.compare_refl.
Qed.

Lemma eqb_compare s1 s2 : String.eqb s1 s2 = match String.compare s1 s2 with Eq => true | _ => false end.
Proof.
  destruct (String.eqb s1 s2) eqn:E.
  - apply String.eqb_eq in E. subst s2. now rewrite string_compare_refl.
  - destruct (String.compare s1 s2) eqn:C; try reflexivity.
    apply String.compare_eq_iff in C. apply String.eqb_neq in E. contradiction.
Qed.


Lemma append_length a b : String.length (a +:+ b) = (String.length a + String.length b)%nat.
Proof. induction a as [|x a IH]; [reflexivity|]. rewrite append_String. cbn [String.length]. now rewrite IH. Qed.

Lemma dayName_shape w : 0 <= w < 7 ->
  exists a b c, nth (Z.to_nat w) dayNames "" = String a (String b (String c "")).
Proof.
  intros H. assert (C : w = 0 \/ w = 1 \/ w = 2 \/ w = 3 \/ w = 4 \/ w = 5 \/ w = 6) by lia.
  repeat (destruct C as [C|C]); subst w; do 3 eexists; reflexivity.
Qed.

Lemma monthName_shape m : 1 <= m <= 12 ->
  exists a b c, nth (Z.to_nat (m - 1)) monthNames "" = String a (String b (String c ""))
    /\ index_of (String a (String b (String c ""))) monthNames 1 = Some m.
Proof.
  intros H. month_cases m C; subst m; do 3 eexists; split; reflexivity.
Qed.

Lemma countDigits_pos f n : (1 <= countDigits f n)%nat.
Proof. destruct f; cbn [countDigits]; [lia|]. destruct (n <? 10); lia. Qed.

Lemma numDigits_small n : 0 <= n <= 9999 -> numDigits n = 4%nat.
Proof.
  intros H. unfold numDigits.
  assert (Hd : forall f m, 0 <= m < 10000 -> (countDigits f m <= 4)%nat).
  { intros f m Hm. destruct f as [|[|[|[|f]]]]; cbn [countDigits];
      repeat match goal with |- context [if ?b then _ else _] => destruct b eqn:? end;
      rewrite ?Z.ltb_ge, ?Z.ltb_lt in *; try lia.
    exfalso. Z.div_mod_to_equations. lia. }
  specialize (Hd (Z.to_nat (Z.log2 n)) n ltac:(lia)). lia.
Qed.

Lemma numDigits_large n : 10000 <= n -> (5 <= numDigits n)%nat.
Proof.
  intros H. unfold numDigits.
  assert (Hl : 13 <= Z.log2 n) by (change 13 with (Z.log2 10000); now apply Z.log2_le_mono).
  destruct (Z.to_nat (Z.log2 n)) as [|[|[|[|f]]]] eqn:E; try lia.
  cbn [countDigits].
  repeat match goal with |- context [if ?b then _ else _] => destruct b eqn:? end;
    rewrite ?Z.ltb_ge, ?Z.ltb_lt in *; try (exfalso; Z.div_mod_to_equations; lia).
  pose proof (countDigits_pos f (n / 10 / 10 / 10 / 10)). lia.
Qed.

Lemma dateStringYear_length y :
  String.length (dateStringYear y) = 4%nat <-> 0 <= y <= 9999.
Proof.
  unfold dateStringYear. rewrite append_length, pad_length.
  destruct (y <? 0) eqn:E; [apply Z.ltb_lt in E|apply Z.ltb_ge in E]; cbn [String.length].
  - pose proof (numDigits_small (Z.abs y)). pose proof (numDigits_large (Z.abs y)).
    unfold numDigits in *. lia.
  - rewrite Z.abs_eq by lia. split; intros H.
    + destruct (Z_le_gt_dec 10000 y) as [Hb|Hb]; [|lia].
      pose proof (numDigits_large y Hb). lia.
    + now rewrite numDigits_small.
Qed.

Lemma dayString_length n :
  String.length (dayString n) = 15%nat <-> 0 <= year (civil_from_days n) <= 9999.
Proof.
  unfold dayString.
  destruct (dayName_shape ((n + 4) mod 7)) as (a & b & c & ->);
    [apply Z.mod_pos_bound; lia|].
  pose proof (civil_from_days_valid n) as Hv.
  destruct (monthName_shape (month (civil_from_days n))) as (a' & b' & c' & -> & _);
    [apply Hv|].
  rewrite <- dateStringYear_length.
  rewrite !append_length, pad_length. cbn [String.length]. lia.
Qed.

Lemma dayString_eq n :
  0 <= year (civil_from_days n) <= 9999 ->
  exists a b c a' b' c',
    index_of (String a' (String b' (String c' ""))) monthNames 1 = Some (month (civil_from_days n)) /\
    dayString n =
    String a (String b (String c (String " " (String a' (String b' (String c' (String " "
    (String (digitChar (day (civil_from_days n) / 10 mod 10))
    (String (digitChar (day (civil_from_days n) mod 10)) (String " "
    (pad 4 (year (civil_from_days n))))))))))))).
Proof.
  intros Hy. unfold dayString.
  destruct (dayName_shape ((n + 4) mod 7)) as (a & b & c & ->);
    [apply Z.mod_pos_bound; lia|].
  pose proof (civil_from_days_valid n) as Hv.
  destruct (monthName_shape (month (civil_from_days n))) as (a' & b' & c' & -> & Hi);
    [apply Hv|].
  exists a, b, c, a', b', c'. split; [exact Hi|].
  unfold dateStringYear.
  replace (year (civil_from_days n) <? 0) with false by (symmetry; apply Z.ltb_ge; lia).
  rewrite Z.abs_eq, numDigits_small by lia.
  rewrite pad2_eq. reflexivity.
Qed.

Lemma dayString_parse tza n :
  0 <= year (civil_from_days n) <= 9999 ->
  Date_parse tza (dayString n) = Some (UTC tza (n * msPerDay)).
Proof.
  intros Hy. pose proof (proj2 (dayString_length n) Hy) as Hl.
  pose proof (civil_from_days_valid n) as Hv.
  pose proof (valid_month_day _ Hv) as [Hm Hd].
  unfold Date_parse, parseISO, parseDateString. rewrite Hl.
  destruct (dayString_eq n Hy) as (a & b & c & a' & b' & c' & Hi & ->).
  rewrite pad4_eq. unfold field, charAt.
  cbn [String.substring String.get]. rewrite Hi. cbn [mbind option_bind].
  rewrite field_digits4, field_digits2 by apply mod10.
  cbn [mbind option_bind].
  rewrite digits4_value, digits2_value by lia.
  change (Ascii.eqb " " " ") with true. cbn [andb].
  destruct (civil_from_days n) as [y m d] eqn:E. cbn [year month day] in *.
  apply validb_valid in Hv. rewrite Hv.
  rewrite <- E, days_from_civil_from_days. unfold MakeDate. do 2 f_equal. lia.
Qed.

Lemma UTC_inj tza a b : UTC tza a = UTC tza b -> a = b.
Proof. unfold UTC. lia. Qed.

(** A date string of four-digit year is the string of one day only. *)
Lemma dayString_inj n n' :
  0 <= year (civil_from_days n) <= 9999 -> dayString n' = dayString n -> n' = n.
Proof.
  intros Hy E.
  assert (Hy' : 0 <= year (civil_from_days n') <= 9999).
  { apply dayString_length. rewrite E. now apply dayString_length. }
  pose proof (dayString_parse 0 n Hy) as P. pose proof (dayString_parse 0 n' Hy') as P'.
  rewrite E, P in P'. injection P' as P'. apply UTC_inj in P'. unfold msPerDay in P'. lia.
Qed.

Lemma days_from_civil_day y m d :
  days_from_civil (Civil y m d) = days_from_civil (Civil y m 1) + d - 1.
Proof. unfold days_from_civil. cbn [year month day]. lia. Qed.

(** [MakeDay] at the fields of a time value, with the date moved. *)
Lemma MakeDay_fields t dt :
  MakeDay (YearFromTime t) (MonthFromTime t) dt = Day t + dt - DateFromTime t.
Proof.
  unfold MakeDay, YearFromTime, MonthFromTime, DateFromTime.
  pose proof (civil_from_days_valid (Day t)) as [Hm _].
  pose proof (days_from_civil_from_days (Day t)) as R.
  destruct (civil_from_days (Day t)) as [y m d]. cbn [year month day] in *.
  rewrite (days_from_civil_day y m d) in R.
  rewrite Z.div_small, Z.mod_small by lia.
  replace (y + 0) with y by lia. replace (m - 1 + 1) with m by lia. lia.
Qed.

Lemma MakeDate_within t : MakeDate (Day t) (TimeWithinDay t) = t.
Proof.
  unfold MakeDate, Day, TimeWithinDay.
  pose proof (Z.div_mod t msPerDay ltac:(unfold msPerDay; lia)). lia.
Qed.

Lemma setDate_back tza t k : setDate tza t (getDate tza t - k) = t - k * msPerDay.
Proof.
  unfold setDate, getDate, UTC. rewrite MakeDay_fields.
  pose proof (MakeDate_within (LocalTime tza t)) as E. unfold MakeDate, LocalTime in *. lia.
Qed.

Lemma Day_sub t k : Day (t - k * msPerDay) = Day t - k.
Proof.
  unfold Day. replace (t - k * msPerDay) with (t + (- k) * msPerDay) by lia.
  rewrite Z.div_add by (unfold msPerDay; lia). lia.
Qed.

Lemma setHours_midnight tza t :
  setHours tza t 0 0 0 0 = UTC tza (Day (LocalTime tza t) * msPerDay).
Proof. unfold setHours, MakeDate. f_equal. lia. Qed.

Lemma first_of_month y m : 1 <= m <= 12 ->
  days_from_civil (Civil y m 1) = jan1 y + monthStart y m.
Proof.
  intros Hm. pose proof (dayInYear_eq y m 1 Hm) as E.
  unfold dayInYear in E. cbn [year] in E. lia.
Qed.

Lemma MakeDay_prev_month t :
  MakeDay (YearFromTime t) (MonthFromTime t - 1) (DateFromTime t)
  = Day t - prevMonthLength (civil_from_days (Day t)).
Proof.
  pose proof (MakeDay_fields t (DateFromTime t)) as F. revert F.
  unfold MakeDay, YearFromTime, MonthFromTime, DateFromTime, prevMonthLength.
  pose proof (civil_from_days_valid (Day t)) as [Hm _].
  destruct (civil_from_days (Day t)) as [y m d]. cbn [year month day] in *.
  rewrite (Z.div_small (m - 1)), (Z.mod_small (m - 1)) by lia.
  replace (y + 0) with y by lia. replace (m - 1 + 1) with m by lia.
  rewrite (first_of_month y m) by lia. intros F.
  destruct (m =? 1) eqn:E; [apply Z.eqb_eq in E|apply Z.eqb_neq in E].
  - subst m. change ((1 - 1 - 1) / 12) with (-1). change ((1 - 1 - 1) mod 12 + 1) with 12.
    rewrite (first_of_month (y + -1) 12) by lia.
    replace (y + -1) with (y - 1) by lia.
    pose proof (jan1_succ (y - 1)) as J. replace (y - 1 + 1) with y in J by lia.
    change (monthStart y 1) with 0 in F.
    change (monthStart (y - 1) 12) with ((if isLeap (y - 1) then 1 else 0) + 334).
    change (daysInMonth (y - 1) 12) with 31. lia.
  - rewrite (Z.div_small (m - 1 - 1)), (Z.mod_small (m - 1 - 1)) by lia.
    replace (y + 0) with y by lia. replace (m - 1 - 1 + 1) with (m - 1) by lia.
    rewrite (first_of_month y (m - 1)) by lia.
    pose proof (monthStart_next y (m - 1) ltac:(lia)) as N.
    replace (m - 1 + 1) with m in N by lia. lia.
Qed.

Lemma setMonth_back tza t :
  setMonth tza t (getMonth tza t - 1)
  = t - prevMonthLength (civil_from_days (Day (LocalTime tza t))) * msPerDay.
Proof.
  unfold setMonth, getMonth, UTC. rewrite MakeDay_prev_month.
  pose proof (MakeDate_within (LocalTime tza t)) as E. unfold MakeDate, LocalTime in *. lia.
Qed.

Lemma prevMonthLength_bounds c : 28 <= prevMonthLength c <= 31.
Proof.
  unfold prevMonthLength, daysInMonth.
  repeat match goal with |- context [if ?b then _ else _] => destruct b end; lia.
Qed.

End JsFacts.

Module ReportsFacts.
Import Cal CalFacts Js JsFacts Reports.

Lemma allStart_eq tza : allStart tza = 946684800000.
Proof. reflexivity. Qed.

Lemma insert_by_perm {A} (lt : A -> A -> bool) x l : insert_by lt x l ≡ₚ x :: l.
Proof.
  induction l as [|y r IH]; cbn [insert_by]; [reflexivity|].
  destruct (lt x y); [reflexivity|]. rewrite IH. apply Permutation_swap.
Qed.

Lemma sort_by_perm {A} (lt : A -> A -> bool) l : sort_by lt l ≡ₚ l.
Proof.
  unfold sort_by.
  assert (H : forall acc, fold_left (fun acc x => insert_by lt x acc) l acc ≡ₚ l ++ acc).
  { induction l as [|x l IH]; intros acc; cbn [fold_left]; [reflexivity|].
    rewrite IH, insert_by_perm. cbn [app]. now rewrite Permutation_middle. }
  rewrite H. now rewrite app_nil_r.
Qed.

Lemma elem_of_sort_by {A} (lt : A -> A -> bool) l x : x ∈ sort_by lt l <-> x ∈ l.
Proof. now rewrite sort_by_perm. Qed.

Lemma length_sort_by {A} (lt : A -> A -> bool) l : length (sort_by lt l) = length l.
Proof. now rewrite sort_by_perm. Qed.

Lemma indexOf_notin x pre l :
  x ∉ pre -> indexOf x (pre ++ l) = (fun i => (length pre + i)%nat) <$> indexOf x l.
Proof.
  induction pre as [|y pre IH]; intros Hx; cbn [app indexOf length].
  - destruct (indexOf x l); reflexivity.
  - apply not_elem_of_cons in Hx as [Hxy Hx].
    destruct (String.eqb x y) eqn:E; [apply String.eqb_eq in E; contradiction|].
    rewrite IH by assumption. destruct (indexOf x l); reflexivity.
Qed.

Lemma indexOf_in x pre l :
  x ∈ pre -> exists i, indexOf x (pre ++ l) = Some i /\ (i < length pre)%nat.
Proof.
  induction pre as [|y pre IH]; intros Hx; [inversion Hx|].
  cbn [app indexOf length].
  destruct (String.eqb x y) eqn:E; [exists O; split; [reflexivity|lia]|].
  apply String.eqb_neq in E. apply elem_of_cons in Hx as [Hx|Hx]; [contradiction|].
  destruct (IH Hx) as (i & -> & Hi). exists (S i). split; [reflexivity|lia].
Qed.

Lemma indexOf_head x r : indexOf x (x :: r) = Some O.
Proof. cbn [indexOf]. now rewrite String.eqb_refl. Qed.

(** Keeping first occurrences keeps every element, once. *)
Lemma elem_of_first_occurrences dates l : forall pre,
  dates = pre ++ l ->
  forall x, x ∈ filter_index (fun date index => bool_decide (indexOf date dates = Some index))
              (length pre) l <-> x ∈ l /\ x ∉ pre.
Proof.
  induction l as [|y r IH]; intros pre Hd x; cbn [filter_index].
  - split; [intros H; inversion H|intros [H _]; inversion H].
  - specialize (IH (pre ++ [y])). rewrite <- app_assoc in IH. cbn [app] in IH.
    specialize (IH Hd x). rewrite length_app in IH. cbn [length] in IH.
    replace (length pre + 1)%nat with (S (length pre)) in IH by lia.
    assert (Hk : bool_decide (indexOf y dates = Some (length pre)) = true <-> y ∉ pre).
    { rewrite bool_decide_eq_true. subst dates. split.
      - intros Hi Hin. destruct (indexOf_in y pre (y :: r) Hin) as (i & Hi' & Hlt).
        rewrite Hi in Hi'. injection Hi' as <-. lia.
      - intros Hn. rewrite indexOf_notin, indexOf_head by assumption. cbn. f_equal. lia. }
    destruct (bool_decide (indexOf y dates = Some (length pre))) eqn:E.
    + apply proj1 in Hk. specialize (Hk eq_refl).
      rewrite elem_of_cons, IH, elem_of_cons, not_elem_of_app, not_elem_of_cons,
        elem_of_nil.
      destruct (decide (x = y)) as [->|Hne]; tauto.
    + assert (Hy : y ∈ pre).
      { destruct (decide (y ∈ pre)); [assumption|]. apply Hk in n. discriminate. }
      rewrite IH, elem_of_cons, not_elem_of_app, not_elem_of_cons, elem_of_nil.
      destruct (decide (x = y)) as [->|Hne]; tauto.
Qed.

Lemma elem_of_completionDatesOf tza tasks x :
  x ∈ completionDatesOf tza tasks <->
  exists task, task ∈ tasks /\ completed task = true /\ toDateString tza (updatedAt task) = x.
Proof.
  unfold completionDatesOf. cbv zeta.
  set (dates := sort_strings _).
  pose proof (elem_of_first_occurrences dates dates [] eq_refl x) as H.
  cbn [length] in H. rewrite H. clear H. subst dates.
  unfold sort_strings. rewrite elem_of_sort_by, list_elem_of_fmap.
  split.
  - intros [(task & -> & Ht) _]. apply list_elem_of_In, filter_In in Ht as [Ht Hc].
    exists task. rewrite list_elem_of_In. auto.
  - intros (task & Ht & Hc & <-). split; [|apply not_elem_of_nil].
    exists task. split; [reflexivity|]. apply list_elem_of_In, filter_In.
    rewrite <- list_elem_of_In. auto.
Qed.

Section Streak.
Variables (tza : Z) (tasks : list Task).
Hypothesis Hrange : datesInRange tza tasks.

Let L := completionDatesOf tza tasks.
Let S := productiveDay tza tasks.

Lemma productive_in_range d : S d -> 0 <= year (civil_from_days d) <= 9999.
Proof. intros (task & Ht & Hc & <-). exact (Hrange task Ht Hc). Qed.

Lemma includes_productive d : includes L (dayString d) = true <-> S d.
Proof.
  unfold includes. rewrite bool_decide_eq_true. unfold L.
  rewrite elem_of_completionDatesOf. split.
  - intros (task & Ht & Hc & E). exists task. repeat split; try assumption.
    symmetry. apply dayString_inj; [exact (Hrange task Ht Hc)|]. symmetry. exact E.
  - intros (task & Ht & Hc & <-). exists task. auto.
Qed.

Lemma includes_productive_not d : includes L (dayString d) = false <-> ~ S d.
Proof. rewrite <- includes_productive. destruct (includes L (dayString d)); split; congruence. Qed.

Lemma localDay_setDate t : localDay tza (setDate tza t (getDate tza t - 1)) = localDay tza t - 1.
Proof.
  rewrite setDate_back. unfold localDay, LocalTime.
  replace (t - 1 * msPerDay + tza) with (t + tza - 1 * msPerDay) by lia. apply Day_sub.
Qed.

Lemma streak_loop_run (n : nat) : forall fuel cur s,
  (n < fuel)%nat ->
  (forall i, 0 <= i < Z.of_nat n -> S (localDay tza cur - i)) ->
  ~ S (localDay tza cur - Z.of_nat n) ->
  streak_loop fuel tza L cur s = Some (s + Z.of_nat n).
Proof.
  induction n as [|n IH]; intros fuel cur s Hf Hin Hout;
    (destruct fuel as [|fuel]; [lia|]); cbn [streak_loop]; unfold toDateString; fold (localDay tza cur).
  - rewrite Z.sub_0_r in Hout. apply includes_productive_not in Hout. rewrite Hout.
    f_equal. lia.
  - assert (H0 : S (localDay tza cur)).
    { specialize (Hin 0 ltac:(lia)). now rewrite Z.sub_0_r in Hin. }
    apply includes_productive in H0. rewrite H0.
    rewrite IH; [f_equal; lia|lia| |]; rewrite localDay_setDate.
    + intros i Hi. replace (localDay tza cur - 1 - i) with (localDay tza cur - (i + 1)) by lia.
      apply Hin. lia.
    + replace (localDay tza cur - 1 - Z.of_nat n) with (localDay tza cur - Z.of_nat (Datatypes.S n)) by lia.
      exact Hout.
Qed.

Lemma S_dec d : {S d} + {~ S d}.
Proof.
  destruct (includes L (dayString d)) eqn:E;
    [left; now apply includes_productive|right; now apply includes_productive_not].
Qed.

Lemma first_gap c (N : nat) :
  (forall i, (i <= N)%nat -> S (c - Z.of_nat i)) \/
  (exists n, (n <= N)%nat /\ ~ S (c - Z.of_nat n) /\ forall i, (i < n)%nat -> S (c - Z.of_nat i)).
Proof.
  induction N as [|N IH].
  - destruct (S_dec (c - Z.of_nat 0)) as [H|H].
    + left. intros i Hi. now replace i with O by lia.
    + right. exists O. split; [lia|]. split; [exact H|]. intros i Hi. lia.
  - destruct IH as [IH|(n & Hn & Hg & Hr)].
    + destruct (S_dec (c - Z.of_nat (Datatypes.S N))) as [H|H].
      * left. intros i Hi. destruct (decide (i = Datatypes.S N)) as [->|Hne]; [exact H|].
        apply IH. lia.
      * right. exists (Datatypes.S N). split; [lia|]. split; [exact H|].
        intros i Hi. apply IH. lia.
    + right. exists n. split; [lia|]. auto.
Qed.

Lemma run_bounded c : ~ (forall i, (i <= length L)%nat -> S (c - Z.of_nat i)).
Proof.
  intros H.
  set (probes := (fun i => dayString (c - Z.of_nat i)) <$> seq 0 (Datatypes.S (length L))).
  assert (Hnd : NoDup probes).
  { apply NoDup_fmap_2_strong; [|apply NoDup_seq].
    intros i j Hi Hj E. apply elem_of_seq in Hi, Hj.
    assert (Hy : S (c - Z.of_nat j)) by (apply H; lia).
    apply productive_in_range in Hy.
    apply dayString_inj in E; [lia|exact Hy]. }
  assert (Hincl : probes ⊆ L).
  { intros x Hx. apply list_elem_of_fmap in Hx as (i & -> & Hi). apply elem_of_seq in Hi.
    apply (proj1 (bool_decide_eq_true _)). apply includes_productive. apply H. lia. }
  pose proof (submseteq_length _ _ (NoDup_submseteq _ _ Hnd (fun x Hx => Hincl x Hx))) as Hl.
  unfold probes in Hl. rewrite length_fmap, length_seq in Hl. lia.
Qed.

Lemma run_exists c :
  exists n, (n <= length L)%nat /\ is_run S c (Z.of_nat n).
Proof.
  destruct (first_gap c (length L)) as [H|(n & Hn & Hg & Hr)].
  - exfalso. exact (run_bounded c H).
  - exists n. split; [exact Hn|]. split; [lia|]. split; [|exact Hg].
    intros i Hi. replace i with (Z.of_nat (Z.to_nat i)) by lia. apply Hr. lia.
Qed.

Lemma localDay_yesterday now : localDay tza (now - 86400000) = localDay tza now - 1.
Proof.
  unfold localDay, LocalTime.
  replace (now - 86400000 + tza) with (now + tza - 1 * msPerDay) by (unfold msPerDay; lia).
  apply Day_sub.
Qed.

Lemma localDay_midnight d : localDay tza (UTC tza (d * msPerDay)) = d.
Proof.
  unfold localDay, LocalTime, UTC, Day.
  replace (d * msPerDay - tza + tza) with (d * msPerDay) by lia.
  apply Z.div_mul. unfold msPerDay. lia.
Qed.

Lemma streak_from c :
  S c ->
  exists n, streak_loop (Datatypes.S (length L)) tza L (UTC tza (c * msPerDay)) 0 = Some n
            /\ is_run S c n.
Proof.
  intros Hc. destruct (run_exists c) as (n & Hn & Hr).
  exists (Z.of_nat n). split; [|exact Hr].
  destruct Hr as (_ & Hin & Hout).
  rewrite (streak_loop_run n) by (rewrite ?localDay_midnight; auto; lia).
  reflexivity.
Qed.

Lemma calculateStreak_run now :
  exists n, calculateStreak tza now tasks = Some n /\
    (~ S (localDay tza now) -> ~ S (localDay tza now - 1) -> n = 0) /\
    (S (localDay tza now) -> is_run S (localDay tza now) n) /\
    (~ S (localDay tza now) -> S (localDay tza now - 1) -> is_run S (localDay tza now - 1) n).
Proof.
  unfold calculateStreak. fold L.
  assert (Hnone : L = [] -> forall d, ~ S d).
  { intros E d Hd. apply includes_productive in Hd. rewrite E in Hd. discriminate. }
  assert (Hempty : tasks = [] -> L = []) by (intros ->; reflexivity).
  destruct (bool_decide (length tasks = 0%nat)) eqn:E0.
  { apply bool_decide_eq_true, length_zero_iff_nil in E0.
    exists 0. split; [reflexivity|].
    split; [reflexivity|]. split; intros; exfalso; eapply Hnone; eauto. }
  destruct (bool_decide (length L = 0%nat)) eqn:E1.
  { apply bool_decide_eq_true, length_zero_iff_nil in E1.
    exists 0. split; [reflexivity|].
    split; [reflexivity|]. split; intros; exfalso; eapply Hnone; eauto. }
  unfold toDateString. fold (localDay tza now). fold (localDay tza (now - 86400000)).
  rewrite localDay_yesterday.
  destruct (S_dec (localDay tza now)) as [Ht|Ht].
  - pose proof (proj2 (includes_productive _) Ht) as ->. cbn [negb andb].
    rewrite dayString_parse by (now apply productive_in_range).
    destruct (streak_from _ Ht) as (n & -> & Hr).
    exists n. split; [reflexivity|].
    split; [intros; contradiction|]. split; [intros _; exact Hr|intros; contradiction].
  - pose proof (proj2 (includes_productive_not _) Ht) as ->. cbn [negb andb].
    destruct (S_dec (localDay tza now - 1)) as [Hy|Hy].
    + pose proof (proj2 (includes_productive _) Hy) as ->. cbn [negb].
      rewrite dayString_parse by (now apply productive_in_range).
      destruct (streak_from _ Hy) as (n & -> & Hr).
      exists n. split; [reflexivity|].
      split; [intros; contradiction|]. split; [intros; contradiction|intros _ _; exact Hr].
    + pose proof (proj2 (includes_productive_not _) Hy) as ->. cbn [negb].
      exists 0. split; [reflexivity|].
      split; [reflexivity|]. split; intros; contradiction.
Qed.

End Streak.

Lemma getReports_inv tza now db req r :
  getReports tza now db req = Some r ->
  let tasks := selectedTasks tza now db req in
  exists flags streak,
    mapM (isOverdue (split_head "T" (toISOString now))) tasks = Some flags /\
    calculateStreak tza now (queryAllUserTasks db req) = Some streak /\
    overview r =
      {| totalTasks := len tasks;
         completedTasks := count completed tasks;
         pendingTasks := len tasks - count completed tasks;
         completionRate := round2 (rate (count completed tasks) (len tasks));
         overdueTasks := count id flags;
         productiveDays :=
           Z.of_nat (size (list_to_set
             (map (fun task => toDateString tza (updatedAt task))
                  (List.filter completed tasks)) : gset string));
         currentStreak := streak;
         totalRoutines :=
           len (queryRoutines db req
                  (fst (getDateRange tza now (default "all" (req_period req))))
                  (snd (getDateRange tza now (default "all" (req_period req)))));
         activeRoutines :=
           count r_isActive (queryRoutines db req
                  (fst (getDateRange tza now (default "all" (req_period req))))
                  (snd (getDateRange tza now (default "all" (req_period req))))) |} /\
    summary r = summaryOf tza now tasks /\
    period r = default "all" (req_period req).
Proof.
  unfold getReports, selectedTasks.
  destruct (getDateRange tza now (default "all" (req_period req))) as [startDate endDate].
  cbn [fst snd]. cbv zeta.
  destruct (mapM _ (queryTasks db req startDate endDate)) as [flags|]; [|discriminate].
  cbn [mbind option_bind].
  destruct (calculateStreak tza now (queryAllUserTasks db req)) as [streak|]; [|discriminate].
  cbn [mbind option_bind]. intros [= <-]. exists flags, streak. repeat split.
Qed.

Lemma count_le {A} (p : A -> bool) l : 0 <= count p l <= len l.
Proof. unfold count, len. pose proof (List.filter_length_le p l). lia. Qed.

Lemma len_count_negb {A} (p : A -> bool) l : len l - count p l = count (fun x => negb (p x)) l.
Proof.
  unfold count, len. induction l as [|x l IH]; [reflexivity|].
  cbn [List.filter length]. destruct (p x); cbn [negb length]; lia.
Qed.

Lemma count_perm {A} (p : A -> bool) l l' : l ≡ₚ l' -> count p l = count p l'.
Proof.
  intros H. unfold count. f_equal. induction H; cbn [List.filter].
  - reflexivity.
  - destruct (p x); cbn [length]; lia.
  - destruct (p x), (p y); reflexivity.
  - lia.
Qed.

Lemma count_filter {A} (p q : A -> bool) l :
  count p (List.filter q l) = count (fun x => q x && p x) l.
Proof.
  unfold count. f_equal. induction l as [|x l IH]; [reflexivity|].
  cbn [List.filter]. destruct (q x); cbn [andb List.filter]; [destruct (p x); cbn [length]|]; lia.
Qed.

Lemma len_count {A} (l : list A) : len l = count (fun _ => true) l.
Proof.
  unfold len, count. f_equal. induction l as [|x l IH]; [reflexivity|].
  cbn [List.filter length]. lia.
Qed.

Lemma mapM_isOverdue today tasks flags :
  mapM (isOverdue today) tasks = Some flags ->
  count id flags = count (overdueBy today) tasks.
Proof.
  intros H. apply mapM_Some in H. unfold count. f_equal.
  induction H as [|t b l k Ht _ IH]; [reflexivity|].
  cbn [List.filter]. unfold isOverdue in Ht. unfold overdueBy at 1. unfold id at 1.
  destruct (completed t); cbn [negb andb].
  - injection Ht as <-. exact IH.
  - destruct (dueDate t) as [[s|?]|]; try discriminate.
    + destruct (String.eqb s ""); injection Ht as <-; cbn [negb andb]; [exact IH|].
      destruct (String.ltb _ _); cbn [length]; lia.
    + injection Ht as <-. exact IH.
Qed.

Lemma rate_zero c : rate c 0 = 0%Q.
Proof. reflexivity. Qed.

Lemma rate_bounds c t : 0 <= c <= t -> (0 <= rate c t <= 100)%Q.
Proof.
  intros H. unfold rate. destruct (t >? 0) eqn:E; [|split; discriminate].
  apply Z.gtb_lt in E. destruct t as [|p|p]; try lia.
  unfold Qle, Qdiv, Qmult, Qinv, inject_Z. cbn [Qnum Qden].
  rewrite ?Pos2Z.inj_mul. lia.
Qed.

Lemma round2_bounds x : (0 <= x <= 100)%Q -> (0 <= round2 x <= 100)%Q.
Proof.
  intros [H0 H1]. unfold round2.
  assert (Hlo : 0 <= Qfloor (x * 100 + (1 # 2))).
  { change 0 with (Qfloor 0). apply Qfloor_resp_le.
    apply Qle_trans with (x * 100)%Q.
    - apply Qmult_le_0_compat; [exact H0|discriminate].
    - rewrite <- Qplus_0_r at 1. apply Qplus_le_r. discriminate. }
  assert (Hhi : Qfloor (x * 100 + (1 # 2)) <= 10000).
  { change 10000 with (Qfloor (100 * 100 + (1 # 2))). apply Qfloor_resp_le.
    apply Qplus_le_l. apply Qmult_le_compat_r; [exact H1|discriminate]. }
  set (n := Qfloor (x * 100 + (1 # 2))) in *. clearbody n.
  unfold Qle, Qdiv, Qmult, Qinv, inject_Z. cbn [Qnum Qden]. lia.
Qed.

Lemma round2_zero : (round2 0 == 0)%Q.
Proof. reflexivity. Qed.

Import Examples.

Lemma history_in_range : datesInRange 0 history.
Proof.
  intros t Ht _. unfold history in Ht.
  repeat (apply elem_of_cons in Ht as [->|Ht]); [vm_compute; split; discriminate..|].
  inversion Ht.
Qed.



Example calculateStreak_history : calculateStreak 0 noon history = Some 4.
Proof. vm_compute. reflexivity. Qed.

(** C7, as amended.  [getDateRange] ends every window at [now]; the
    window starts at local midnight for [today], seven days before [now]
    for [week], one calendar month before [now] for [month], which is
    the length of the previous month (28 to 31 days) and not a fixed 30
    days, and at 2000-01-01T00:00:00Z for [all]. *)
Theorem getDateRange_windows tza now :
  getDateRange tza now "today" = (UTC tza (localDay tza now * msPerDay), now) /\
  getDateRange tza now "week" = (now - 7 * msPerDay, now) /\
  getDateRange tza now "month"
    = (now - prevMonthLength (civil_from_days (localDay tza now)) * msPerDay, now) /\
  28 <= prevMonthLength (civil_from_days (localDay tza now)) <= 31 /\
  getDateRange tza now "all" = (946684800000, now).
Proof.
  unfold getDateRange. cbn [String.eqb Ascii.eqb Bool.eqb].
  rewrite setHours_midnight, setDate_back, setMonth_back, allStart_eq.
  repeat split; apply prevMonthLength_bounds.
Qed.

Lemma getDateRange_month_not_30_days :
  fst (getDateRange 0 endOfMarch "month") = endOfMarch - 29 * msPerDay /\
  fst (getDateRange 0 endOfMarch "month") <> endOfMarch - 30 * msPerDay.
Proof. split; [vm_compute; reflexivity|vm_compute; discriminate]. Qed.

Lemma summaryBlock_eq l l' :
  len l = len l' -> count completed l = count completed l' -> summaryBlock l = summaryBlock l'.
Proof. unfold summaryBlock. intros -> ->. reflexivity. Qed.

Lemma len_perm {A} (l l' : list A) : l ≡ₚ l' -> len l = len l'.
Proof. intros H. unfold len. now rewrite H. Qed.

Lemma filter_perm {A} (p : A -> bool) l l' : l ≡ₚ l' -> List.filter p l ≡ₚ List.filter p l'.
Proof.
  intros H. induction H; cbn [List.filter].
  - reflexivity.
  - destruct (p x); [now constructor|assumption].
  - destruct (p x), (p y); try reflexivity. apply Permutation_swap.
  - etransitivity; eassumption.
Qed.

Lemma filter_filter {A} (p q : A -> bool) l :
  List.filter p (List.filter q l) = List.filter (fun x => q x && p x) l.
Proof.
  induction l as [|x l IH]; [reflexivity|]. cbn [List.filter].
  destruct (q x); cbn [andb List.filter]; [destruct (p x)|]; now rewrite ?IH.
Qed.

Lemma summaryBlock_query q db req s e :
  summaryBlock (List.filter q (queryTasks db req s e))
  = summaryBlock (List.filter (fun t => baseFilter req s e t && q t) (db_tasks db)).
Proof.
  unfold queryTasks. rewrite <- filter_filter.
  apply summaryBlock_eq; [apply len_perm|apply count_perm]; apply filter_perm, sort_by_perm.
Qed.

Lemma summaryBlock_ok l : block_ok (summaryBlock l).
Proof.
  unfold block_ok, summaryBlock. cbn [s_total s_completed s_completionRate].
  pose proof (count_le completed l) as H. split; [exact H|]. split.
  - apply rate_bounds. exact H.
  - intros ->. apply rate_zero.
Qed.

Lemma getDateRange_snd tza now p : snd (getDateRange tza now p) = now.
Proof. reflexivity. Qed.

(** C4, as amended.  Each block of the summary is computed over its own
    creation-date window (today, the last 7 days, the last 30 days)
    within the tasks that the top-level period and category filter have
    selected already; the blocks therefore depend on the period. *)
Theorem summary_within_selection tza now db req r :
  getReports tza now db req = Some r ->
  let start := fst (getDateRange tza now (default "all" (req_period req))) in
  let selected := baseFilter req start now in
  summary r =
  {| sum_today := summaryBlock
       (List.filter (fun t => selected t && createdToday tza now t) (db_tasks db));
     sum_week := summaryBlock
       (List.filter (fun t => selected t && createdSince (now - 7 * msPerDay) t) (db_tasks db));
     sum_month := summaryBlock
       (List.filter (fun t => selected t && createdSince (now - 30 * msPerDay) t) (db_tasks db)) |}.
Proof.
  intros H. destruct (getReports_inv _ _ _ _ _ H) as (flags & streak & _ & _ & _ & Hs & _).
  rewrite Hs. unfold summaryOf, selectedTasks. rewrite getDateRange_snd.
  cbv zeta. rewrite !summaryBlock_query. reflexivity.
Qed.

(** C5. In every report, completed + pending = total, the completion
    rate lies between 0 and 100 and is 0 when there is no task, in the
    overview and in each block of the summary (a block has no pending
    count: its completed count is at most its total). *)
Theorem counts_consistent tza now db req r :
  getReports tza now db req = Some r ->
  let o := overview r in
  completedTasks o + pendingTasks o = totalTasks o /\
  0 <= completedTasks o /\ 0 <= pendingTasks o /\
  (0 <= completionRate o <= 100)%Q /\
  (totalTasks o = 0 -> (completionRate o == 0)%Q) /\
  block_ok (sum_today (summary r)) /\
  block_ok (sum_week (summary r)) /\
  block_ok (sum_month (summary r)).
Proof.
  intros H. destruct (getReports_inv _ _ _ _ _ H) as (flags & streak & _ & _ & Ho & Hs & _).
  cbv zeta. rewrite Ho, Hs.
  cbn [totalTasks completedTasks pendingTasks completionRate summaryOf sum_today sum_week sum_month].
  pose proof (count_le completed (selectedTasks tza now db req)) as Hc.
  split; [lia|]. split; [lia|]. split; [lia|]. split; [|split].
  - apply round2_bounds, rate_bounds. exact Hc.
  - intros ->. rewrite rate_zero. apply round2_zero.
  - repeat split; apply summaryBlock_ok.
Qed.

Lemma overdueBy_le_pending today l :
  count (overdueBy today) l <= count (fun t => negb (completed t)) l.
Proof.
  unfold count. apply inj_le.
  induction l as [|t l IH]; [apply Nat.le_refl|].
  cbn [List.filter]. unfold overdueBy at 1.
  destruct (completed t); cbn [negb andb length]; [exact IH|].
  destruct (match dueDate t with Some (DueString s) => _ | _ => false end); cbn [length]; lia.
Qed.


Lemma queryAllUserTasks_user db req1 req2 :
  req_user req1 = req_user req2 -> queryAllUserTasks db req1 = queryAllUserTasks db req2.
Proof. unfold queryAllUserTasks. now intros ->. Qed.

Lemma elem_of_filter_bool {A} (p : A -> bool) l x : x ∈ List.filter p l <-> x ∈ l /\ p x = true.
Proof. rewrite !list_elem_of_In. apply filter_In. Qed.

(** C3, as amended.  The current streak is computed over all the tasks
    of the user, so two reports for the same user carry the same streak
    whatever their period and category filter; the number of productive
    days is computed over the tasks selected by the period and category
    filter of the request. *)
Theorem streak_whole_history tza now db req1 req2 r1 r2 :
  req_user req1 = req_user req2 ->
  getReports tza now db req1 = Some r1 ->
  getReports tza now db req2 = Some r2 ->
  calculateStreak tza now (queryAllUserTasks db req1) = Some (currentStreak (overview r1)) /\
  currentStreak (overview r1) = currentStreak (overview r2) /\
  productiveDays (overview r1)
    = Z.of_nat (size (list_to_set
        (map (fun task => toDateString tza (updatedAt task))
           (List.filter (fun t => baseFilter req1
                           (fst (getDateRange tza now (default "all" (req_period req1)))) now t
                         && completed t) (db_tasks db))) : gset string)).
Proof.
  intros Hu H1 H2.
  destruct (getReports_inv _ _ _ _ _ H1) as (f1 & s1 & _ & Hs1 & Ho1 & _).
  destruct (getReports_inv _ _ _ _ _ H2) as (f2 & s2 & _ & Hs2 & Ho2 & _).
  rewrite Ho1, Ho2. cbn [currentStreak productiveDays].
  rewrite <- (queryAllUserTasks_user db req1 req2 Hu), Hs1 in Hs2. injection Hs2 as <-.
  split; [exact Hs1|]. split; [reflexivity|].
  do 2 f_equal. apply set_eq. intros x.
  rewrite !elem_of_list_to_set, !list_elem_of_fmap.
  unfold selectedTasks, queryTasks. rewrite getDateRange_snd.
  split; intros (t & -> & Ht); exists t; (split; [reflexivity|]);
    rewrite elem_of_filter_bool in *; rewrite ?elem_of_sort_by, ?elem_of_filter_bool, ?andb_true_iff in *;
    tauto.
Qed.

Lemma datesInRange_sub tza l l' : (forall t, t ∈ l' -> t ∈ l) -> datesInRange tza l -> datesInRange tza l'.
Proof. intros Hs H t Ht. apply H. auto. Qed.

(** A report is sent unless the overdue filter meets a pending task
    whose due date is a [Date] object. *)
Lemma getReports_produced tza now db req :
  datesInRange tza (db_tasks db) ->
  (forall t x, t ∈ db_tasks db -> completed t = false -> dueDate t <> Some (DueObject x)) ->
  exists r, getReports tza now db req = Some r.
Proof.
  intros Hr Hd. unfold getReports.
  destruct (getDateRange tza now (default "all" (req_period req))) as [s e]. cbv zeta.
  assert (Hm : is_Some (mapM (isOverdue (split_head "T" (toISOString now))) (queryTasks db req s e))).
  { apply mapM_is_Some, Forall_forall. intros t Ht.
    unfold queryTasks in Ht. rewrite elem_of_sort_by, elem_of_filter_bool in Ht.
    destruct Ht as [Ht _]. unfold compose, isOverdue.
    destruct (completed t) eqn:Ec; [eexists; reflexivity|].
    destruct (dueDate t) as [[d|x]|] eqn:Ed; [destruct (String.eqb d "")|..]; try (eexists; reflexivity).
    exfalso. exact (Hd t x Ht Ec Ed). }
  destruct Hm as [flags ->]. cbn [mbind option_bind].
  destruct (calculateStreak_run tza (queryAllUserTasks db req)) with (now := now) as (n & -> & _).
  { eapply datesInRange_sub; [|exact Hr]. intros t Ht.
    unfold queryAllUserTasks in Ht. rewrite elem_of_sort_by, elem_of_filter_bool in Ht. tauto. }
  cbn [mbind option_bind]. eexists. reflexivity.
Qed.

Lemma productiveDays_window_scoped :
  (fun r => productiveDays (overview r)) <$> getReports 0 noon db (request (Some "all")) = Some 4 /\
  (fun r => productiveDays (overview r)) <$> getReports 0 noon db (request (Some "today")) = Some 0.
Proof. split; vm_compute; reflexivity. Qed.

Lemma summary_week_depends_on_period :
  (fun r => s_total (sum_week (summary r))) <$> getReports 0 noon db (request (Some "all")) = Some 4 /\
  (fun r => s_total (sum_week (summary r))) <$> getReports 0 noon db (request (Some "today")) = Some 1.
Proof. split; vm_compute; reflexivity. Qed.

Lemma counts_consistent_witness :
  exists r, getReports 0 noon db (request None) = Some r /\
    completedTasks (overview r) + pendingTasks (overview r) = totalTasks (overview r).
Proof.
  eexists. split; [vm_compute; reflexivity|].
  apply (counts_consistent 0 noon db (request None)). vm_compute. reflexivity.
Defined.


Lemma summary_within_selection_witness :
  exists r, getReports 0 noon db (request (Some "today")) = Some r /\
    s_total (sum_week (summary r)) = 1.
Proof.
  eexists. split; [vm_compute; reflexivity|].
  rewrite (summary_within_selection 0 noon db (request (Some "today")));
    vm_compute; reflexivity.
Defined.

Lemma streak_whole_history_witness :
  exists r1 r2,
    getReports 0 noon db (request (Some "all")) = Some r1 /\
    getReports 0 noon db (request (Some "today")) = Some r2 /\
    currentStreak (overview r1) = currentStreak (overview r2).
Proof.
  do 2 eexists. split; [vm_compute; reflexivity|]. split; [vm_compute; reflexivity|].
  apply (streak_whole_history 0 noon db (request (Some "all")) (request (Some "today")));
    vm_compute; reflexivity.
Defined.

End ReportsFacts.

Module DateUtilsFacts.
Import Cal CalFacts Js JsFacts ReportsFacts DateUtils.

(** C1. [getTaskStatus] answers [completed] for a completed task whatever
    the due date; otherwise, for a well-formed due date, the bucket is
    decided by the difference in whole days between the due date and
    today: negative is overdue, zero due today, one to three due soon,
    more than three future. *)
Theorem getTaskStatus_buckets :
  (forall tza now dueDate, getTaskStatus tza now dueDate true = Completed) /\
  (forall tza now c rest completed,
     valid c -> 0 <= year c <= 9999 -> 0 <= YearFromTime now <= 9999 ->
     rest = "" \/ (exists r, rest = String "T" r) ->
     getTaskStatus tza now (isoDate c +:+ rest) completed
     = spec_classify completed (days_from_civil c - Day now)).
Proof.
  split; [reflexivity|].
  intros tza now c rest [|] Hv Hy Hn Hr; [reflexivity|].
  unfold getTaskStatus, spec_classify.
  rewrite split_head_toISOString, split_head_isoDate by assumption.
  set (t := civil_from_days (Day now)) in *.
  assert (Ht : valid t) by apply civil_from_days_valid.
  assert (Hd : days_from_civil t = Day now) by apply days_from_civil_from_days.
  pose proof (valid_month_day c Hv) as [? ?].
  pose proof (valid_month_day t Ht) as [? ?].
  unfold String.ltb. rewrite eqb_compare.
  rewrite isoDate_compare by (assumption || lia).
  rewrite <- days_from_civil_compare, Hd by assumption.
  rewrite !Date_parse_midnight by assumption. cbn [mbind option_bind].
  rewrite Hd, <- Z.mul_sub_distr_r, ceil_div_mul.
  destruct (Z.compare_spec (days_from_civil c) (Day now)) as [E|E|E].
  - replace (days_from_civil c - Day now <? 0) with false by (symmetry; apply Z.ltb_ge; lia).
    replace (days_from_civil c - Day now =? 0) with true by (symmetry; apply Z.eqb_eq; lia).
    reflexivity.
  - replace (days_from_civil c - Day now <? 0) with true by (symmetry; apply Z.ltb_lt; lia).
    reflexivity.
  - replace (days_from_civil c - Day now <? 0) with false by (symmetry; apply Z.ltb_ge; lia).
    replace (days_from_civil c - Day now =? 0) with false by (symmetry; apply Z.eqb_neq; lia).
    reflexivity.
Qed.

Lemma getTaskStatus_buckets_witness :
  getTaskStatus 0 Examples.noon "2024-03-12T10:00:00.000Z" false = DueSoon.
Proof.
  apply (proj2 getTaskStatus_buckets 0 Examples.noon (Civil 2024 3 12) "T10:00:00.000Z" false).
  - vm_compute. split; [split|split]; discriminate.
  - cbn. lia.
  - vm_compute. split; discriminate.
  - right. eexists. reflexivity.
Defined.

(** C10. [sortTasksByDueDate] returns a new array, at a reference that
    was not in use, holding the elements of the input in sorted order;
    the input array, and every other array of the heap, holds what it
    held before. *)
Theorem sortTasksByDueDate_frame tza (h : Heap) (tasks : nat) (ascending : bool)
    (l : list TaskObj) :
  h !! tasks = Some l ->
  exists (result : nat) (h' : Heap) (sorted : list TaskObj),
    sortTasksByDueDate tza tasks ascending h = Some (result, h') /\
    h !! result = None /\ result <> tasks /\
    h' !! tasks = Some l /\
    (forall a, a <> result -> h' !! a = h !! a) /\
    h' !! result = Some sorted /\ sorted ≡ₚ l.
Proof.
  intros Hl. unfold sortTasksByDueDate, bind, readArray, newArray, sortArray.
  rewrite Hl. set (a := fresh (dom h)).
  assert (Ha : h !! a = None) by (apply not_elem_of_dom, is_fresh).
  assert (Hne : a <> tasks) by (intros ->; congruence).
  rewrite lookup_insert_eq.
  eexists a, _, _. split; [reflexivity|].
  split; [exact Ha|]. split; [exact Hne|].
  split; [rewrite insert_insert_eq, lookup_insert_ne by exact Hne; exact Hl|].
  split; [intros b Hb; rewrite insert_insert_eq, lookup_insert_ne by congruence; reflexivity|].
  split; [rewrite insert_insert_eq; apply lookup_insert_eq|].
  apply sort_by_perm.
Qed.

Lemma sortTasksByDueDate_frame_witness :
  exists (result : nat) (h' : Heap) (sorted : list TaskObj),
    sortTasksByDueDate 0 0 true {[ 0%nat := UiExamples.uiTasks ]} = Some (result, h') /\
    ({[ 0%nat := UiExamples.uiTasks ]} : Heap) !! result = None /\ result <> 0%nat /\
    h' !! 0%nat = Some UiExamples.uiTasks /\
    (forall a, a <> result -> h' !! a = ({[ 0%nat := UiExamples.uiTasks ]} : Heap) !! a) /\
    h' !! result = Some sorted /\ sorted ≡ₚ UiExamples.uiTasks.
Proof.
  apply (sortTasksByDueDate_frame 0 {[ 0%nat := UiExamples.uiTasks ]} 0 true UiExamples.uiTasks).
  reflexivity.
Defined.

End DateUtilsFacts.

Module RoutinesFacts.
Import Cal Js Routines RoutinesRoute RoutineExamples.

(** The form of [RoutineForm] applies the four rules. *)
Lemma RoutineForm_rules (fd : RoutineForm.FormData) :
  (RoutineForm.recurrenceType fd = WEEKLY -> RoutineForm.daysOfWeek fd = [] ->
     RoutineForm.validateForm fd = false /\
     RoutineForm.e_daysOfWeek (RoutineForm.newErrors fd)
       = Some "Select at least one day for weekly routine") /\
  (RoutineForm.recurrenceType fd = MONTHLY -> RoutineForm.dayOfMonth fd = 32 ->
     RoutineForm.validateForm fd = false /\
     RoutineForm.e_dayOfMonth (RoutineForm.newErrors fd)
       = Some "Day of month must be between 1 and 31") /\
  (RoutineForm.recurrenceType fd = CUSTOM -> RoutineForm.interval fd = 0 ->
     RoutineForm.validateForm fd = false /\
     RoutineForm.e_interval (RoutineForm.newErrors fd) = Some "Interval must be at least 1") /\
  (RoutineForm.recurrenceType fd = DAILY -> isEmpty (trim (RoutineForm.title fd)) = false ->
     RoutineForm.validateForm fd = true).
Proof.
  unfold RoutineForm.validateForm, RoutineForm.noErrors, RoutineForm.newErrors.
  cbn [RoutineForm.e_title RoutineForm.e_daysOfWeek RoutineForm.e_dayOfMonth RoutineForm.e_interval].
  split; [|split; [|split]]; intros H1 H2; rewrite H1, H2;
    destruct (isEmpty (trim (RoutineForm.title fd))); try discriminate;
    try split; reflexivity.
Qed.

(** So does the form of [AddTask] for a routine. *)
Lemma AddTask_rules (fd : AddTask.FormData) :
  AddTask.taskType fd = AddTask.routine ->
  (AddTask.recurrenceType fd = WEEKLY -> AddTask.daysOfWeek fd = [] ->
     AddTask.validateForm fd = false /\
     AddTask.e_daysOfWeek (AddTask.newErrors fd)
       = Some "Please select at least one day for weekly routines") /\
  (AddTask.recurrenceType fd = MONTHLY -> AddTask.dayOfMonth fd = 32 ->
     AddTask.validateForm fd = false /\
     AddTask.e_dayOfMonth (AddTask.newErrors fd)
       = Some "Day of month must be between 1 and 31") /\
  (AddTask.recurrenceType fd = CUSTOM -> AddTask.interval fd = 0 ->
     AddTask.validateForm fd = false /\
     AddTask.e_interval (AddTask.newErrors fd) = Some "Interval must be at least 1 day") /\
  (AddTask.recurrenceType fd = DAILY -> isEmpty (trim (AddTask.title fd)) = false ->
     isEmpty (AddTask.categoryId fd) = false ->
     AddTask.validateForm fd = true).
Proof.
  intros Ht.
  unfold AddTask.validateForm, AddTask.noErrors, AddTask.newErrors.
  cbn [AddTask.e_title AddTask.e_categoryId AddTask.e_dueDate AddTask.e_daysOfWeek
       AddTask.e_dayOfMonth AddTask.e_interval].
  rewrite Ht.
  split; [|split; [|split]]; intros H1 H2; try intros H3; rewrite H1, H2, ?H3;
    destruct (isEmpty (trim (AddTask.title fd))); try discriminate;
    destruct (isEmpty (AddTask.categoryId fd)); try discriminate;
    try split; reflexivity.
Qed.

(** The route applies three of them. *)
Lemma validatePost_rules :
  validatePost (body monthly32) = Some "Day of month must be between 1 and 31" /\
  validatePost (body custom0) = Some "Interval must be at least 1" /\
  validatePost (body (scheduleOf "DAILY")) = None.
Proof. repeat split; vm_compute; reflexivity. Qed.

(** C6. The route accepts a weekly schedule whose [daysOfWeek] is the
    empty array, on creation and on update, where the form rejects the
    same schedule with its message about selecting a day. *)
Theorem post_accepts_weekly_without_days :
  validatePost (body weeklyNoDays) = None /\
  validatePut (body weeklyNoDays) = None /\
  RoutineForm.validateForm weeklyForm = false /\
  RoutineForm.e_daysOfWeek (RoutineForm.newErrors weeklyForm)
    = Some "Select at least one day for weekly routine".
Proof. repeat split; vm_compute; reflexivity. Qed.

Lemma scheduleField_withTime f t b :
  (forall s t', f {| recurrenceType := recurrenceType s; interval := interval s;
                     daysOfWeek := daysOfWeek s; dayOfMonth := dayOfMonth s;
                     time := t' |} = f s) ->
  scheduleField f (withTime t b) = scheduleField f b.
Proof.
  intros Hf. unfold scheduleField, withTime. cbn [schedule].
  destruct (schedule b) as [s|]; [apply Hf|reflexivity].
Qed.




End RoutinesFacts.

(** * Further properties of the code *)

Module StatusTextFacts.
Import Cal CalFacts Js JsFacts DateUtils StatusText.

Lemma ltb_compare s1 s2 :
  String.ltb s1 s2 = match String.compare s1 s2 with Lt => true | _ => false end.
Proof. reflexivity. Qed.

Lemma ceil_div_bounds n k : 0 < k -> k * (ceil_div n k - 1) < n <= k * ceil_div n k.
Proof. intros Hk. unfold ceil_div. Z.div_mod_to_equations. lia. Qed.

(** X1. The text of [getTaskStatusText] follows the thresholds on the
    difference in whole days; weeks and months always come in the
    plural. *)
Theorem getTaskStatusText_thresholds tza now c rest completed :
  valid c -> 0 <= year c <= 9999 -> 0 <= YearFromTime now <= 9999 ->
  rest = "" \/ (exists r, rest = String "T" r) ->
  getTaskStatusText tza now (isoDate c +:+ rest) completed
  = spec_statusText completed (days_from_civil c - Day now).
Proof.
  intros Hv Hy Hn Hr. destruct completed; [reflexivity|].
  unfold getTaskStatusText, spec_statusText.
  rewrite split_head_toISOString, split_head_isoDate by assumption.
  set (t := civil_from_days (Day now)) in *.
  assert (Ht : valid t) by apply civil_from_days_valid.
  assert (Hd : days_from_civil t = Day now) by apply days_from_civil_from_days.
  pose proof (valid_month_day c Hv) as [? ?].
  pose proof (valid_month_day t Ht) as [? ?].
  rewrite ltb_compare, eqb_compare.
  rewrite isoDate_compare by (assumption || lia).
  rewrite <- days_from_civil_compare, Hd by assumption.
  rewrite !Date_parse_midnight by assumption. cbn [mbind option_bind].
  rewrite Hd, <- !Z.mul_sub_distr_r. unfold ceilDays. cbn [mbind option_bind].
  rewrite !ceil_div_mul.
  set (d := days_from_civil c - Day now).
  replace (Day now - days_from_civil c) with (- d) by (unfold d; lia).
  destruct (Z.compare_spec (days_from_civil c) (Day now)) as [E|E|E].
  - replace (d <? 0) with false by (symmetry; apply Z.ltb_ge; unfold d; lia).
    replace (d =? 0) with true by (symmetry; apply Z.eqb_eq; unfold d; lia).
    reflexivity.
  - replace (d <? 0) with true by (symmetry; apply Z.ltb_lt; unfold d; lia).
    unfold numberToString, pluralS.
    destruct (Z.eqb_spec (- d) 1) as [E1|E1].
    + rewrite E1. reflexivity.
    + replace (- d >? 1) with true by (symmetry; apply Z.gtb_lt; unfold d in *; lia).
      reflexivity.
  - replace (d <? 0) with false by (symmetry; apply Z.ltb_ge; unfold d; lia).
    replace (d =? 0) with false by (symmetry; apply Z.eqb_neq; unfold d; lia).
    assert (Hpos : 0 < d) by (unfold d; lia). clearbody d.
    destruct (d =? 1); [reflexivity|].
    destruct (d <=? 7) eqn:E7; [reflexivity|]. apply Z.leb_gt in E7.
    unfold numberToString, pluralS.
    destruct (d <=? 30) eqn:E30; [|apply Z.leb_gt in E30].
    + pose proof (ceil_div_bounds d 7 ltac:(lia)).
      replace (ceil_div d 7 >? 1) with true by (symmetry; apply Z.gtb_lt; lia).
      reflexivity.
    + pose proof (ceil_div_bounds d 30 ltac:(lia)).
      replace (ceil_div d 30 >? 1) with true by (symmetry; apply Z.gtb_lt; lia).
      reflexivity.
Qed.

Lemma getTaskStatusText_thresholds_witness :
  getTaskStatusText 0 Examples.noon "2024-03-19" false = "Due in 2 weeks".
Proof.
  apply (getTaskStatusText_thresholds 0 Examples.noon (Civil 2024 3 19) "" false).
  - vm_compute. split; [split|split]; discriminate.
  - cbn. lia.
  - vm_compute. split; discriminate.
  - left. reflexivity.
Defined.

Lemma fold_countTask tza now tasks : forall c0,
  let c := fold_left (countTask tza now) tasks c0 in
  n_all c = n_all c0 /\
  n_completed c = n_completed c0 + Z.of_nat (length (List.filter st_completed tasks)) /\
  n_pending c
    = n_pending c0 + Z.of_nat (length (List.filter (fun t => negb (st_completed t)) tasks)) /\
  n_overdue c = n_overdue c0 + Z.of_nat (length (List.filter (isOverdueTask tza now) tasks)).
Proof.
  induction tasks as [|t l IH]; intros c0; cbn [fold_left List.filter length].
  - cbv zeta. lia.
  - specialize (IH (countTask tza now c0 t)). cbv zeta in *.
    destruct IH as (Ha & Hc & Hp & Ho). rewrite Ha, Hc, Hp, Ho.
    unfold countTask, isOverdueTask.
    destruct (st_completed t) eqn:E; cbn [negb andb n_all n_completed n_pending n_overdue length].
    + lia.
    + destruct (bool_decide (getTaskStatus tza now (st_dueDate t) false = Overdue));
        cbn [length]; repeat split; lia.
Qed.

(** X2. [getStatusCounts]: every task is counted as completed or as
    pending, never both; the overdue tasks are the pending tasks that
    [getTaskStatus] calls overdue. *)
Theorem getStatusCounts_consistent tza now tasks :
  let c := getStatusCounts tza now tasks in
  n_all c = Z.of_nat (length tasks) /\
  n_completed c + n_pending c = n_all c /\
  n_completed c = Z.of_nat (length (List.filter st_completed tasks)) /\
  n_overdue c = Z.of_nat (length (List.filter (isOverdueTask tza now) tasks)) /\
  0 <= n_overdue c <= n_pending c.
Proof.
  unfold getStatusCounts.
  destruct (fold_countTask tza now tasks
    {| n_all := Z.of_nat (length tasks); n_pending := 0; n_overdue := 0; n_completed := 0 |})
    as (Ha & Hc & Hp & Ho).
  cbv zeta. rewrite Ha, Hc, Hp, Ho. cbn [n_all n_completed n_pending n_overdue].
  assert (Hsplit : (length (List.filter st_completed tasks)
            + length (List.filter (fun t => negb (st_completed t)) tasks) = length tasks)%nat).
  { clear. induction tasks as [|t l IH]; [reflexivity|]. cbn [List.filter length].
    destruct (st_completed t); cbn [negb length]; lia. }
  assert (Hle : (length (List.filter (isOverdueTask tza now) tasks)
            <= length (List.filter (fun t => negb (st_completed t)) tasks))%nat).
  { clear. induction tasks as [|t l IH]; [reflexivity|]. cbn [List.filter].
    unfold isOverdueTask at 1. destruct (st_completed t); cbn [negb andb]; [exact IH|].
    destruct (bool_decide (getTaskStatus tza now (st_dueDate t) false = Overdue));
      cbn [length]; lia. }
  repeat split; lia.
Qed.

End StatusTextFacts.

Module SortFacts.
Import Js JsFacts ReportsFacts.

Section InsertionSort.
Context {A : Type} (lt : A -> A -> bool) (P : A -> Prop) (R : A -> A -> Prop).
Hypothesis R_trans : forall x y z, P x -> P y -> P z -> R x y -> R y z -> R x z.
Hypothesis lt_R : forall x y, P x -> P y -> lt x y = true -> R x y.
Hypothesis ge_R : forall x y, P x -> P y -> lt x y = false -> R y x.

Lemma insert_by_sorted x l :
  P x -> Forall P l -> StronglySorted R l -> StronglySorted R (insert_by lt x l).
Proof.
  intros Hx Hl Hs. induction Hs as [|y r Hs IH Hy]; cbn [insert_by].
  - apply SSorted_cons; [apply SSorted_nil|apply Forall_nil; exact I].
  - apply Forall_cons in Hl as [Py Pr].
    destruct (lt x y) eqn:E.
    + apply SSorted_cons; [apply SSorted_cons; assumption|].
      apply Forall_cons. split; [now apply lt_R|].
      apply Forall_forall. intros z Hz.
      rewrite Forall_forall in Hy, Pr.
      apply (R_trans x y z); auto.
    + apply SSorted_cons; [now apply IH|].
      rewrite insert_by_perm. apply Forall_cons. split; [now apply ge_R|assumption].
Qed.

Lemma sort_by_sorted l : Forall P l -> StronglySorted R (sort_by lt l).
Proof.
  intros Hl. unfold sort_by.
  assert (H : forall acc, Forall P acc -> StronglySorted R acc ->
            Forall P l ->
            StronglySorted R (fold_left (fun acc x => insert_by lt x acc) l acc)).
  { clear Hl. induction l as [|x l IH]; intros acc Pa Sa Pl; cbn [fold_left]; [exact Sa|].
    apply Forall_cons in Pl as [Px Pl].
    apply IH; [|now apply insert_by_sorted|exact Pl].
    rewrite insert_by_perm. apply Forall_cons. now split. }
  apply H; [apply Forall_nil; exact I|apply SSorted_nil|exact Hl].
Qed.

End InsertionSort.

End SortFacts.

Module SortOrderFacts.
Import Cal CalFacts Js JsFacts ReportsFacts DateUtils SortFacts SortOrder.

Lemma StronglySorted_lookup {A} (R : A -> A -> Prop) l :
  StronglySorted R l ->
  forall i j a b, (i < j)%nat -> l !! i = Some a -> l !! j = Some b -> R a b.
Proof.
  induction 1 as [|x l Hs IH Hx]; intros i j a b Hij Hi Hj; [destruct i; discriminate|].
  destruct j as [|j]; [lia|]. cbn in Hj.
  destruct i as [|i]; cbn in Hi.
  - injection Hi as <-. rewrite Forall_forall in Hx. apply Hx.
    eapply list_elem_of_lookup_2. exact Hj.
  - apply (IH i j); [lia|assumption..].
Qed.

(** X3. When every due date parses, the array that [sortTasksByDueDate]
    returns has its pending tasks before its completed tasks, whatever
    the order asked for, and each of the two groups by due date, in the
    order asked for. *)
Theorem sortTasksByDueDate_order tza (h h' : Heap) tasks ascending l result :
  h !! tasks = Some l -> datesParse tza l ->
  sortTasksByDueDate tza tasks ascending h = Some (result, h') ->
  exists sorted, h' !! result = Some sorted /\ sorted ≡ₚ l /\
    forall i j a b, (i < j)%nat -> sorted !! i = Some a -> sorted !! j = Some b ->
      comesBefore tza ascending a b.
Proof.
  intros Hl Hp Hs.
  unfold sortTasksByDueDate, bind, readArray, newArray, sortArray in Hs.
  rewrite Hl, lookup_insert_eq in Hs. injection Hs as <- <-.
  eexists. split; [rewrite insert_insert_eq; apply lookup_insert_eq|].
  split; [apply sort_by_perm|].
  apply StronglySorted_lookup.
  apply (sort_by_sorted _ (fun t => is_Some (getTime tza (t_dueDate t)))); [| | |exact Hp].
  - intros x y z _ [ty Hy] _ [Hxy1 Hxy2] [Hyz1 Hyz2]. split; [auto|].
    intros Hc tx tz Hx Hz.
    assert (Hcy : t_completed x = t_completed y).
    { destruct (t_completed x), (t_completed y), (t_completed z); auto; try discriminate;
        try (specialize (Hxy1 eq_refl)); try (specialize (Hyz1 eq_refl)); congruence. }
    specialize (Hxy2 Hcy tx ty Hx Hy). specialize (Hyz2 ltac:(congruence) ty tz Hy Hz).
    destruct ascending; lia.
  - intros x y [tx Hx] [ty Hy] Hlt. unfold compareTasks in Hlt. rewrite Hx, Hy in Hlt.
    unfold comesBefore. rewrite Hx, Hy.
    destruct (t_completed x), (t_completed y); cbn in Hlt; try discriminate;
      (split; [congruence|]; intros Hc ta tb [= <-] [= <-]; try discriminate);
      destruct ascending; apply Z.ltb_lt in Hlt; lia.
  - intros x y [tx Hx] [ty Hy] Hge. unfold compareTasks in Hge. rewrite Hx, Hy in Hge.
    unfold comesBefore. rewrite Hx, Hy.
    destruct (t_completed x), (t_completed y); cbn in Hge; try discriminate;
      (split; [congruence|]; intros Hc ta tb [= <-] [= <-]; try discriminate);
      destruct ascending; apply Z.ltb_ge in Hge; lia.
Qed.

Lemma sortTasksByDueDate_order_witness :
  exists result h' sorted,
    sortTasksByDueDate 0 0%nat false {[ 0%nat := UiExamples.uiTasks ]} = Some (result, h') /\
    h' !! result = Some sorted /\ sorted ≡ₚ UiExamples.uiTasks /\
    forall i j a b, (i < j)%nat -> sorted !! i = Some a -> sorted !! j = Some b ->
      comesBefore 0 false a b.
Proof.
  destruct (sortTasksByDueDate 0 0%nat false {[ 0%nat := UiExamples.uiTasks ]})
    as [[result h']|] eqn:E; [|vm_compute in E; discriminate].
  destruct (sortTasksByDueDate_order 0 {[ 0%nat := UiExamples.uiTasks ]} h' 0%nat false
              UiExamples.uiTasks result) as (sorted & H1 & H2 & H3).
  - reflexivity.
  - repeat constructor; eexists; vm_compute; reflexivity.
  - exact E.
  - exists result, h', sorted. auto.
Defined.

End SortOrderFacts.

Module ScheduledPageFacts.
Import Cal CalFacts Js JsFacts ReportsFacts DateUtils StatusText StatusTextFacts ScheduledPage
  SortFacts SortOrderFacts.
Local Open Scope Z_scope.

Lemma filter_implb {A} (b : bool) (p : A -> bool) l :
  (if b then List.filter p l else l) = List.filter (fun t => implb b (p t)) l.
Proof.
  destruct b; cbn [implb]; [reflexivity|].
  induction l as [|x l IH]; [reflexivity|]. cbn [List.filter]. now rewrite <- IH.
Qed.

Lemma filter_filter_bool {A} (p q : A -> bool) l :
  List.filter q (List.filter p l) = List.filter (fun t => p t && q t) l.
Proof.
  induction l as [|x l IH]; [reflexivity|]. cbn [List.filter].
  destruct (p x); cbn [andb List.filter]; [destruct (q x)|]; now rewrite IH.
Qed.

Lemma applyFilters_perm tza now filters tasks :
  applyFilters tza now filters tasks ≡ₚ List.filter (passes tza now filters) tasks.
Proof.
  unfold applyFilters. cbv zeta.
  rewrite !filter_implb, !filter_filter_bool.
  rewrite (List.filter_ext _ (passes tza now filters))
    by (intros t; unfold passes; now rewrite !andb_assoc).
  destruct (sortBy filters); apply sort_by_perm.
Qed.

(** X17. The list that [applyFilters] shows is a rearrangement of
    exactly the tasks that pass every filter that is set: sorting drops
    and repeats nothing, and a filter left empty excludes nothing. *)
Theorem applyFilters_selects tza now filters tasks :
  applyFilters tza now filters tasks ≡ₚ List.filter (passes tza now filters) tasks /\
  (forall t, t ∈ applyFilters tza now filters tasks
             <-> t ∈ tasks /\ passes tza now filters t = true) /\
  (search filters = "" -> categoryId filters = "" -> priority filters = "" ->
   status filters = "" -> applyFilters tza now filters tasks ≡ₚ tasks).
Proof.
  pose proof (applyFilters_perm tza now filters tasks) as Hp.
  split; [exact Hp|]. split.
  - intros t. rewrite Hp. apply elem_of_filter_bool.
  - intros H1 H2 H3 H4. rewrite Hp. unfold passes. rewrite H1, H2, H3, H4. cbn.
    clear. induction tasks as [|x l IH]; [reflexivity|]. cbn [List.filter]. now rewrite IH.
Qed.

Lemma applyFilters_selects_witness :
  applyFilters 0 Examples.noon (statusOnly "" ByPriority false) PageExamples.pageTasks
  ≡ₚ PageExamples.pageTasks.
Proof.
  apply (applyFilters_selects 0 Examples.noon (statusOnly "" ByPriority false)
           PageExamples.pageTasks); reflexivity.
Defined.

Lemma getTaskStatus_pending tza now due :
  getTaskStatus tza now due false <> Completed.
Proof.
  unfold getTaskStatus. cbv zeta.
  destruct (String.ltb _ _); [discriminate|]. destruct (String.eqb _ _); [discriminate|].
  destruct (_ ≫= _) as [n|]; [destruct (n <=? 3)|]; discriminate.
Qed.

Lemma length_filter_status tza now s by_ asc tasks :
  s <> "" ->
  length (applyFilters tza now (statusOnly s by_ asc) tasks)
  = length (List.filter (fun t => String.eqb
              (statusName (getTaskStatus tza now (st_dueDate t) (st_completed t))) s) tasks).
Proof.
  intros Hs. rewrite applyFilters_perm. f_equal. apply List.filter_ext. intros t.
  unfold passes, statusOnly, matchesStatus, nonEmpty. cbn [search categoryId priority status].
  apply String.eqb_neq in Hs. rewrite Hs. reflexivity.
Qed.

(** X18. With no filter set but the status, the list that [applyFilters]
    shows agrees with the counters of [getStatusCounts]: all the tasks
    for no status, as many as the overdue counter for [overdue], as many
    as the completed counter for [completed], and the four lists of
    [overdue], [due-today], [due-soon] and [future] together as many as
    the pending counter. *)
Theorem applyFilters_counts tza now by_ asc tasks :
  let c := getStatusCounts tza now tasks in
  let shown s := Z.of_nat (length (applyFilters tza now (statusOnly s by_ asc) tasks)) in
  shown "" = n_all c /\
  shown "overdue" = n_overdue c /\
  shown "completed" = n_completed c /\
  shown "overdue" + shown "due-today" + shown "due-soon" + shown "future" = n_pending c.
Proof.
  cbv zeta. unfold getStatusCounts.
  destruct (fold_countTask tza now tasks
    {| n_all := Z.of_nat (length tasks); n_pending := 0; n_overdue := 0; n_completed := 0 |})
    as (Ha & Hc & Hp & Ho).
  cbv zeta in *. rewrite Ha, Hc, Hp, Ho. cbn [n_all n_completed n_pending n_overdue].
  rewrite (length_filter_status tza now "overdue"), (length_filter_status tza now "completed"),
    (length_filter_status tza now "due-today"), (length_filter_status tza now "due-soon"),
    (length_filter_status tza now "future") by discriminate.
  split; [|split; [|split]].
  - f_equal. rewrite applyFilters_perm. unfold passes, statusOnly. cbn.
    f_equal. clear. induction tasks as [|x l IH]; [reflexivity|]. cbn [List.filter].
    now rewrite IH.
  - clear. induction tasks as [|t l IH]; [reflexivity|]. cbn [List.filter].
    unfold isOverdueTask at 1. destruct (st_completed t) eqn:E; cbn [negb andb].
    + cbn. exact IH.
    + pose proof (getTaskStatus_pending tza now (st_dueDate t)).
      destruct (getTaskStatus tza now (st_dueDate t) false); try congruence;
        cbn; repeat case_bool_decide; try congruence; cbn [length]; lia.
  - clear. induction tasks as [|t l IH]; [reflexivity|]. cbn [List.filter].
    destruct (st_completed t) eqn:E.
    + cbn. lia.
    + pose proof (getTaskStatus_pending tza now (st_dueDate t)).
      destruct (getTaskStatus tza now (st_dueDate t) false); try congruence;
        cbn; repeat case_bool_decide; try congruence; cbn [length]; lia.
  - clear. induction tasks as [|t l IH]; [reflexivity|]. cbn [List.filter].
    destruct (st_completed t) eqn:E.
    + cbn. lia.
    + pose proof (getTaskStatus_pending tza now (st_dueDate t)).
      destruct (getTaskStatus tza now (st_dueDate t) false); try congruence;
        cbn; repeat case_bool_decide; try congruence; cbn [length]; lia.
Qed.

(** X19. Sorted by priority or by creation time, the list that
    [applyFilters] shows is in the order asked for, when every task has
    one of the four priorities, or a creation time that parses: the
    ranks (URGENT 4, HIGH 3, MEDIUM 2, LOW 1) or the times never go down
    in ascending order and never go up in descending order. *)
Theorem applyFilters_ordered tza now filters tasks :
  sortBy filters <> ByDueDate ->
  Forall (fun t => is_Some (sortValue tza filters t)) tasks ->
  forall i j a b va vb, (i < j)%nat ->
    applyFilters tza now filters tasks !! i = Some a ->
    applyFilters tza now filters tasks !! j = Some b ->
    sortValue tza filters a = Some va -> sortValue tza filters b = Some vb ->
    if ascending filters then va <= vb else vb <= va.
Proof.
  intros Hs Hv i j a b va vb Hij Hi Hj Ha Hb.
  set (R := fun a b : ScheduledTask =>
              forall va vb, sortValue tza filters a = Some va ->
                            sortValue tza filters b = Some vb ->
                            if ascending filters then va <= vb else vb <= va).
  assert (Hsorted : StronglySorted R (applyFilters tza now filters tasks)).
  { unfold applyFilters. cbv zeta. rewrite !filter_implb, !filter_filter_bool.
    match goal with |- context [List.filter ?q tasks] => set (p := q) end.
    assert (Hf : Forall (fun t => is_Some (sortValue tza filters t)) (List.filter p tasks)).
    { rewrite Forall_forall in *. intros t Ht. apply Hv.
      apply elem_of_filter_bool in Ht. tauto. }
    assert (Hgoal : StronglySorted R
              (sort_by (fun a b => negative (compareBy tza filters a b)) (List.filter p tasks))).
    { apply (sort_by_sorted _ (fun t => is_Some (sortValue tza filters t))); [| | |exact Hf].
      - intros x y z _ [vy Hy] _ Hxy Hyz vx vz Hx Hz.
        specialize (Hxy vx vy Hx Hy). specialize (Hyz vy vz Hy Hz).
        destruct (ascending filters); lia.
      - intros x y _ _ Hlt vx vy Hx Hy. unfold compareBy in Hlt. rewrite Hx, Hy in Hlt.
        cbn in Hlt. apply Z.ltb_lt in Hlt. destruct (ascending filters); lia.
      - intros x y _ _ Hge vy vx Hy Hx. unfold compareBy in Hge. rewrite Hx, Hy in Hge.
        cbn in Hge. apply Z.ltb_ge in Hge. destruct (ascending filters); lia. }
    destruct (sortBy filters); [contradiction|exact Hgoal..]. }
  exact (StronglySorted_lookup R _ Hsorted i j a b Hij Hi Hj va vb Ha Hb).
Qed.

Lemma applyFilters_ordered_witness :
  exists a b va vb,
    applyFilters 0 Examples.noon (statusOnly "" ByPriority false) PageExamples.pageTasks
      !! 0%nat = Some a /\
    applyFilters 0 Examples.noon (statusOnly "" ByPriority false) PageExamples.pageTasks
      !! 1%nat = Some b /\
    sortValue 0 (statusOnly "" ByPriority false) a = Some va /\
    sortValue 0 (statusOnly "" ByPriority false) b = Some vb /\
    vb <= va.
Proof.
  exists (PageExamples.scheduled "Renew passport" "URGENT" "2024-03-02" true),
         (PageExamples.scheduled "Tax return" "HIGH" "2024-03-05" false), 4, 3.
  repeat split; try reflexivity.
  apply (applyFilters_ordered 0 Examples.noon (statusOnly "" ByPriority false)
           PageExamples.pageTasks ltac:(discriminate)
           ltac:(repeat constructor; eexists; reflexivity)
           0%nat 1%nat
           (PageExamples.scheduled "Renew passport" "URGENT" "2024-03-02" true)
           (PageExamples.scheduled "Tax return" "HIGH" "2024-03-05" false) 4 3);
    [lia|reflexivity..].
Defined.

End ScheduledPageFacts.

Module ReportsMoreFacts.
Import Cal CalFacts Js JsFacts Reports ReportsFacts SortFacts SortOrderFacts ReportsSpec
  MoreExamples.

(** The distributions of a report that was sent. *)
Lemma getReports_distributions tza now db req r :
  getReports tza now db req = Some r ->
  let tasks := selectedTasks tza now db req in
  let byCategory category :=
    List.filter (fun task => bool_decide (categoryId task = Some (cat_id category))) tasks in
  priorityDistribution r =
    {| n_URGENT := count (fun t => bool_decide (priority t = URGENT)) tasks;
       n_HIGH := count (fun t => bool_decide (priority t = HIGH)) tasks;
       n_MEDIUM := count (fun t => bool_decide (priority t = MEDIUM)) tasks;
       n_LOW := count (fun t => bool_decide (priority t = LOW)) tasks |} /\
  categoryDistribution r =
    fold_left (fun dist category =>
      if len (byCategory category) >? 0
      then obj_set (cat_name category)
             {| c_total := len (byCategory category);
                c_completed := count completed (byCategory category);
                c_color := cat_color category |} dist
      else dist) (queryCategories db) [] /\
  topCategories r =
    take 5 (sort_by (fun a b => c_total (snd b) <? c_total (snd a)) (categoryDistribution r)).
Proof.
  unfold getReports, selectedTasks.
  destruct (getDateRange tza now (default "all" (req_period req))) as [startDate endDate].
  cbn [fst snd]. cbv zeta.
  destruct (mapM _ (queryTasks db req startDate endDate)) as [flags|]; [|discriminate].
  cbn [mbind option_bind].
  destruct (calculateStreak tza now (queryAllUserTasks db req)) as [streak|]; [|discriminate].
  cbn [mbind option_bind]. intros [= <-]. repeat split.
Qed.

(** X4. The four priority counts of a report add up to its number of tasks. *)
Theorem priorityDistribution_total tza now db req r :
  getReports tza now db req = Some r ->
  n_URGENT (priorityDistribution r) + n_HIGH (priorityDistribution r)
  + n_MEDIUM (priorityDistribution r) + n_LOW (priorityDistribution r)
  = totalTasks (overview r).
Proof.
  intros H. destruct (getReports_distributions _ _ _ _ _ H) as (Hp & _).
  destruct (getReports_inv _ _ _ _ _ H) as (? & ? & _ & _ & Ho & _).
  rewrite Hp, Ho.
  cbn [n_URGENT n_HIGH n_MEDIUM n_LOW totalTasks]. unfold count, len.
  clear. induction (selectedTasks tza now db req) as [|t l IH]; [reflexivity|].
  cbn [List.filter length]. destruct (priority t); simpl; lia.
Qed.

Lemma priorityDistribution_total_witness :
  exists r, getReports 0 Examples.noon dbCategories (Examples.request None) = Some r /\
    n_URGENT (priorityDistribution r) + n_HIGH (priorityDistribution r)
    + n_MEDIUM (priorityDistribution r) + n_LOW (priorityDistribution r) = 9.
Proof.
  eexists. split; [vm_compute; reflexivity|].
  rewrite (priorityDistribution_total 0 Examples.noon dbCategories (Examples.request None));
    vm_compute; reflexivity.
Defined.

Lemma elem_of_obj_set {V} (k : string) (v : V) o e :
  e ∈ obj_set k v o -> e = (k, v) \/ e ∈ o.
Proof.
  induction o as [|[k' w] o IH]; cbn [obj_set].
  - intros H%list_elem_of_singleton. now left.
  - destruct (String.eqb k' k) eqn:E.
    + apply String.eqb_eq in E. subst k'. intros [->|H]%elem_of_cons; [now left|].
      right. now apply elem_of_cons; right.
    + intros [->|H]%elem_of_cons; [right; apply elem_of_cons; now left|].
      destruct (IH H) as [->|H']; [now left|right; apply elem_of_cons; now right].
Qed.

Lemma keys_obj_set {V} (k : string) (v : V) o :
  fst <$> obj_set k v o = if bool_decide (k ∈ fst <$> o) then fst <$> o else (fst <$> o) ++ [k].
Proof.
  induction o as [|[k' w] o IH]; cbn [obj_set fmap list_fmap]; [reflexivity|].
  destruct (String.eqb k' k) eqn:E.
  - apply String.eqb_eq in E. subst k'. cbn.
    rewrite bool_decide_eq_true_2 by (apply elem_of_cons; now left). reflexivity.
  - apply String.eqb_neq in E. cbn [fmap list_fmap fst]. rewrite IH.
    case_bool_decide as H1; case_bool_decide as H2; try reflexivity; exfalso.
    + apply H2. apply elem_of_cons. now right.
    + apply elem_of_cons in H2 as [->|H2]; [now apply E|now apply H1].
Qed.

Lemma NoDup_keys_obj_set {V} (k : string) (v : V) o :
  NoDup (fst <$> o) -> NoDup (fst <$> obj_set k v o).
Proof.
  intros H. rewrite keys_obj_set. case_bool_decide as Hk; [exact H|].
  apply NoDup_app. split; [exact H|]. split; [|apply NoDup_singleton].
  intros x Hx Hx'%list_elem_of_singleton. subst x. contradiction.
Qed.

(** X5. The category distribution of a report has one entry per category
    name, each for a category with at least one selected task; an entry
    counts at most all the tasks, and its completed count is at most its
    total. *)
Theorem categoryDistribution_entries tza now db req r :
  getReports tza now db req = Some r ->
  NoDup (fst <$> categoryDistribution r) /\
  Forall (entry_ok db (selectedTasks tza now db req)) (categoryDistribution r).
Proof.
  intros H. destruct (getReports_distributions _ _ _ _ _ H) as (_ & Hc & _).
  rewrite Hc. clear Hc H. cbv zeta.
  set (tasks := selectedTasks tza now db req).
  assert (Hcats : forall c, c ∈ queryCategories db -> c ∈ db_categories db).
  { intros c Hc. unfold queryCategories in Hc. now rewrite elem_of_sort_by in Hc. }
  revert Hcats. generalize (queryCategories db) as cats.
  assert (Hinit : NoDup (fst <$> ([] : list (string * CategoryStat)))
                  /\ Forall (entry_ok db tasks) []) by (split; constructor).
  revert Hinit. generalize ([] : list (string * CategoryStat)) as dist.
  intros dist Hd cats. revert dist Hd.
  induction cats as [|c cats IH]; intros dist Hd Hcats; cbn [fold_left]; [exact Hd|].
  apply IH; [|intros c' Hc'; apply Hcats; apply elem_of_cons; now right].
  destruct Hd as [Hn Hf].
  destruct (len _ >? 0) eqn:E; [|now split]. apply Z.gtb_lt in E.
  split; [now apply NoDup_keys_obj_set|].
  apply Forall_forall. intros e He. apply elem_of_obj_set in He as [->|He];
    [|rewrite Forall_forall in Hf; now apply Hf].
  unfold entry_ok. cbn [fst snd c_total c_completed c_color].
  split; [lia|]. split; [apply count_le|]. split.
  - unfold len. apply inj_le, List.filter_length_le.
  - exists c. split; [apply Hcats, elem_of_cons; now left|]. repeat split.
Qed.

Lemma categoryDistribution_entries_witness :
  exists r, getReports 0 Examples.noon dbCategories (Examples.request None) = Some r /\
    NoDup (fst <$> categoryDistribution r).
Proof.
  eexists. split; [vm_compute; reflexivity|].
  apply (categoryDistribution_entries 0 Examples.noon dbCategories (Examples.request None)).
  vm_compute. reflexivity.
Defined.

(** X6. The top categories of a report are at most five entries of its
    category distribution, by total from the largest down; they are all
    of them when the distribution has no more than five entries. *)
Theorem topCategories_sorted tza now db req r :
  getReports tza now db req = Some r ->
  (length (topCategories r) <= 5)%nat /\
  (forall e, e ∈ topCategories r -> e ∈ categoryDistribution r) /\
  (forall i j a b, (i < j)%nat -> topCategories r !! i = Some a ->
     topCategories r !! j = Some b -> c_total (snd b) <= c_total (snd a)) /\
  ((length (categoryDistribution r) <= 5)%nat -> topCategories r ≡ₚ categoryDistribution r).
Proof.
  intros H. destruct (getReports_distributions _ _ _ _ _ H) as (_ & _ & Ht).
  rewrite Ht. set (sorted := sort_by _ (categoryDistribution r)).
  assert (Hp : sorted ≡ₚ categoryDistribution r) by apply sort_by_perm.
  split; [rewrite length_take; lia|]. split; [|split].
  - intros e He. rewrite <- Hp. eapply subseteq_take. exact He.
  - apply (StronglySorted_lookup (fun a b => c_total (snd b) <= c_total (snd a))).
    apply (StronglySorted_app_1_l _ _ (drop 5 sorted)). rewrite take_drop.
    apply (sort_by_sorted _ (fun _ => True)).
    + intros x y z _ _ _ ? ?. lia.
    + intros x y _ _ E. apply Z.ltb_lt in E. lia.
    + intros x y _ _ E. apply Z.ltb_ge in E. lia.
    + apply Forall_forall. auto.
  - intros Hl. rewrite take_ge; [exact Hp|]. now rewrite Hp.
Qed.

Lemma topCategories_sorted_witness :
  exists r, getReports 0 Examples.noon dbCategories (Examples.request None) = Some r /\
    (length (topCategories r) <= 5)%nat.
Proof.
  eexists. split; [vm_compute; reflexivity|].
  apply (topCategories_sorted 0 Examples.noon dbCategories (Examples.request None)).
  vm_compute. reflexivity.
Defined.

Lemma size_list_to_set_le (l : list string) :
  (size (list_to_set l : gset string) <= length l)%nat.
Proof.
  induction l as [|x l IH]; [reflexivity|].
  cbn [list_to_set foldr length]. rewrite size_union_alt, size_singleton.
  assert (Hsub : list_to_set l ∖ {[x]} ⊆ (list_to_set l : gset string))
    by (apply subseteq_difference_l; reflexivity).
  apply subseteq_size in Hsub. lia.
Qed.

(** X7. A report never shows more productive days than completed tasks, and
    shows none when no task is completed. *)
Theorem productiveDays_le_completed tza now db req r :
  getReports tza now db req = Some r ->
  0 <= productiveDays (overview r) <= completedTasks (overview r) /\
  (completedTasks (overview r) = 0 -> productiveDays (overview r) = 0).
Proof.
  intros H. destruct (getReports_inv _ _ _ _ _ H) as (? & ? & _ & _ & Ho & _).
  rewrite Ho. cbn [productiveDays completedTasks].
  pose proof (size_list_to_set_le
    (map (fun task => toDateString tza (updatedAt task))
       (List.filter completed (selectedTasks tza now db req)))) as Hs.
  rewrite length_map in Hs. unfold count. lia.
Qed.

Lemma productiveDays_le_completed_witness :
  exists r, getReports 0 Examples.noon Examples.db (Examples.request None) = Some r /\
    0 <= productiveDays (overview r) <= completedTasks (overview r).
Proof.
  eexists. split; [vm_compute; reflexivity|].
  apply (productiveDays_le_completed 0 Examples.noon Examples.db (Examples.request None)).
  vm_compute. reflexivity.
Defined.

Lemma streak_loop_bound fuel tza L : forall cur s n,
  streak_loop fuel tza L cur s = Some n -> s <= n < s + Z.of_nat fuel.
Proof.
  induction fuel as [|fuel IH]; intros cur s n; cbn [streak_loop]; [discriminate|].
  destruct (includes L (toDateString tza cur)).
  - intros H%IH. lia.
  - intros [= <-]. lia.
Qed.

Lemma NoDup_first_occurrences dates l : forall pre,
  dates = pre ++ l ->
  NoDup (filter_index (fun date index => bool_decide (indexOf date dates = Some index))
           (length pre) l).
Proof.
  induction l as [|y r IH]; intros pre Hd; cbn [filter_index]; [constructor|].
  pose proof (IH (pre ++ [y])) as IH'. rewrite <- app_assoc in IH'. cbn [app] in IH'.
  specialize (IH' Hd). rewrite length_app in IH'. cbn [length] in IH'.
  replace (length pre + 1)%nat with (S (length pre)) in IH' by lia.
  destruct (bool_decide (indexOf y dates = Some (length pre))); [|exact IH'].
  constructor; [|exact IH'].
  intros Hy. pose proof (elem_of_first_occurrences dates r (pre ++ [y])) as E.
  rewrite <- app_assoc in E. cbn [app] in E. specialize (E Hd y).
  rewrite length_app in E. cbn [length] in E.
  replace (length pre + 1)%nat with (S (length pre)) in E by lia.
  apply E in Hy as [_ Hy]. apply Hy. apply elem_of_app. right. now apply list_elem_of_singleton.
Qed.



(** X9. The handler throws, and sends no report, exactly when the overdue
    filter meets a selected task that is not completed and whose due
    date is a [Date] object (given completion dates of four-digit
    years, for the streak). *)
Theorem getReports_throws tza now db req :
  datesInRange tza (db_tasks db) ->
  getReports tza now db req = None <->
  exists t x, t ∈ selectedTasks tza now db req /\ completed t = false /\
              dueDate t = Some (DueObject x).
Proof.
  intros Hr.
  assert (Hs : exists n, calculateStreak tza now (queryAllUserTasks db req) = Some n).
  { destruct (calculateStreak_run tza (queryAllUserTasks db req)) with (now := now)
      as (n & Hn & _); [|eauto].
    eapply datesInRange_sub; [|exact Hr]. intros t Ht.
    unfold queryAllUserTasks in Ht. rewrite elem_of_sort_by, elem_of_filter_bool in Ht. tauto. }
  destruct Hs as [n Hn].
  unfold getReports, selectedTasks.
  destruct (getDateRange tza now (default "all" (req_period req))) as [s e].
  cbn [fst snd]. cbv zeta. rewrite Hn.
  destruct (mapM _ (queryTasks db req s e)) as [flags|] eqn:E; cbn [mbind option_bind].
  - split; [discriminate|]. intros (t & x & Ht & Hc & Hd). exfalso.
    apply mapM_Some in E. apply list_elem_of_lookup in Ht as [i Hi].
    destruct (Forall2_lookup_l _ _ _ _ _ E Hi) as (b & _ & Hb).
    unfold isOverdue in Hb. rewrite Hc, Hd in Hb. discriminate.
  - split; [intros _|reflexivity].
    apply mapM_None, Exists_exists in E as (t & Ht & Hn').
    unfold isOverdue in Hn'.
    destruct (completed t) eqn:Ec; [discriminate|].
    destruct (dueDate t) as [[d|x]|] eqn:Ed; [destruct (String.eqb d "")|..]; try discriminate.
    exists t, x. auto.
Qed.

Lemma getReports_throws_witness :
  getReports 0 Examples.noon dbDated (Examples.request None) = None.
Proof.
  apply getReports_throws.
  - intros t Ht Hc. apply list_elem_of_singleton in Ht. subst t. discriminate Hc.
  - exists datedTask, Examples.noon. split; [|split; reflexivity].
    vm_compute. apply list_elem_of_singleton. reflexivity.
Defined.

Lemma Day_floor t : Day t * msPerDay <= t.
Proof. unfold Day, msPerDay. Z.div_mod_to_equations. lia. Qed.



End ReportsMoreFacts.

Module DecimalFacts.
Import Cal CalFacts Js JsFacts Routines RoutinesRoute.

Lemma digitsVal_padDigits w : forall n a acc,
  0 <= n ->
  digitsVal a (padDigits w n acc) = digitsVal (a * 10 ^ Z.of_nat w + n mod 10 ^ Z.of_nat w) acc.
Proof.
  induction w as [|w IH]; intros n a acc Hn.
  - cbn [padDigits]. change (10 ^ Z.of_nat 0) with 1. rewrite Z.mod_1_r. f_equal. lia.
  - cbn [padDigits]. rewrite IH by (apply Z.div_pos; lia).
    cbn [digitsVal]. rewrite digitVal_digitChar by apply mod10.
    f_equal. rewrite Nat2Z.inj_succ, Z.pow_succ_r by lia.
    rewrite (Z.rem_mul_r n 10 (10 ^ Z.of_nat w)) by lia. lia.
Qed.

Lemma digitsVal_pad w n : 0 <= n < 10 ^ Z.of_nat w -> digitsVal 0 (pad w n) = Some n.
Proof.
  intros Hn. unfold pad. rewrite digitsVal_padDigits by lia.
  cbn [digitsVal]. f_equal. rewrite Z.mod_small; lia.
Qed.

Lemma padDigits_head w : forall n acc,
  exists rest, padDigits (S w) n acc
               = String (digitChar (n / 10 ^ Z.of_nat w mod 10)) rest
    /\ (w = O -> rest = acc).
Proof.
  induction w as [|w IH]; intros n acc.
  - exists acc. cbn [padDigits]. change (10 ^ Z.of_nat 0) with 1. rewrite Z.div_1_r.
    split; reflexivity.
  - destruct (IH (n / 10) (String (digitChar (n mod 10)) acc)) as (rest & E & _).
    exists rest. change (padDigits (S (S w)) n acc)
      with (padDigits (S w) (n / 10) (String (digitChar (n mod 10)) acc)).
    rewrite E. rewrite Z.div_div by lia.
    rewrite (Nat2Z.inj_succ w), Z.pow_succ_r by lia.
    split; [reflexivity|discriminate].
Qed.

Lemma countDigits_spec f : forall n,
  0 <= n < 2 ^ (Z.of_nat f + 1) ->
  n < 10 ^ Z.of_nat (countDigits f n) /\
  (10 <= n -> 10 ^ (Z.of_nat (countDigits f n) - 1) <= n) /\
  (n < 10 -> countDigits f n = 1%nat).
Proof.
  induction f as [|f IH]; intros n Hn; cbn [countDigits].
  - change (2 ^ (Z.of_nat 0 + 1)) with 2 in Hn. change (10 ^ Z.of_nat 1) with 10.
    repeat split; lia.
  - destruct (n <? 10) eqn:E; [apply Z.ltb_lt in E|apply Z.ltb_ge in E].
    + change (10 ^ Z.of_nat 1) with 10. repeat split; lia.
    + replace (Z.of_nat (S f) + 1) with (Z.succ (Z.of_nat f + 1)) in Hn by lia.
      rewrite Z.pow_succ_r in Hn by lia.
      destruct (IH (n / 10)) as (Hu & Hl & Hs); [Z.div_mod_to_equations; lia|].
      rewrite Nat2Z.inj_succ, Z.pow_succ_r by lia.
      split; [Z.div_mod_to_equations; lia|]. split; [|lia].
      intros _. replace (Z.succ (Z.of_nat (countDigits f (n / 10))) - 1)
        with (Z.of_nat (countDigits f (n / 10))) by lia.
      destruct (Z_lt_le_dec (n / 10) 10) as [Hlt|Hge].
      * rewrite (Hs Hlt). change (10 ^ Z.of_nat 1) with 10. lia.
      * specialize (Hl Hge).
        replace (Z.of_nat (countDigits f (n / 10)))
          with (Z.succ (Z.of_nat (countDigits f (n / 10)) - 1)) by lia.
        rewrite Z.pow_succ_r; [Z.div_mod_to_equations; lia|].
        pose proof (countDigits_pos f (n / 10)). lia.
Qed.

Lemma intOfString_digit d rest :
  1 <= d <= 9 ->
  intOfString (String (digitChar d) rest)
  = (n ← digitsVal 0 (String (digitChar d) rest); Some (1 * n)).
Proof.
  intros H. assert (C : d = 1 \/ d = 2 \/ d = 3 \/ d = 4 \/ d = 5 \/ d = 6 \/ d = 7
                        \/ d = 8 \/ d = 9) by lia.
  repeat (destruct C as [C|C]); subst d; reflexivity.
Qed.

Lemma intOfString_single d : 0 <= d <= 9 -> intOfString (String (digitChar d) "") = Some d.
Proof. intros H. each_digit d H; reflexivity. Qed.

(** [isInt] reads the numeral of a natural number back. *)
Lemma intOfString_decimal n : 0 <= n -> intOfString (decimal n) = Some n.
Proof.
  intros Hn. unfold decimal.
  replace (n <? 0) with false by (symmetry; apply Z.ltb_ge; lia).
  rewrite Z.abs_eq by lia. rewrite append_Empty.
  set (f := Z.to_nat (Z.log2 n)).
  assert (Hf : 0 <= n < 2 ^ (Z.of_nat f + 1)).
  { unfold f. rewrite Z2Nat.id by apply Z.log2_nonneg.
    destruct (Z.eq_dec n 0) as [->|Hne]; [cbn; lia|].
    pose proof (Z.log2_spec n ltac:(lia)). replace (Z.log2 n + 1) with (Z.succ (Z.log2 n)) by lia.
    lia. }
  destruct (countDigits_spec f n Hf) as (Hu & Hl & Hs).
  pose proof (digitsVal_pad (countDigits f n) n ltac:(lia)) as Hv.
  pose proof (countDigits_pos f n) as Hk.
  destruct (countDigits f n) as [|w] eqn:Ek; [lia|].
  unfold pad in *. destruct (padDigits_head w n "") as (rest & E & Hr).
  rewrite E in *.
  destruct w as [|w].
  - rewrite (Hr eq_refl) in *. change (10 ^ Z.of_nat 0) with 1. rewrite Z.div_1_r.
    change (10 ^ Z.of_nat 1) with 10 in Hu. rewrite Z.mod_small by lia.
    apply intOfString_single. lia.
  - assert (H10 : 10 <= n) by (destruct (Z_lt_le_dec n 10) as [Hlt|]; [specialize (Hs Hlt); lia|lia]).
    specialize (Hl H10).
    replace (Z.of_nat (S (S w)) - 1) with (Z.of_nat (S w)) in Hl by lia.
    rewrite (Nat2Z.inj_succ (S w)), Z.pow_succ_r in Hu by lia.
    assert (Hd : 1 <= n / 10 ^ Z.of_nat (S w) <= 9).
    { assert (0 < 10 ^ Z.of_nat (S w)) by (apply Z.pow_pos_nonneg; lia).
      split; [apply Z.div_le_lower_bound; lia|].
      apply Z.lt_succ_r. apply Z.div_lt_upper_bound; lia. }
    rewrite (Z.mod_small (n / 10 ^ Z.of_nat (S w))) in * by lia.
    rewrite intOfString_digit by exact Hd. rewrite Hv. cbn [mbind option_bind].
    f_equal. lia.
Qed.

Lemma isInt_decimal min max n :
  0 <= n ->
  isInt min max (decimal n)
  = (min <=? n) && match max with Some m => n <=? m | None => true end.
Proof. intros Hn. unfold isInt. now rewrite intOfString_decimal. Qed.

End DecimalFacts.

Module SubmitFacts.
Import Cal CalFacts Js JsFacts Routines RoutinesRoute DecimalFacts Submit.

Lemma trimEnd_cons c r :
  trimEnd (String c r)
  = match trimEnd r with
    | EmptyString => if isSpace c then EmptyString else String c EmptyString
    | r' => String c r'
    end.
Proof. reflexivity. Qed.

Lemma trimEnd_idem s : trimEnd (trimEnd s) = trimEnd s.
Proof.
  induction s as [|c r IH]; [reflexivity|]. rewrite trimEnd_cons.
  destruct (trimEnd r) as [|c' r'] eqn:E.
  - destruct (isSpace c) eqn:Ec; [reflexivity|]. rewrite trimEnd_cons. cbn [trimEnd].
    now rewrite Ec.
  - rewrite trimEnd_cons, IH. reflexivity.
Qed.

Lemma trimStart_head s :
  trimStart s = EmptyString \/ exists c r, trimStart s = String c r /\ isSpace c = false.
Proof.
  induction s as [|c r IH]; [now left|]. cbn [trimStart].
  destruct (isSpace c) eqn:E; [exact IH|]. right. eauto.
Qed.

Lemma trimEnd_head c r :
  isSpace c = false -> exists r', trimEnd (String c r) = String c r'.
Proof.
  intros Hc. rewrite trimEnd_cons. destruct (trimEnd r); [rewrite Hc|]; eauto.
Qed.

Lemma trim_idem s : trim (trim s) = trim s.
Proof.
  unfold trim. destruct (trimStart_head s) as [->|(c & r & -> & Hc)]; [reflexivity|].
  destruct (trimEnd_head c r Hc) as [r' E]. rewrite E at 1.
  cbn [trimStart]. rewrite Hc, <- E. apply trimEnd_idem.
Qed.

Lemma scheduleOfForm_accepted p t type interval dayOfMonth days time cat :
  isEmpty (trim t) = false ->
  (type = CUSTOM -> 1 <= interval) ->
  (type = MONTHLY -> 1 <= dayOfMonth <= 31) ->
  let b := {| title := JStr (trim t); priority := JStr (priorityName p);
              schedule := Some (scheduleOfForm type interval dayOfMonth days time);
              categoryId := cat |} in
  validatePost b = None /\ validatePut b = None.
Proof.
  intros Ht Hi Hd b.
  assert (Hint : optional (standard (isInt 1 None)) (scheduleField RoutinesRoute.interval b) = true).
  { unfold b, scheduleField, scheduleOfForm. cbn [schedule RoutinesRoute.interval].
    case_bool_decide as E; [|reflexivity]. cbn [optional standard toString].
    specialize (Hi E). rewrite isInt_decimal by lia. cbn [andb].
    rewrite andb_true_r. apply Z.leb_le. lia. }
  assert (Hday : optional (standard (isInt 1 (Some 31)))
                   (scheduleField RoutinesRoute.dayOfMonth b) = true).
  { unfold b, scheduleField, scheduleOfForm. cbn [schedule RoutinesRoute.dayOfMonth].
    case_bool_decide as E; [|reflexivity]. cbn [optional standard toString].
    specialize (Hd E). rewrite isInt_decimal by lia.
    apply andb_true_iff. split; apply Z.leb_le; lia. }
  assert (Harr : optional isArray (scheduleField RoutinesRoute.daysOfWeek b) = true).
  { unfold b, scheduleField, scheduleOfForm. cbn [schedule RoutinesRoute.daysOfWeek].
    case_bool_decide; reflexivity. }
  assert (Hty : standard (isIn recurrenceTypes) (scheduleField RoutinesRoute.recurrenceType b) = true)
    by (destruct type; reflexivity).
  assert (Hpr : standard (isIn priorities) (RoutinesRoute.priority b) = true)
    by (destruct p; reflexivity).
  assert (Htl : standard (fun s => negb (isEmpty s)) (trimmed (RoutinesRoute.title b)) = true).
  { unfold b. cbn [RoutinesRoute.title trimmed toString standard]. now rewrite trim_idem, Ht. }
  split.
  - unfold validatePost, postChecks. rewrite Hint, Hday, Harr, Hty, Hpr, Htl. reflexivity.
  - unfold validatePut, putChecks. rewrite Hint, Hday, Harr.
    replace (optional (standard (isIn recurrenceTypes))
               (scheduleField RoutinesRoute.recurrenceType b)) with true
      by (destruct type; reflexivity).
    replace (optional (standard (isIn priorities)) (RoutinesRoute.priority b)) with true
      by (destruct p; reflexivity).
    unfold b at 1. cbn [RoutinesRoute.title optional].
    unfold b in Htl. cbn [RoutinesRoute.title] in Htl. rewrite Htl. reflexivity.
Qed.



Lemma elem_of_filter_neq day (l : list string) d :
  d ∈ List.filter (fun d => negb (String.eqb d day)) l <-> d ∈ l /\ d <> day.
Proof.
  rewrite !list_elem_of_In, filter_In, negb_true_iff, String.eqb_neq. reflexivity.
Qed.

Lemma NoDup_filter_bool {A} (p : A -> bool) l : NoDup l -> NoDup (List.filter p l).
Proof.
  induction 1 as [|x l Hx Hl IH]; cbn [List.filter]; [constructor|].
  destruct (p x); [|exact IH]. constructor; [|exact IH].
  rewrite list_elem_of_In, filter_In, <- list_elem_of_In. tauto.
Qed.

(** X12. Toggling a day in [RoutineForm] selects it if it was not selected and
    unselects it if it was; the other days stay as they are, and no day
    comes to be listed twice. *)
Theorem handleDayOfWeekToggle_flips day days :
  (day ∈ handleDayOfWeekToggle day days <-> day ∉ days) /\
  (forall d, d <> day -> (d ∈ handleDayOfWeekToggle day days <-> d ∈ days)) /\
  (NoDup days -> NoDup (handleDayOfWeekToggle day days)).
Proof.
  unfold handleDayOfWeekToggle. case_bool_decide as H; repeat split.
  - intros [_ Hd]%elem_of_filter_neq. contradiction.
  - intros Hn. contradiction.
  - intros [Hd _]%elem_of_filter_neq. exact Hd.
  - intros Hd. apply elem_of_filter_neq. auto.
  - apply NoDup_filter_bool.
  - intros _. exact H.
  - intros _. apply elem_of_app. right. now apply list_elem_of_singleton.
  - intros [Hd|Hd%list_elem_of_singleton]%elem_of_app; [exact Hd|contradiction].
  - intros Hd. apply elem_of_app. now left.
  - intros Hn. apply NoDup_app. split; [exact Hn|]. split; [|apply NoDup_singleton].
    intros x Hx Hx'%list_elem_of_singleton. subst x. contradiction.
Qed.

Lemma handleDayOfWeekToggle_flips_witness :
  NoDup (handleDayOfWeekToggle "TUE" ["MON"; "TUE"; "FRI"]).
Proof.
  apply (handleDayOfWeekToggle_flips "TUE" ["MON"; "TUE"; "FRI"]).
  repeat constructor; intros H; repeat (apply elem_of_cons in H as [H|H]; [discriminate H|]);
    inversion H.
Defined.

(** X13. In [AddTask] a day that is checked again while it is selected comes
    to be listed twice, and unchecking it then removes every copy. *)
Theorem handleDayOfWeekChange_duplicates day days :
  day ∈ days ->
  ~ NoDup (handleDayOfWeekChange day true days) /\
  day ∉ handleDayOfWeekChange day false (handleDayOfWeekChange day true days).
Proof.
  intros H. unfold handleDayOfWeekChange. split.
  - intros Hn. apply NoDup_app in Hn as (_ & Hd & _).
    apply (Hd day H). now apply list_elem_of_singleton.
  - intros [_ Hd]%elem_of_filter_neq. contradiction.
Qed.

Lemma handleDayOfWeekChange_duplicates_witness :
  ~ NoDup (handleDayOfWeekChange "MON" true ["MON"]).
Proof.
  apply (handleDayOfWeekChange_duplicates "MON" ["MON"]). apply list_elem_of_singleton.
  reflexivity.
Defined.

(** X14. Whatever the creation route accepts, the update route accepts. *)
Theorem validatePut_weaker b : validatePost b = None -> validatePut b = None.
Proof.
  unfold validatePost, validatePut, postChecks, putChecks, firstError.
  set (c1 := standard _ (trimmed _)). set (c2 := standard _ (RoutinesRoute.priority b)).
  set (c3 := standard _ (scheduleField RoutinesRoute.recurrenceType b)).
  set (c4 := optional _ (scheduleField RoutinesRoute.interval b)).
  set (c5 := optional isArray _). set (c6 := optional _ (scheduleField RoutinesRoute.dayOfMonth b)).
  assert (H1 : c1 = true -> optional (fun v => standard (fun s => negb (isEmpty s)) (trimmed v))
                              (RoutinesRoute.title b) = true).
  { unfold c1. destruct (RoutinesRoute.title b); auto. }
  assert (H2 : c2 = true -> optional (standard (isIn priorities)) (RoutinesRoute.priority b) = true).
  { unfold c2. destruct (RoutinesRoute.priority b); auto. }
  assert (H3 : c3 = true -> optional (standard (isIn recurrenceTypes))
                              (scheduleField RoutinesRoute.recurrenceType b) = true).
  { unfold c3. destruct (scheduleField _ b); auto. }
  cbn [List.filter fst snd].
  destruct c1; [rewrite (H1 eq_refl)|discriminate].
  destruct c2; [rewrite (H2 eq_refl)|discriminate].
  destruct c3; [rewrite (H3 eq_refl)|discriminate].
  destruct c4; [|discriminate]. destruct c5; [|discriminate]. destruct c6; [|discriminate].
  reflexivity.
Qed.

Lemma validatePut_weaker_witness :
  validatePut (RoutineExamples.body (RoutineExamples.scheduleOf "DAILY")) = None.
Proof. apply validatePut_weaker. vm_compute. reflexivity. Defined.

(** X15. A creation request without a [schedule] object is always refused,
    with the message for the title, the priority or the recurrence
    type, whichever fails first. *)
Theorem validatePost_no_schedule b :
  schedule b = None ->
  validatePost b = Some "Title is required" \/
  validatePost b = Some "Invalid priority" \/
  validatePost b = Some "Invalid recurrence type".
Proof.
  intros H. unfold validatePost, postChecks, firstError, scheduleField. rewrite H.
  cbn [List.filter fst snd optional].
  destruct (standard _ (trimmed _)); cbn [negb]; [|now left].
  destruct (standard _ (RoutinesRoute.priority b)); cbn [negb]; [|right; now left].
  right; right. reflexivity.
Qed.

Lemma validatePost_no_schedule_witness :
  validatePost {| title := JStr "Gym"; priority := JStr "LOW"; schedule := None;
                  categoryId := JUndefined |} = Some "Title is required" \/
  validatePost {| title := JStr "Gym"; priority := JStr "LOW"; schedule := None;
                  categoryId := JUndefined |} = Some "Invalid priority" \/
  validatePost {| title := JStr "Gym"; priority := JStr "LOW"; schedule := None;
                  categoryId := JUndefined |} = Some "Invalid recurrence type".
Proof. apply validatePost_no_schedule. reflexivity. Defined.

End SubmitFacts.

Module ParseIntFacts.
Import Cal CalFacts Js JsFacts Routines RoutinesRoute DecimalFacts Trends.

Lemma readDigits_prefix body : forall a v s,
  digitsVal a body = Some v ->
  match s with EmptyString => True | String c _ => digitVal c = None end ->
  readDigits digitVal 10 (Some a) (body +:+ s) = Some v.
Proof.
  induction body as [|c r IH]; intros a v s Hv Hs.
  - rewrite append_Empty. cbn in Hv. injection Hv as <-.
    destruct s as [|c' r']; [reflexivity|]. cbn [readDigits]. now rewrite Hs.
  - rewrite append_String. cbn [digitsVal readDigits] in *.
    destruct (digitVal c) as [d|]; [|discriminate]. cbn [default]. now apply IH.
Qed.

(** The numeral of a natural number: a first digit, which is 0 only for
    the numeral of 0, and the value read back. *)
Lemma numeral_digits m :
  0 <= m ->
  exists d rest,
    pad (countDigits (Z.to_nat (Z.log2 m)) m) m = String (digitChar d) rest /\
    0 <= d <= 9 /\ (d = 0 -> rest = "" /\ m = 0) /\
    digitsVal d rest = Some m.
Proof.
  intros Hn. set (f := Z.to_nat (Z.log2 m)).
  assert (Hf : 0 <= m < 2 ^ (Z.of_nat f + 1)).
  { unfold f. rewrite Z2Nat.id by apply Z.log2_nonneg.
    destruct (Z.eq_dec m 0) as [->|Hne]; [cbn; lia|].
    pose proof (Z.log2_spec m ltac:(lia)). replace (Z.log2 m + 1) with (Z.succ (Z.log2 m)) by lia.
    lia. }
  destruct (countDigits_spec f m Hf) as (Hu & Hl & Hs).
  pose proof (digitsVal_pad (countDigits f m) m ltac:(lia)) as Hv.
  pose proof (countDigits_pos f m) as Hk.
  destruct (countDigits f m) as [|w] eqn:Ek; [lia|].
  unfold pad in *. destruct (padDigits_head w m "") as (rest & E & Hr).
  rewrite E in *. exists (m / 10 ^ Z.of_nat w mod 10), rest.
  split; [reflexivity|]. split; [apply mod10|].
  cbn [digitsVal] in Hv. rewrite digitVal_digitChar in Hv by apply mod10.
  replace (10 * 0 + m / 10 ^ Z.of_nat w mod 10) with (m / 10 ^ Z.of_nat w mod 10) in Hv by lia.
  split; [|exact Hv].
  destruct w as [|w].
  - intros Hd. rewrite (Hr eq_refl) in *. cbn in Hv. injection Hv as Hv. split; [reflexivity|lia].
  - intros Hd. exfalso.
    assert (H10 : 10 <= m) by (destruct (Z_lt_le_dec m 10) as [Hlt|]; [specialize (Hs Hlt); lia|lia]).
    specialize (Hl H10).
    replace (Z.of_nat (S (S w)) - 1) with (Z.of_nat (S w)) in Hl by lia.
    rewrite (Nat2Z.inj_succ (S w)), Z.pow_succ_r in Hu by lia.
    assert (H1 : 1 <= m / 10 ^ Z.of_nat (S w) <= 9).
    { assert (0 < 10 ^ Z.of_nat (S w)) by (apply Z.pow_pos_nonneg; lia).
      split; [apply Z.div_le_lower_bound; lia|].
      apply Z.lt_succ_r. apply Z.div_lt_upper_bound; lia. }
    rewrite (Z.mod_small (m / 10 ^ Z.of_nat (S w))) in Hd by lia. lia.
Qed.

Lemma parseInt_digit d rest :
  1 <= d <= 9 ->
  parseInt (String (digitChar d) rest)
  = (n ← readDigits digitVal 10 (Some d) rest; Some (1 * n)) /\
  parseInt (String "-" (String (digitChar d) rest))
  = (n ← readDigits digitVal 10 (Some d) rest; Some (-1 * n)).
Proof.
  intros H. assert (C : d = 1 \/ d = 2 \/ d = 3 \/ d = 4 \/ d = 5 \/ d = 6 \/ d = 7
                        \/ d = 8 \/ d = 9) by lia.
  repeat (destruct C as [C|C]); subst d; split; reflexivity.
Qed.

Lemma parseInt_zero c rest :
  digitVal c = None -> c <> "x"%char -> c <> "X"%char ->
  parseInt (String "0" (String c rest)) = Some 0.
Proof.
  intros Hd Hx HX. unfold parseInt. cbn [trimStart isSpace].
  change (trimStart (String "0" (String c rest))) with (String "0" (String c rest)).
  cbv iota beta.
  destruct c as [b0 b1 b2 b3 b4 b5 b6 b7].
  destruct b0, b1, b2, b3, b4, b5, b6, b7;
    try (exfalso; apply Hx; reflexivity); try (exfalso; apply HX; reflexivity);
    try discriminate Hd; reflexivity.
Qed.

(** [parseInt] reads the numeral of an integer back, and reads it out of
    a longer string too, whatever follows the numeral: [parseInt] of
    [7days] is 7. *)
Theorem parseInt_decimal n s :
  stopsNumeral n s -> parseInt (decimal n +:+ s) = Some n.
Proof.
  intros Hs. unfold decimal.
  destruct (numeral_digits (Z.abs n) ltac:(lia)) as (d & rest & E & Hd & H0 & Hv).
  rewrite E.
  assert (Hstop : match s with EmptyString => True | String c _ => digitVal c = None end)
    by (destruct s; [exact I|apply Hs]).
  pose proof (readDigits_prefix rest d (Z.abs n) s Hv Hstop) as Hr.
  destruct (Z.eq_dec d 0) as [->|Hne].
  - destruct (H0 eq_refl) as [-> Hn]. assert (n = 0) by lia. subst n.
    change (0 <? 0) with false. cbv iota. rewrite append_Empty, append_String, append_Empty.
    destruct s as [|c r]; [reflexivity|]. destruct Hs as [Hc Hx].
    destruct (Hx eq_refl). now apply parseInt_zero.
  - destruct (parseInt_digit d (rest +:+ s) ltac:(lia)) as [Hp Hm].
    destruct (n <? 0) eqn:En; [apply Z.ltb_lt in En|apply Z.ltb_ge in En].
    + cbv iota. rewrite !append_String, append_Empty, append_String, Hm, Hr. cbn [mbind option_bind]. f_equal. lia.
    + cbv iota. rewrite append_Empty, append_String, Hp, Hr. cbn [mbind option_bind]. f_equal. lia.
Qed.

Lemma parseInt_decimal_witness : parseInt "7days" = Some 7.
Proof.
  apply (parseInt_decimal 7 "days"). split; [reflexivity|]. intros H. discriminate H.
Defined.

End ParseIntFacts.

Module TrendsFacts.
Import Cal CalFacts Js JsFacts Reports ReportsFacts RoutinesRoute Trends ParseIntFacts.

Lemma setDate_forward tza t : setDate tza t (getDate tza t + 1) = t + msPerDay.
Proof.
  replace (getDate tza t + 1) with (getDate tza t - (-1)) by lia.
  rewrite setDate_back. lia.
Qed.

Lemma trendsLoop_days tza tasks endDate (k : nat) : forall fuel cur acc,
  (k < fuel)%nat ->
  endDate - cur < Z.of_nat k * msPerDay ->
  (Z.of_nat k - 1) * msPerDay <= endDate - cur ->
  trendsLoop fuel tza tasks endDate cur acc
  = Some (acc ++ ((fun i => dailyEntry tza tasks (cur + i * msPerDay)) <$> seqZ 0 (Z.of_nat k))).
Proof.
  induction k as [|k IH]; intros fuel cur acc Hf Hu Hl;
    (destruct fuel as [|fuel]; [lia|]); cbn [trendsLoop].
  - replace (cur <=? endDate) with false by (symmetry; apply Z.leb_gt; lia).
    cbn. now rewrite app_nil_r.
  - replace (cur <=? endDate) with true by (symmetry; apply Z.leb_le; unfold msPerDay in *; lia).
    rewrite setDate_forward, IH by (unfold msPerDay in *; lia).
    f_equal. rewrite <- app_assoc. f_equal.
    rewrite Nat2Z.inj_succ, <- Z.add_1_l, seqZ_app, fmap_app by lia.
    change (seqZ 0 1) with [0]. cbn [fmap list_fmap app]. rewrite Z.mul_0_l, Z.add_0_r.
    f_equal. change (0 + 1) with (1 + 0). rewrite <- (fmap_add_seqZ 1 0), <- list_fmap_compose.
    apply list_fmap_ext. intros _ i _. cbn. f_equal. lia.
Qed.

(** The run of the handler for a period that [parseInt] reads as [d]. *)
Lemma getTrends_run fuel tza now now' db req d :
  parseInt (default "30" (tr_period req)) = Some d ->
  now <= now' < now + msPerDay -> getDate tza now' = getDate tza now ->
  - maxTime <= now' - d * msPerDay -> now' + msPerDay <= maxTime ->
  (Z.to_nat (d + 1) < fuel)%nat ->
  let start := now' - d * msPerDay in
  let tasks := List.filter (trendsFilter req start now) (db_tasks db) in
  let n := d + (if now' =? now then 1 else 0) in
  exists data,
    getTrends fuel tza now now' db req = Some data /\
    data = (fun i => dailyEntry tza tasks (start + i * msPerDay)) <$> seqZ 0 n /\
    length data = Z.to_nat n /\
    Forall (fun e => productivity e = (if tasksCompleted e >? 0 then 1 else 0)
                     /\ 0 <= tasksCompleted e /\ 0 <= tasksCreated e) data.
Proof.
  intros Hp Hn Hd _ _ Hf start tasks n. unfold getTrends. rewrite Hp. cbn [mbind option_bind].
  rewrite <- Hd, setDate_back. fold start. fold tasks.
  eexists. split; [|split; [reflexivity|split]].
  - destruct (Z_lt_le_dec n 1) as [Hneg|Hpos].
    + destruct fuel as [|fuel]; [lia|]. cbn [trendsLoop].
      replace (start <=? now) with false
        by (symmetry; apply Z.leb_gt; unfold n, start, msPerDay in *;
            destruct (Z.eqb_spec now' now); lia).
      rewrite (seqZ_nil 0 n) by lia. reflexivity.
    + rewrite (trendsLoop_days tza tasks now (Z.to_nat n))
        by (rewrite ?Z2Nat.id by lia; unfold n, start, msPerDay in *;
            destruct (Z.eqb_spec now' now); lia).
      rewrite Z2Nat.id by lia. reflexivity.
  - now rewrite length_fmap, length_seqZ.
  - apply Forall_fmap, Forall_forall. intros i _. cbn.
    split; [reflexivity|]. split; apply count_le.
Qed.


(** X16. For a period that is the numeral of [d], alone or followed by
    other text, the trends hold one entry for each day from [d] days
    before now on, in that order, each with productivity 0 or 1:
    [d + 1] entries, the last one today's, when both clock reads of the
    handler give the same millisecond, and only [d], without today's,
    when the clock advanced between them; for a negative [d] they are
    empty. *)
Theorem getTrends_entries fuel tza now now' db req d s :
  default "30" (tr_period req) = decimal d +:+ s -> stopsNumeral d s ->
  now <= now' < now + msPerDay -> getDate tza now' = getDate tza now ->
  - maxTime <= now' - d * msPerDay -> now' + msPerDay <= maxTime ->
  (Z.to_nat (d + 1) < fuel)%nat ->
  let start := now' - d * msPerDay in
  let tasks := List.filter (trendsFilter req start now) (db_tasks db) in
  let n := d + (if now' =? now then 1 else 0) in
  exists data,
    getTrends fuel tza now now' db req = Some data /\
    data = (fun i => dailyEntry tza tasks (start + i * msPerDay)) <$> seqZ 0 n /\
    length data = Z.to_nat n /\
    Forall (fun e => productivity e = (if tasksCompleted e >? 0 then 1 else 0)
                     /\ 0 <= tasksCompleted e /\ 0 <= tasksCreated e) data.
Proof.
  intros Hp Hs. apply getTrends_run. rewrite Hp. now apply parseInt_decimal.
Qed.

Lemma getTrends_entries_witness :
  exists data,
    getTrends 40 0 Examples.noon (Examples.noon + 1) Examples.db
      {| tr_user := "u1"; tr_period := Some "7days" |} = Some data /\ length data = 7%nat.
Proof.
  destruct (getTrends_entries 40 0 Examples.noon (Examples.noon + 1) Examples.db
              {| tr_user := "u1"; tr_period := Some "7days" |} 7 "days")
    as (data & H1 & _ & H2 & _).
  - reflexivity.
  - split; [reflexivity|]. intros H. discriminate H.
  - vm_compute. split; [discriminate|reflexivity].
  - reflexivity.
  - vm_compute. discriminate.
  - vm_compute. discriminate.
  - vm_compute. lia.
  - exists data. split; [exact H1|exact H2].
Defined.

End TrendsFacts.
